(** * SubscriptionCalculator: billing dates, reminders and monthly spend

    A shallow embedding of [SubscriptionCalculator] (the static-method class of
    the subscription tracker) together with the part of the ECMAScript [Date]
    object and of the [number] type that its methods exercise.

    Modelling conventions.
    - A [Date] is its time value, an integer count of milliseconds since the
      epoch; the calendar is the proleptic Gregorian one over all of [Z].
      The date arithmetic comes in two layers: the calendar arithmetic on
      [Date], without a range, and the date objects of [Ranged], where every
      constructor and setter ends in [TimeClip] and a time value beyond
      8.64e15 ms gives the Invalid Date.
    - Local time is UTC shifted by a fixed offset [LocalTZA] (a section
      variable): daylight-saving transitions are not modelled.
    - Every method that reads the clock ([new Date()]) takes the instant as an
      explicit argument [today]; one call sees one instant.
    - The integer-valued fields of a subscription ([billingDate],
      [customFrequencyDays], [cycleLimit], [reminderDaysBefore]) are integers
      of [Z]; an optional field is an [option].
    - Amounts are [number]s: exact rationals extended with the two infinities
      and NaN.  Rounding to binary64 and the sign of zero are not modelled.
    - [frequency] is the string the switch statements compare, so that values
      outside the [BillingFrequency] union can be expressed.
    - [Array.prototype.sort] is a stable sort directed by the sign of the
      comparator; [filter] and [sort] callbacks may throw, so both are
      written in the completion monad. *)

From Stdlib Require Import ZArith List Bool String Lia Permutation Sorted.
From Stdlib Require Import QArith Qcanon Qround.
From Stdlib Require Qcabs DecimalString DecimalN.
Import ListNotations.

Local Open Scope Z_scope.

(** ** Completions: a value or a thrown [Error] *)

Inductive result (A : Type) : Type :=
| Ok (a : A)
| Throw (message : string).

Arguments Ok {A} a.
Arguments Throw {A} message.

Definition bind {A B : Type} (m : result A) (k : A -> result B) : result B :=
  match m with
  | Ok a => k a
  | Throw e => Throw e
  end.

Notation "x <- m ;; k" := (bind m (fun x => k))
  (at level 61, m at next level, right associativity).

(** ** ECMAScript day and time arithmetic (ECMA-262, "Time Values and Time Range") *)

Module ES.

Definition msPerDay : Z := 86400000.

Definition Day (t : Z) : Z := t / msPerDay.
Definition TimeWithinDay (t : Z) : Z := t mod msPerDay.

Definition isLeapYear (y : Z) : bool :=
  if negb (y mod 4 =? 0) then false
  else if negb (y mod 100 =? 0) then true
  else if negb (y mod 400 =? 0) then false
  else true.

Definition DaysInYear (y : Z) : Z := if isLeapYear y then 366 else 365.

Definition DayFromYear (y : Z) : Z :=
  365 * (y - 1970) + (y - 1969) / 4 - (y - 1901) / 100 + (y - 1601) / 400.

(** The largest year whose first day is not after day [d]: an estimate from
    the mean year length, corrected by at most one year either way. *)
Definition YearFromDay (d : Z) : Z :=
  let y0 := 1970 + (400 * d) / 146097 in
  if DayFromYear (y0 + 1) <=? d then y0 + 1
  else if DayFromYear y0 <=? d then y0
  else y0 - 1.

Definition YearFromTime (t : Z) : Z := YearFromDay (Day t).

Definition InLeapYear (t : Z) : Z :=
  if isLeapYear (YearFromTime t) then 1 else 0.

Definition DayWithinYear (t : Z) : Z := Day t - DayFromYear (YearFromTime t).

(** Number of days of the year that precede month [m] (0 = January). *)
Definition daysBeforeMonth (leap m : Z) : Z :=
  match m with
  | 0 => 0
  | 1 => 31
  | 2 => 59 + leap
  | 3 => 90 + leap
  | 4 => 120 + leap
  | 5 => 151 + leap
  | 6 => 181 + leap
  | 7 => 212 + leap
  | 8 => 243 + leap
  | 9 => 273 + leap
  | 10 => 304 + leap
  | _ => 334 + leap
  end.

Definition MonthFromTime (t : Z) : Z :=
  let d := DayWithinYear t in
  let leap := InLeapYear t in
  if d <? 31 then 0
  else if d <? 59 + leap then 1
  else if d <? 90 + leap then 2
  else if d <? 120 + leap then 3
  else if d <? 151 + leap then 4
  else if d <? 181 + leap then 5
  else if d <? 212 + leap then 6
  else if d <? 243 + leap then 7
  else if d <? 273 + leap then 8
  else if d <? 304 + leap then 9
  else if d <? 334 + leap then 10
  else 11.

Definition DateFromTime (t : Z) : Z :=
  DayWithinYear t - daysBeforeMonth (InLeapYear t) (MonthFromTime t) + 1.

(** [MakeDay]: the day number of the [date]-th day counted from the first of
    month [month] of [year]; months outside 0..11 carry into the year. *)
Definition MakeDay (year month date : Z) : Z :=
  let ym := year + month / 12 in
  let mn := month mod 12 in
  DayFromYear ym + daysBeforeMonth (if isLeapYear ym then 1 else 0) mn + date - 1.

Definition MakeTime (hour min sec ms : Z) : Z :=
  hour * 3600000 + min * 60000 + sec * 1000 + ms.

Definition MakeDate (day time : Z) : Z := day * msPerDay + time.

End ES.

(** ** The [Date] object *)

Record Date : Type := mkDate { getTime : Z }.

Definition Date_le (a b : Date) : bool := getTime a <=? getTime b.
Definition Date_lt (a b : Date) : bool := getTime a <? getTime b.
Definition Date_gt (a b : Date) : bool := getTime b <? getTime a.

Section LocalTime.

(** Offset of local time from UTC, in milliseconds. *)
Variable LocalTZA : Z.

Definition LocalTime (t : Z) : Z := t + LocalTZA.
Definition UTC (t : Z) : Z := t - LocalTZA.

Definition getFullYear (d : Date) : Z := ES.YearFromTime (LocalTime (getTime d)).
Definition getMonth (d : Date) : Z := ES.MonthFromTime (LocalTime (getTime d)).
Definition getDate (d : Date) : Z := ES.DateFromTime (LocalTime (getTime d)).

(** [new Date(year, month, day)]: local midnight of that day; a year in
    0..99 denotes 1900 + year. *)
Definition newDate (year month day : Z) : Date :=
  let yr := if (0 <=? year) && (year <=? 99) then 1900 + year else year in
  mkDate (UTC (ES.MakeDate (ES.MakeDay yr month day) (ES.MakeTime 0 0 0 0))).

Definition setMonth (d : Date) (month : Z) : Date :=
  let t := LocalTime (getTime d) in
  let day := ES.MakeDay (ES.YearFromTime t) month (ES.DateFromTime t) in
  mkDate (UTC (ES.MakeDate day (ES.TimeWithinDay t))).

Definition setFullYear (d : Date) (year : Z) : Date :=
  let t := LocalTime (getTime d) in
  let day := ES.MakeDay year (ES.MonthFromTime t) (ES.DateFromTime t) in
  mkDate (UTC (ES.MakeDate day (ES.TimeWithinDay t))).

Definition setDate (d : Date) (date : Z) : Date :=
  let t := LocalTime (getTime d) in
  let day := ES.MakeDay (ES.YearFromTime t) (ES.MonthFromTime t) date in
  mkDate (UTC (ES.MakeDate day (ES.TimeWithinDay t))).

End LocalTime.

(** ** The [number] type *)

Inductive number : Type :=
| Fin (q : Qc)
| PosInf
| NegInf
| NaN.

Module Num.

Definition of_Z (z : Z) : number := Fin (Q2Qc (inject_Z z)).

(** Sign of a number: [Some Gt], [Some Lt], [Some Eq] for zero, [None] for NaN. *)
Definition sign (x : number) : option comparison :=
  match x with
  | Fin q => Some (q ?= 0)%Qc
  | PosInf => Some Gt
  | NegInf => Some Lt
  | NaN => None
  end.

Definition inf_of (c : comparison) : number :=
  match c with
  | Gt => PosInf
  | Lt => NegInf
  | Eq => NaN
  end.

Definition sign_mul (a b : comparison) : comparison :=
  match a, b with
  | Eq, _ | _, Eq => Eq
  | Gt, Gt | Lt, Lt => Gt
  | _, _ => Lt
  end.

Definition add (x y : number) : number :=
  match x, y with
  | NaN, _ | _, NaN => NaN
  | Fin a, Fin b => Fin (a + b)%Qc
  | PosInf, NegInf | NegInf, PosInf => NaN
  | PosInf, _ | _, PosInf => PosInf
  | NegInf, _ | _, NegInf => NegInf
  end.

Definition sub (x y : number) : number :=
  match x, y with
  | NaN, _ | _, NaN => NaN
  | Fin a, Fin b => Fin (a - b)%Qc
  | PosInf, PosInf | NegInf, NegInf => NaN
  | PosInf, _ | _, NegInf => PosInf
  | NegInf, _ | _, PosInf => NegInf
  end.

Definition mul (x y : number) : number :=
  match x, y with
  | Fin a, Fin b => Fin (a * b)%Qc
  | _, _ =>
      match sign x, sign y with
      | Some a, Some b => inf_of (sign_mul a b)
      | _, _ => NaN
      end
  end.

Definition div (x y : number) : number :=
  match x, y with
  | NaN, _ | _, NaN => NaN
  | Fin a, Fin b =>
      if Qc_eq_dec b 0 then inf_of (a ?= 0)%Qc else Fin (a / b)%Qc
  | Fin a, _ => Fin 0%Qc
  | _, Fin b =>
      match sign x, (b ?= 0)%Qc with
      | Some s, Lt => inf_of (sign_mul s Lt)
      | Some s, _ => inf_of s
      | None, _ => NaN
      end
  | _, _ => NaN
  end.

(** [x < y]; false as soon as one side is NaN. *)
Definition ltb (x y : number) : bool :=
  match x, y with
  | NaN, _ | _, NaN => false
  | Fin a, Fin b => match (a ?= b)%Qc with Lt => true | _ => false end
  | NegInf, NegInf | PosInf, _ | _, NegInf => false
  | NegInf, _ | _, PosInf => true
  end.

Definition leb (x y : number) : bool :=
  match x, y with
  | NaN, _ | _, NaN => false
  | Fin a, Fin b => match (a ?= b)%Qc with Gt => false | _ => true end
  | NegInf, _ | _, PosInf => true
  | _, _ => false
  end.

(** [Math.max] and [Math.min] of two arguments. *)
Definition max (x y : number) : number :=
  match x, y with
  | NaN, _ | _, NaN => NaN
  | _, _ => if ltb x y then y else x
  end.

Definition min (x y : number) : number :=
  match x, y with
  | NaN, _ | _, NaN => NaN
  | _, _ => if ltb y x then y else x
  end.

(** [Math.ceil]. *)
Definition ceil (x : number) : number :=
  match x with
  | Fin q => of_Z (Qceiling q)
  | _ => x
  end.

End Num.

(** ** Printing numbers

    [toFixed(2)]: the number rounded to the nearest hundredth (the larger one
    on a tie), printed with at least one digit before the point and exactly
    two after it.  From 10^21 on the method prints the number as
    [Number::toString] does, in exponent notation; that printer is a
    parameter. *)

Module NumFormat.

(** The decimal digits of a natural number, ["0"] for zero. *)
Definition decimal (n : Z) : string :=
  DecimalString.NilZero.string_of_uint (N.to_uint (Z.to_N n)).

Section ToFixed.

Variable exponential : Qc -> string.

Definition toFixed2 (x : number) : string :=
  match x with
  | NaN => "NaN"
  | PosInf => "Infinity"
  | NegInf => "-Infinity"
  | Fin q =>
      let s := (if Qclt_le_dec q 0 then "-" else "")%string in
      let x := Qcabs.Qcabs q in
      if Qclt_le_dec x (Q2Qc (inject_Z (10 ^ 21))) then
        let n := Qfloor (x * Q2Qc (inject_Z 100) + Q2Qc (1 # 2))%Qc in
        (s ++ decimal (n / 100) ++ "." ++ decimal (n / 10 mod 10)
           ++ decimal (n mod 10))%string
      else (s ++ exponential x)%string
  end.

End ToFixed.

End NumFormat.

(** ** Subscriptions ([subscription.types.ts]) *)

Inductive Currency : Type := USD | INR | EUR | GBP | AUD.

(** A [BillingFrequency] at run time is the string the code switches on. *)
Definition BillingFrequency : Type := string.
Bind Scope string_scope with BillingFrequency.

Record Subscription : Type := mkSubscription {
  id : string;
  amount : number;
  currency : Currency;
  billingDate : Z;
  frequency : BillingFrequency;
  customFrequencyDays : option Z;
  startDate : Date;
  isOneTime : bool;
  cycleLimit : option Z;
  reminderEnabled : bool;
  reminderDaysBefore : Z;
  isDeleted : option bool
}.

(** Truthiness of an optional integer: absent and [0] are falsy. *)
Definition truthyZ (o : option Z) : bool :=
  match o with
  | Some n => negb (n =? 0)
  | None => false
  end.

(** Truthiness of an optional boolean. *)
Definition truthyB (o : option bool) : bool :=
  match o with
  | Some b => b
  | None => false
  end.

(** The value an optional integer takes in arithmetic once it is known to be
    truthy. *)
Definition valueZ (o : option Z) : Z :=
  match o with
  | Some n => n
  | None => 0
  end.

(** ** Array helpers with callbacks that may throw *)

Fixpoint filterM {A : Type} (p : A -> result bool) (l : list A) : result (list A) :=
  match l with
  | [] => Ok []
  | x :: l' =>
      keep <- p x ;;
      rest <- filterM p l' ;;
      Ok (if keep then x :: rest else rest)
  end.

(** [Array.prototype.sort] with a comparator: a stable sort.  An element moves
    behind a later one only when the comparator is positive on the pair; a NaN
    result counts as zero. *)
Fixpoint insertM {A : Type} (cmp : A -> A -> result number) (x : A) (l : list A)
  : result (list A) :=
  match l with
  | [] => Ok [x]
  | y :: l' =>
      v <- cmp x y ;;
      if Num.ltb (Num.of_Z 0) v
      then (rest <- insertM cmp x l' ;; Ok (y :: rest))
      else Ok (x :: y :: l')
  end.

Fixpoint sortM {A : Type} (cmp : A -> A -> result number) (l : list A)
  : result (list A) :=
  match l with
  | [] => Ok []
  | x :: l' =>
      sorted <- sortM cmp l' ;;
      insertM cmp x sorted
  end.

(** A counted loop [for (let i = 0; i < n; i++) acc = body(acc)]. *)
Definition for_loop {A : Type} (n : Z) (body : A -> A) (init : A) : A :=
  Nat.iter (Z.to_nat n) body init.

(** ** The calculator ([SubscriptionCalculator]) *)

Module SubscriptionCalculator.

Local Open Scope string_scope.

Definition rates (c : Currency) : number :=
  match c with
  | USD => Fin (Q2Qc 1)
  | INR => Fin (Q2Qc 83.0)
  | EUR => Fin (Q2Qc 0.92)
  | GBP => Fin (Q2Qc 0.79)
  | AUD => Fin (Q2Qc 1.52)
  end.

Definition Currency_eqb (a b : Currency) : bool :=
  match a, b with
  | USD, USD | INR, INR | EUR, EUR | GBP, GBP | AUD, AUD => true
  | _, _ => false
  end.

Definition convertCurrency (amount : number) (from to : Currency) : number :=
  if Currency_eqb from to then amount
  else
    let inUSD := Num.div amount (rates from) in
    Num.mul inUSD (rates to).

Definition symbols (c : Currency) : string :=
  match c with
  | USD => "$"
  | INR => "₹"
  | EUR => "€"
  | GBP => "£"
  | AUD => "A$"
  end.

(** [exponential] prints amounts from 10^21 on, see [NumFormat]. *)
Definition formatCurrency (exponential : Qc -> string)
  (amount : number) (currency : Currency) : string :=
  symbols currency ++ NumFormat.toFixed2 exponential amount.

Definition getMonthlyEquivalent (subscription : Subscription) : number :=
  let amount := amount subscription in
  let frequency := frequency subscription in
  let customFrequencyDays := customFrequencyDays subscription in
  if frequency =? "monthly" then amount
  else if frequency =? "quarterly" then Num.div amount (Num.of_Z 3)
  else if frequency =? "half-yearly" then Num.div amount (Num.of_Z 6)
  else if frequency =? "yearly" then Num.div amount (Num.of_Z 12)
  else if frequency =? "custom" then
    match customFrequencyDays with
    | Some days =>
        if (days =? 0)%Z then amount
        else Num.div (Num.mul amount (Num.of_Z 30)) (Num.of_Z days)
    | None => amount
    end
  else amount.

Definition calculateTotalMonthlySpend
  (subscriptions : list Subscription) (targetCurrency : Currency) : number :=
  fold_left
    (fun total sub =>
       let monthlyAmount := getMonthlyEquivalent sub in
       let convertedAmount :=
         convertCurrency monthlyAmount (currency sub) targetCurrency in
       Num.add total monthlyAmount)
    (filter (fun sub => negb (truthyB (isDeleted sub))) subscriptions)
    (Num.of_Z 0).

Section Dates.

Variable LocalTZA : Z.

Definition addBillingCycle
  (date : Date) (frequency : BillingFrequency) (customDays : option Z) : Date :=
  let newDate := date in
  if frequency =? "monthly" then
    setMonth LocalTZA newDate (getMonth LocalTZA newDate + 1)
  else if frequency =? "quarterly" then
    setMonth LocalTZA newDate (getMonth LocalTZA newDate + 3)
  else if frequency =? "half-yearly" then
    setMonth LocalTZA newDate (getMonth LocalTZA newDate + 6)
  else if frequency =? "yearly" then
    setFullYear LocalTZA newDate (getFullYear LocalTZA newDate + 1)
  else if frequency =? "custom" then
    match customDays with
    | Some days =>
        if (days =? 0)%Z then newDate
        else setDate LocalTZA newDate (getDate LocalTZA newDate + days)
    | None => newDate
    end
  else newDate.

Definition subtractBillingCycle
  (date : Date) (frequency : BillingFrequency) (customDays : option Z) : Date :=
  let newDate := date in
  if frequency =? "monthly" then
    setMonth LocalTZA newDate (getMonth LocalTZA newDate - 1)
  else if frequency =? "quarterly" then
    setMonth LocalTZA newDate (getMonth LocalTZA newDate - 3)
  else if frequency =? "half-yearly" then
    setMonth LocalTZA newDate (getMonth LocalTZA newDate - 6)
  else if frequency =? "yearly" then
    setFullYear LocalTZA newDate (getFullYear LocalTZA newDate - 1)
  else if frequency =? "custom" then
    match customDays with
    | Some days =>
        if (days =? 0)%Z then newDate
        else setDate LocalTZA newDate (getDate LocalTZA newDate - days)
    | None => newDate
    end
  else newDate.

Definition getSubscriptionEndDate (subscription : Subscription) : result Date :=
  if negb (isOneTime subscription) || negb (truthyZ (cycleLimit subscription))
  then Throw "Not a one-time subscription"
  else
    let startDate := startDate subscription in
    Ok (for_loop (valueZ (cycleLimit subscription))
          (fun endDate =>
             addBillingCycle endDate (frequency subscription)
               (customFrequencyDays subscription))
          startDate).

Definition getNextBillingDate (subscription : Subscription) (today : Date)
  : result Date :=
  let startDate := startDate subscription in (* read, never used *)
  let billingDay := billingDate subscription in
  (* the early return of a one-time subscription that has ended *)
  ended <-
    (if isOneTime subscription && truthyZ (cycleLimit subscription) then
       endDate <- getSubscriptionEndDate subscription ;;
       Ok (if Date_gt today endDate then Some endDate else None)
     else Ok None) ;;
  match ended with
  | Some endDate => Ok endDate
  | None =>
      let nextDate :=
        newDate LocalTZA (getFullYear LocalTZA today) (getMonth LocalTZA today)
          billingDay in
      if Date_le nextDate today
      then Ok (addBillingCycle nextDate (frequency subscription)
                 (customFrequencyDays subscription))
      else Ok nextDate
  end.

Definition getCancellationReminderDate (subscription : Subscription)
  : option Date :=
  if negb (isOneTime subscription)
     || negb (truthyZ (cycleLimit subscription))
     || (valueZ (cycleLimit subscription) <=? 1)%Z
  then None
  else
    let startDate := startDate subscription in
    Some (for_loop (valueZ (cycleLimit subscription) - 1)
            (fun reminderDate =>
               addBillingCycle reminderDate (frequency subscription)
                 (customFrequencyDays subscription))
            startDate).

Definition getReminderDate (subscription : Subscription) (today : Date)
  : result (option Date) :=
  if negb (reminderEnabled subscription) then Ok None
  else
    nextBilling <- getNextBillingDate subscription today ;;
    Ok (Some (setDate LocalTZA nextBilling
                (getDate LocalTZA nextBilling - reminderDaysBefore subscription))).

Definition getDaysUntilBilling (subscription : Subscription) (today : Date)
  : result number :=
  nextBilling <- getNextBillingDate subscription today ;;
  let diffTime :=
    Num.sub (Num.of_Z (getTime nextBilling)) (Num.of_Z (getTime today)) in
  Ok (Num.ceil (Num.div diffTime (Num.of_Z (1000 * 60 * 60 * 24)))).

Definition getUpcomingSubscriptions
  (subscriptions : list Subscription) (days : number) (today : Date)
  : result (list Subscription) :=
  kept <- filterM
            (fun sub =>
               if truthyB (isDeleted sub) then Ok false
               else
                 daysUntil <- getDaysUntilBilling sub today ;;
                 Ok (Num.leb (Num.of_Z 0) daysUntil && Num.leb daysUntil days))
            subscriptions ;;
  sortM
    (fun a b =>
       da <- getDaysUntilBilling a today ;;
       db <- getDaysUntilBilling b today ;;
       Ok (Num.sub da db))
    kept.

Definition isActive (subscription : Subscription) (today : Date) : result bool :=
  if truthyB (isDeleted subscription) then Ok false
  else if isOneTime subscription && truthyZ (cycleLimit subscription) then
    endDate <- getSubscriptionEndDate subscription ;;
    Ok (Date_lt today endDate)
  else Ok true.

Definition getBillingCycleProgress (subscription : Subscription) (now : Date)
  : result number :=
  nextBilling <- getNextBillingDate subscription now ;;
  let prevBilling :=
    subtractBillingCycle nextBilling (frequency subscription)
      (customFrequencyDays subscription) in
  let totalTime :=
    Num.sub (Num.of_Z (getTime nextBilling)) (Num.of_Z (getTime prevBilling)) in
  let elapsed :=
    Num.sub (Num.of_Z (getTime now)) (Num.of_Z (getTime prevBilling)) in
  let progress := Num.mul (Num.div elapsed totalTime) (Num.of_Z 100) in
  Ok (Num.max (Num.of_Z 0) (Num.min (Num.of_Z 100) progress)).

End Dates.

End SubscriptionCalculator.

(** ** Specification-side definitions *)

Import SubscriptionCalculator.

(** The sum of a list of numbers, as a mathematical sum (right-nested). *)
Definition sum_numbers (l : list number) : number :=
  fold_right Num.add (Num.of_Z 0) l.

(** The entries whose [isDeleted] flag is not [true]. *)
Definition not_deleted (s : Subscription) : bool :=
  match isDeleted s with
  | Some true => false
  | _ => true
  end.

(** The exchange-rate table as the specification lists it. *)
Definition rate_table (c : Currency) : number :=
  match c with
  | USD => Num.of_Z 1
  | INR => Num.of_Z 83
  | EUR => Num.div (Num.of_Z 92) (Num.of_Z 100)
  | GBP => Num.div (Num.of_Z 79) (Num.of_Z 100)
  | AUD => Num.div (Num.of_Z 152) (Num.of_Z 100)
  end.

(** The five values of the [BillingFrequency] union. *)
Definition recognized (f : BillingFrequency) : Prop :=
  f = "monthly"%string \/ f = "quarterly"%string \/ f = "half-yearly"%string
  \/ f = "yearly"%string \/ f = "custom"%string.

(** Day number of the first day of the month with index [k], months being
    counted from January of year 0 ([k = 12 * year + month]). *)
Definition firstOfMonth (k : Z) : Z :=
  ES.DayFromYear (k / 12)
  + ES.daysBeforeMonth (if ES.isLeapYear (k / 12) then 1 else 0) (k mod 12).

(** The cycle-advance rule, in calendar terms: a date moved by [n] calendar
    months, years or days, keeping the local time of day, with the platform's
    month rollover (the day of the month is counted on from the first of the
    target month). *)
Definition plus_months (tza n : Z) (d : Date) : Date :=
  setMonth tza d (getMonth tza d + n).
Definition plus_years (tza n : Z) (d : Date) : Date :=
  setFullYear tza d (getFullYear tza d + n).
Definition plus_days (tza n : Z) (d : Date) : Date :=
  setDate tza d (getDate tza d + n).

(** A subscription whose cycle length is defined and positive: the frequency
    is one of the five of the union and, for [custom], [customFrequencyDays]
    is a positive integer. *)
Definition well_formed (s : Subscription) : Prop :=
  recognized (frequency s)
  /\ (frequency s = "custom"%string ->
      exists d : Z, customFrequencyDays s = Some d /\ 0 < d).

(** Sample subscriptions and instants (UTC) used as concrete inputs. *)
Definition date_2024_01_01 : Date := mkDate 1704067200000.
Definition date_2024_01_15 : Date := mkDate 1705276800000.
Definition date_2024_01_20 : Date := mkDate 1705708800000.
Definition date_2024_01_20_noon : Date := mkDate 1705752000000.
Definition date_2024_01_08 : Date := mkDate 1704672000000.
Definition date_2024_02_15 : Date := mkDate 1707955200000.
Definition date_2024_06_01 : Date := mkDate 1717200000000.
Definition date_2024_07_01 : Date := mkDate 1719792000000.
Definition date_2030_01_01 : Date := mkDate 1893456000000.

(** Monthly, 9.99 USD, billed on the 15th, recurring. *)
Definition sample_monthly : Subscription :=
  {| id := "netflix"; amount := Fin (Q2Qc 9.99); currency := USD;
     billingDate := 15; frequency := "monthly"; customFrequencyDays := None;
     startDate := date_2024_01_15; isOneTime := false; cycleLimit := None;
     reminderEnabled := true; reminderDaysBefore := 3; isDeleted := Some false |}.


(** Six monthly cycles from 2024-01-01. *)
Definition sample_six_months : Subscription :=
  {| id := "course"; amount := Num.of_Z 20; currency := EUR;
     billingDate := 1; frequency := "monthly"; customFrequencyDays := None;
     startDate := date_2024_01_01; isOneTime := true; cycleLimit := Some 6;
     reminderEnabled := false; reminderDaysBefore := 0; isDeleted := None |}.


(** Recurring, every 7 days, billed on the 1st. *)
Definition sample_weekly : Subscription :=
  {| id := "gym"; amount := Num.of_Z 5; currency := GBP;
     billingDate := 1; frequency := "custom"; customFrequencyDays := Some 7;
     startDate := date_2024_01_01; isOneTime := false; cycleLimit := None;
     reminderEnabled := false; reminderDaysBefore := 0; isDeleted := None |}.

(** Custom frequency, 300 every 90 days. *)
Definition sample_ninety_days : Subscription :=
  {| id := "storage"; amount := Num.of_Z 300; currency := USD;
     billingDate := 1; frequency := "custom"; customFrequencyDays := Some 90;
     startDate := date_2024_01_01; isOneTime := false; cycleLimit := None;
     reminderEnabled := false; reminderDaysBefore := 0; isDeleted := None |}.

(** Custom frequency with [customFrequencyDays] present and zero. *)
Definition sample_zero_days : Subscription :=
  {| id := "zero"; amount := Num.of_Z 10; currency := USD;
     billingDate := 1; frequency := "custom"; customFrequencyDays := Some 0;
     startDate := date_2024_01_01; isOneTime := false; cycleLimit := None;
     reminderEnabled := false; reminderDaysBefore := 0; isDeleted := None |}.

(** One-time custom subscription of three cycles without [customFrequencyDays]. *)
Definition sample_custom_no_days : Subscription :=
  {| id := "nodays"; amount := Num.of_Z 10; currency := USD;
     billingDate := 1; frequency := "custom"; customFrequencyDays := None;
     startDate := date_2024_01_01; isOneTime := true; cycleLimit := Some 3;
     reminderEnabled := false; reminderDaysBefore := 0; isDeleted := None |}.

(** A soft-deleted monthly subscription of 10 and a live one. *)
Definition sample_deleted : Subscription :=
  {| id := "old"; amount := Num.of_Z 10; currency := INR;
     billingDate := 5; frequency := "monthly"; customFrequencyDays := None;
     startDate := date_2024_01_01; isOneTime := false; cycleLimit := None;
     reminderEnabled := false; reminderDaysBefore := 0; isDeleted := Some true |}.
Definition sample_live : Subscription :=
  {| id := "new"; amount := Num.of_Z 10; currency := INR;
     billingDate := 25; frequency := "monthly"; customFrequencyDays := None;
     startDate := date_2024_01_01; isOneTime := false; cycleLimit := None;
     reminderEnabled := false; reminderDaysBefore := 0; isDeleted := Some false |}.

(** The next occurrence of the billing day, as [getNextBillingDate] computes
    it past its early return: a function of the instant and of three fields. *)
Definition next_occurrence
  (tza : Z) (billingDay : Z) (f : BillingFrequency) (customDays : option Z)
  (today : Date) : Date :=
  let nextDate :=
    newDate tza (getFullYear tza today) (getMonth tza today) billingDay in
  if Date_le nextDate today then addBillingCycle tza nextDate f customDays
  else nextDate.

(** The date [getNextBillingDate] returns (it never throws, see
    [getNextBillingDate_returns]). *)
Definition next_billing (tza : Z) (s : Subscription) (today : Date) : Date :=
  match getNextBillingDate tza s today with
  | Ok d => d
  | Throw _ => today
  end.

(** Whole days until the next billing, rounded up, as an integer. *)
Definition days_key (tza : Z) (today : Date) (s : Subscription) : Z :=
  - ((- (getTime (next_billing tza s today) - getTime today)) / ES.msPerDay).

(** An entry that [getUpcomingSubscriptions] is specified to keep: not
    soft-deleted, and billed in [0, days] days. *)
Definition upcoming (tza : Z) (days : number) (today : Date) (s : Subscription)
  : bool :=
  not_deleted s
  && match getDaysUntilBilling tza s today with
     | Ok k => Num.leb (Num.of_Z 0) k && Num.leb k days
     | Throw _ => false
     end.

(** [a] is billed no later than [b], in days. *)
Definition days_le (tza : Z) (today : Date) (a b : Subscription) : Prop :=
  exists ka kb : number,
    getDaysUntilBilling tza a today = Ok ka
    /\ getDaysUntilBilling tza b today = Ok kb
    /\ Num.leb ka kb = true.

(** Stable insertion sort by an integer key. *)
Fixpoint insert_by {A : Type} (key : A -> Z) (x : A) (l : list A) : list A :=
  match l with
  | [] => [x]
  | y :: l' => if key y <? key x then y :: insert_by key x l' else x :: y :: l'
  end.

Definition sort_by {A : Type} (key : A -> Z) (l : list A) : list A :=
  fold_right (insert_by key) [] l.

(** Length in calendar months of the cycle of a calendar frequency. *)
Definition cycle_months (f : BillingFrequency) : option Z :=
  if (f =? "monthly")%string then Some 1
  else if (f =? "quarterly")%string then Some 3
  else if (f =? "half-yearly")%string then Some 6
  else if (f =? "yearly")%string then Some 12
  else None.

(** The same subscription with another amount. *)
Definition with_amount (a : number) (s : Subscription) : Subscription :=
  {| id := id s; amount := a; currency := currency s;
     billingDate := billingDate s; frequency := frequency s;
     customFrequencyDays := customFrequencyDays s; startDate := startDate s;
     isOneTime := isOneTime s; cycleLimit := cycleLimit s;
     reminderEnabled := reminderEnabled s;
     reminderDaysBefore := reminderDaysBefore s; isDeleted := isDeleted s |}.

(** Three cycles of 10 days from 2024-01-01. *)
Definition sample_three_decades : Subscription :=
  {| id := "decades"; amount := Num.of_Z 10; currency := USD;
     billingDate := 1; frequency := "custom"; customFrequencyDays := Some 10;
     startDate := date_2024_01_01; isOneTime := true; cycleLimit := Some 3;
     reminderEnabled := false; reminderDaysBefore := 0; isDeleted := None |}.

(** The entries billed in exactly [k] days. *)
Definition billed_in (tza : Z) (today : Date) (k : Z) (s : Subscription) : bool :=
  match getDaysUntilBilling tza s today with
  | Ok v => Num.leb v (Num.of_Z k) && Num.leb (Num.of_Z k) v
  | Throw _ => false
  end.

(** ** [Map] objects

    A [Map] with string keys, as the list of its entries in insertion order:
    [set] replaces the value of a key that is present, in place, and appends
    a new key at the end; [values] lists the values in insertion order. *)

Module JSMap.

Definition t (V : Type) : Type := list (string * V).

Definition empty {V : Type} : t V := [].

Fixpoint set {V : Type} (k : string) (v : V) (m : t V) : t V :=
  match m with
  | [] => [(k, v)]
  | (k', v') :: m' =>
      if (k' =? k)%string then (k', v) :: m' else (k', v') :: set k v m'
  end.

Definition delete {V : Type} (k : string) (m : t V) : t V :=
  filter (fun e => negb (fst e =? k)%string) m.

Fixpoint get {V : Type} (k : string) (m : t V) : option V :=
  match m with
  | [] => None
  | (k', v') :: m' => if (k' =? k)%string then Some v' else get k m'
  end.

Definition values {V : Type} (m : t V) : list V := map snd m.

Definition keys {V : Type} (m : t V) : list string := map fst m.

End JSMap.

(** ** The notification scheduler ([NotificationScheduler])

    A scheduled notification carries its id, the id of its subscription, its
    date and its type.  The two display texts ([title], [body]) are built
    from [serviceName], which the model of a subscription does not carry, and
    are left out.  Logging has no effect on the state. *)

Inductive NotificationType : Type := billing_reminder | cancellation_alert.

Module ScheduledNotification.

Record t : Type := make {
  id : string;
  subscriptionId : string;
  scheduledDate : Date;
  type : NotificationType
}.

End ScheduledNotification.

Module NotificationScheduler.

(** The static [scheduledNotifications] map. *)
Definition state : Type := JSMap.t ScheduledNotification.t.

Definition cancelForSubscription (scheduledNotifications : state)
  (subscriptionId : string) : state :=
  let billingId := ("billing_" ++ subscriptionId)%string in
  let cancelId := ("cancel_" ++ subscriptionId)%string in
  JSMap.delete cancelId (JSMap.delete billingId scheduledNotifications).

Definition cancelAll (scheduledNotifications : state) : state := JSMap.empty.

Definition getScheduled (scheduledNotifications : state)
  : list ScheduledNotification.t :=
  JSMap.values scheduledNotifications.

Section Scheduling.

Variable LocalTZA : Z.

Definition scheduleBillingReminder (scheduledNotifications : state)
  (subscription : Subscription) (today : Date) : result state :=
  reminderDate <- getReminderDate LocalTZA subscription today ;;
  match reminderDate with
  | None => Ok scheduledNotifications
  | Some reminderDate =>
      let notification :=
        {| ScheduledNotification.id := ("billing_" ++ id subscription)%string;
           ScheduledNotification.subscriptionId := id subscription;
           ScheduledNotification.scheduledDate := reminderDate;
           ScheduledNotification.type := billing_reminder |} in
      Ok (JSMap.set (ScheduledNotification.id notification) notification
            scheduledNotifications)
  end.

Definition scheduleCancellationAlert (scheduledNotifications : state)
  (subscription : Subscription) : state :=
  match getCancellationReminderDate LocalTZA subscription with
  | None => scheduledNotifications
  | Some cancellationDate =>
      let notification :=
        {| ScheduledNotification.id := ("cancel_" ++ id subscription)%string;
           ScheduledNotification.subscriptionId := id subscription;
           ScheduledNotification.scheduledDate := cancellationDate;
           ScheduledNotification.type := cancellation_alert |} in
      JSMap.set (ScheduledNotification.id notification) notification
        scheduledNotifications
  end.

(** An error thrown while scheduling is caught and logged: the map stays as
    it was at the throw. *)
Definition scheduleForSubscription (scheduledNotifications : state)
  (subscription : Subscription) (today : Date) : state :=
  let cancelled :=
    cancelForSubscription scheduledNotifications (id subscription) in
  if negb (reminderEnabled subscription) then cancelled
  else
    match scheduleBillingReminder cancelled subscription today with
    | Throw _ => cancelled
    | Ok billed =>
        if isOneTime subscription && truthyZ (cycleLimit subscription)
        then scheduleCancellationAlert billed subscription
        else billed
    end.

(** The loop of [rescheduleAll]; a throw of [isActive] ends it. *)
Fixpoint scheduleActive (scheduledNotifications : state)
  (subscriptions : list Subscription) (today : Date) : state :=
  match subscriptions with
  | [] => scheduledNotifications
  | subscription :: rest =>
      match isActive LocalTZA subscription today with
      | Throw _ => scheduledNotifications
      | Ok true =>
          scheduleActive
            (scheduleForSubscription scheduledNotifications subscription today)
            rest today
      | Ok false => scheduleActive scheduledNotifications rest today
      end
  end.

Definition rescheduleAll (scheduledNotifications : state)
  (subscriptions : list Subscription) (today : Date) : state :=
  scheduleActive (cancelAll scheduledNotifications) subscriptions today.

End Scheduling.

End NotificationScheduler.

(** The notifications a subscription gets: its billing reminder when
    reminders are enabled, followed by its cancellation alert when it has
    one. *)
Definition notifications_for (tza : Z) (s : Subscription) (today : Date)
  : NotificationScheduler.state :=
  if negb (reminderEnabled s) then []
  else
    match getReminderDate tza s today with
    | Throw _ => []
    | Ok reminder =>
        match reminder with
        | Some r =>
            [(("billing_" ++ id s)%string,
              ScheduledNotification.make ("billing_" ++ id s) (id s) r
                billing_reminder)]
        | None => []
        end
        ++ match getCancellationReminderDate tza s with
           | Some c =>
               [(("cancel_" ++ id s)%string,
                 ScheduledNotification.make ("cancel_" ++ id s) (id s) c
                   cancellation_alert)]
           | None => []
           end
    end.

(** A well-formed map: no key twice, and every notification stored under its
    own id. *)
Definition map_ok (m : NotificationScheduler.state) : Prop :=
  NoDup (JSMap.keys m)
  /\ Forall (fun e => fst e = ScheduledNotification.id (snd e)) m.

(** The subscriptions [isActive] accepts. *)
Definition active (tza : Z) (today : Date) (s : Subscription) : bool :=
  match isActive tza s today with
  | Ok b => b
  | Throw _ => false
  end.

(** ** The subscription store ([useSubscriptionStore]) and the dashboard *)

Record SubscriptionSummary : Type := mkSummary {
  totalMonthlySpend : number;
  totalActiveSubscriptions : Z;
  upcomingInNext7Days : list Subscription;
  upcomingThisMonth : list Subscription
}.

Module SubscriptionStore.

Section Store.

Variable LocalTZA : Z.

(** [calculateSummary], as a function of the [subscriptions] of the state;
    the result is what it stores as [summary]. *)
Definition calculateSummary (subscriptions : list Subscription) (today : Date)
  : result SubscriptionSummary :=
  activeSubscriptions <-
    filterM (fun sub => isActive LocalTZA sub today) subscriptions ;;
  let total := calculateTotalMonthlySpend activeSubscriptions USD in
  let count := Z.of_nat (List.length activeSubscriptions) in
  next7 <- getUpcomingSubscriptions LocalTZA activeSubscriptions (Num.of_Z 7)
             today ;;
  next30 <- getUpcomingSubscriptions LocalTZA activeSubscriptions (Num.of_Z 30)
              today ;;
  Ok {| totalMonthlySpend := total;
        totalActiveSubscriptions := count;
        upcomingInNext7Days := next7;
        upcomingThisMonth := next30 |}.

End Store.

End SubscriptionStore.

Module DashboardScreen.

Section Dashboard.

Variable LocalTZA : Z.

(** The list the dashboard shows: the active subscriptions, soonest first. *)
Definition activeSubscriptions (subscriptions : list Subscription)
  (today : Date) : result (list Subscription) :=
  kept <- filterM (fun sub => isActive LocalTZA sub today) subscriptions ;;
  sortM
    (fun a b =>
       da <- getDaysUntilBilling LocalTZA a today ;;
       db <- getDaysUntilBilling LocalTZA b today ;;
       Ok (Num.sub da db))
    kept.

End Dashboard.

End DashboardScreen.

(** The natural number a string of decimal digits denotes. *)
Definition decode (s : string) : option Z :=
  option_map (fun u => Z.of_N (N.of_uint u))
    (DecimalString.NilEmpty.uint_of_string s).

(** The check of [fraction_digits], for one value. *)
Definition fraction_ok (b : Z) : bool :=
  let f := (NumFormat.decimal (b / 10) ++ NumFormat.decimal (b mod 10))%string in
  (String.length f =? 2)%nat
  && match decode f with Some v => v =? b | None => false end.

(** Six monthly cycles from 2024-01-01, with a reminder two days ahead. *)
Definition sample_course : Subscription :=
  {| id := "course"; amount := Num.of_Z 20; currency := EUR;
     billingDate := 1; frequency := "monthly"; customFrequencyDays := None;
     startDate := date_2024_01_01; isOneTime := true; cycleLimit := Some 6;
     reminderEnabled := true; reminderDaysBefore := 2; isDeleted := None |}.

(** A map holding one notification of a subscription no longer listed. *)
Definition sample_stale : NotificationScheduler.state :=
  [("billing_gone"%string,
    ScheduledNotification.make "billing_gone" "gone" date_2024_01_01
      billing_reminder)].

(** ** Date objects with their range: [TimeClip] and the Invalid Date

    The time value of a [Date] object is at most 8.64e15 ms in magnitude, or
    NaN (an Invalid Date): every constructor and setter ends in [TimeClip].
    In this layer a date object is an [option Date], [None] being the Invalid
    Date; a getter returns an [option Z], [None] being NaN; and each
    operation is the calendar arithmetic of the layer above followed by
    [TimeClip].  A time value out of range, read from a subscription or from
    the clock, denotes the Invalid Date. *)

Definition maxTime : Z := 8640000000000000.

Definition valid_time (d : Date) : bool := Z.abs (getTime d) <=? maxTime.

Definition TimeClip (d : Date) : option Date :=
  if valid_time d then Some d else None.

Module Ranged.

(** [d.getTime()] *)
Definition getTime (d : option Date) : number :=
  match d with
  | Some d => Num.of_Z (getTime d)
  | None => NaN
  end.

(** [a <= b], [a < b] and [a > b] on date objects compare the time values as
    numbers. *)
Definition Date_le (a b : option Date) : bool := Num.leb (getTime a) (getTime b).
Definition Date_lt (a b : option Date) : bool := Num.ltb (getTime a) (getTime b).
Definition Date_gt (a b : option Date) : bool := Num.ltb (getTime b) (getTime a).

(** [new Date(d)] for a date object [d]. *)
Definition copy (d : option Date) : option Date :=
  match d with
  | Some d => TimeClip d
  | None => None
  end.

(** [x + k] for the result [x] of a getter. *)
Definition plus (x : option Z) (k : Z) : option Z :=
  match x with
  | Some x => Some (x + k)
  | None => None
  end.

Section LocalTime.

Variable LocalTZA : Z.

Definition getFullYear (d : option Date) : option Z :=
  match d with
  | Some d => Some (getFullYear LocalTZA d)
  | None => None
  end.

Definition getMonth (d : option Date) : option Z :=
  match d with
  | Some d => Some (getMonth LocalTZA d)
  | None => None
  end.

Definition getDate (d : option Date) : option Z :=
  match d with
  | Some d => Some (getDate LocalTZA d)
  | None => None
  end.

Definition newDate (year month : option Z) (day : Z) : option Date :=
  match year, month with
  | Some year, Some month => TimeClip (newDate LocalTZA year month day)
  | _, _ => None
  end.

Definition setMonth (d : option Date) (month : option Z) : option Date :=
  match d, month with
  | Some d, Some month => TimeClip (setMonth LocalTZA d month)
  | _, _ => None
  end.

(** On the Invalid Date [setFullYear] starts from the time value [+0]. *)
Definition setFullYear (d : option Date) (year : option Z) : option Date :=
  match year with
  | Some year =>
      match d with
      | Some d => TimeClip (setFullYear LocalTZA d year)
      | None =>
          TimeClip (mkDate (UTC LocalTZA
                              (ES.MakeDate (ES.MakeDay year 0 1) 0)))
      end
  | None => None
  end.

Definition setDate (d : option Date) (date : option Z) : option Date :=
  match d, date with
  | Some d, Some date => TimeClip (setDate LocalTZA d date)
  | _, _ => None
  end.

End LocalTime.

Section Dates.

Local Open Scope string_scope.

Variable LocalTZA : Z.

Definition addBillingCycle
  (date : option Date) (frequency : BillingFrequency) (customDays : option Z)
  : option Date :=
  let newDate := copy date in
  if frequency =? "monthly" then
    setMonth LocalTZA newDate (plus (getMonth LocalTZA newDate) 1)
  else if frequency =? "quarterly" then
    setMonth LocalTZA newDate (plus (getMonth LocalTZA newDate) 3)
  else if frequency =? "half-yearly" then
    setMonth LocalTZA newDate (plus (getMonth LocalTZA newDate) 6)
  else if frequency =? "yearly" then
    setFullYear LocalTZA newDate (plus (getFullYear LocalTZA newDate) 1)
  else if frequency =? "custom" then
    match customDays with
    | Some days =>
        if (days =? 0)%Z then newDate
        else setDate LocalTZA newDate (plus (getDate LocalTZA newDate) days)
    | None => newDate
    end
  else newDate.

Definition subtractBillingCycle
  (date : option Date) (frequency : BillingFrequency) (customDays : option Z)
  : option Date :=
  let newDate := copy date in
  if frequency =? "monthly" then
    setMonth LocalTZA newDate (plus (getMonth LocalTZA newDate) (- 1))
  else if frequency =? "quarterly" then
    setMonth LocalTZA newDate (plus (getMonth LocalTZA newDate) (- 3))
  else if frequency =? "half-yearly" then
    setMonth LocalTZA newDate (plus (getMonth LocalTZA newDate) (- 6))
  else if frequency =? "yearly" then
    setFullYear LocalTZA newDate (plus (getFullYear LocalTZA newDate) (- 1))
  else if frequency =? "custom" then
    match customDays with
    | Some days =>
        if (days =? 0)%Z then newDate
        else setDate LocalTZA newDate (plus (getDate LocalTZA newDate) (- days))
    | None => newDate
    end
  else newDate.

Definition getSubscriptionEndDate (subscription : Subscription)
  : result (option Date) :=
  if negb (isOneTime subscription) || negb (truthyZ (cycleLimit subscription))
  then Throw "Not a one-time subscription"
  else
    let startDate := TimeClip (startDate subscription) in
    let endDate := copy startDate in
    Ok (for_loop (valueZ (cycleLimit subscription))
          (fun endDate =>
             addBillingCycle endDate (frequency subscription)
               (customFrequencyDays subscription))
          endDate).

Definition getNextBillingDate (subscription : Subscription) (today : Date)
  : result (option Date) :=
  let today := TimeClip today in
  let startDate := TimeClip (startDate subscription) in (* read, never used *)
  let billingDay := billingDate subscription in
  ended <-
    (if isOneTime subscription && truthyZ (cycleLimit subscription) then
       endDate <- getSubscriptionEndDate subscription ;;
       Ok (if Date_gt today endDate then Some endDate else None)
     else Ok None) ;;
  match ended with
  | Some endDate => Ok endDate
  | None =>
      let nextDate :=
        newDate LocalTZA (getFullYear LocalTZA today) (getMonth LocalTZA today)
          billingDay in
      if Date_le nextDate today
      then Ok (addBillingCycle nextDate (frequency subscription)
                 (customFrequencyDays subscription))
      else Ok nextDate
  end.

(** The outer [option] is [null]. *)
Definition getCancellationReminderDate (subscription : Subscription)
  : option (option Date) :=
  if negb (isOneTime subscription)
     || negb (truthyZ (cycleLimit subscription))
     || (valueZ (cycleLimit subscription) <=? 1)%Z
  then None
  else
    let startDate := TimeClip (startDate subscription) in
    let reminderDate := copy startDate in
    Some (for_loop (valueZ (cycleLimit subscription) - 1)
            (fun reminderDate =>
               addBillingCycle reminderDate (frequency subscription)
                 (customFrequencyDays subscription))
            reminderDate).

Definition getReminderDate (subscription : Subscription) (today : Date)
  : result (option (option Date)) :=
  if negb (reminderEnabled subscription) then Ok None
  else
    nextBilling <- getNextBillingDate subscription today ;;
    let reminderDate := copy nextBilling in
    Ok (Some (setDate LocalTZA reminderDate
                (plus (getDate LocalTZA reminderDate)
                   (- reminderDaysBefore subscription)))).

Definition getDaysUntilBilling (subscription : Subscription) (today : Date)
  : result number :=
  let now := TimeClip today in
  nextBilling <- getNextBillingDate subscription today ;;
  let diffTime := Num.sub (getTime nextBilling) (getTime now) in
  Ok (Num.ceil (Num.div diffTime (Num.of_Z (1000 * 60 * 60 * 24)))).

Definition getUpcomingSubscriptions
  (subscriptions : list Subscription) (days : number) (today : Date)
  : result (list Subscription) :=
  kept <- filterM
            (fun sub =>
               if truthyB (isDeleted sub) then Ok false
               else
                 daysUntil <- getDaysUntilBilling sub today ;;
                 Ok (Num.leb (Num.of_Z 0) daysUntil && Num.leb daysUntil days))
            subscriptions ;;
  sortM
    (fun a b =>
       da <- getDaysUntilBilling a today ;;
       db <- getDaysUntilBilling b today ;;
       Ok (Num.sub da db))
    kept.

Definition isActive (subscription : Subscription) (today : Date) : result bool :=
  if truthyB (isDeleted subscription) then Ok false
  else if isOneTime subscription && truthyZ (cycleLimit subscription) then
    endDate <- getSubscriptionEndDate subscription ;;
    Ok (Date_lt (TimeClip today) endDate)
  else Ok true.

Definition getBillingCycleProgress (subscription : Subscription) (now : Date)
  : result number :=
  let today := TimeClip now in
  nextBilling <- getNextBillingDate subscription now ;;
  let prevBilling :=
    subtractBillingCycle (copy nextBilling) (frequency subscription)
      (customFrequencyDays subscription) in
  let totalTime := Num.sub (getTime nextBilling) (getTime prevBilling) in
  let elapsed := Num.sub (getTime today) (getTime prevBilling) in
  let progress := Num.mul (Num.div elapsed totalTime) (Num.of_Z 100) in
  Ok (Num.max (Num.of_Z 0) (Num.min (Num.of_Z 100) progress)).

(** [calculateSummary] of the store. *)
Definition calculateSummary (subscriptions : list Subscription) (today : Date)
  : result SubscriptionSummary :=
  activeSubscriptions <- filterM (fun sub => isActive sub today) subscriptions ;;
  let total := calculateTotalMonthlySpend activeSubscriptions USD in
  let count := Z.of_nat (List.length activeSubscriptions) in
  next7 <- getUpcomingSubscriptions activeSubscriptions (Num.of_Z 7) today ;;
  next30 <- getUpcomingSubscriptions activeSubscriptions (Num.of_Z 30) today ;;
  Ok {| totalMonthlySpend := total;
        totalActiveSubscriptions := count;
        upcomingInNext7Days := next7;
        upcomingThisMonth := next30 |}.

(** [activeSubscriptions] of the dashboard. *)
Definition activeSubscriptions (subscriptions : list Subscription)
  (today : Date) : result (list Subscription) :=
  kept <- filterM (fun sub => isActive sub today) subscriptions ;;
  sortM
    (fun a b =>
       da <- getDaysUntilBilling a today ;;
       db <- getDaysUntilBilling b today ;;
       Ok (Num.sub da db))
    kept.

End Dates.

End Ranged.

(** The next billing date as a date object (it is computed without a throw,
    see [RangedFacts.getNextBillingDate_returns]). *)
Definition ranged_next (tza : Z) (s : Subscription) (today : Date)
  : option Date :=
  match Ranged.getNextBillingDate tza s today with
  | Ok d => d
  | Throw _ => None
  end.

(** The subscriptions the ranged [isActive] accepts. *)
Definition ranged_active (tza : Z) (today : Date) (s : Subscription) : bool :=
  match Ranged.isActive tza s today with
  | Ok b => b
  | Throw _ => false
  end.

(** Whole days from the instant to the date [d], rounded up. *)
Definition days_to (today d : Date) : Z :=
  - ((- (getTime d - getTime today)) / ES.msPerDay).

(** Days until the next billing date where that date is valid. *)
Definition ranged_days_key (tza : Z) (today : Date) (s : Subscription) : Z :=
  match ranged_next tza s today with
  | Some d => days_to today d
  | None => 0
  end.

(** An entry the ranged [getUpcomingSubscriptions] keeps. *)
Definition ranged_upcoming (tza : Z) (days : number) (today : Date)
  (s : Subscription) : bool :=
  not_deleted s
  && match Ranged.getDaysUntilBilling tza s today with
     | Ok k => Num.leb (Num.of_Z 0) k && Num.leb k days
     | Throw _ => false
     end.

(** [a] is billed no later than [b], in days. *)
Definition ranged_days_le (tza : Z) (today : Date) (a b : Subscription) : Prop :=
  exists ka kb : number,
    Ranged.getDaysUntilBilling tza a today = Ok ka
    /\ Ranged.getDaysUntilBilling tza b today = Ok kb
    /\ Num.leb ka kb = true.

(** Recurring, every 100000000 days, billed on the 1st. *)
Definition sample_long_cycle : Subscription :=
  {| id := "era"; amount := Num.of_Z 5; currency := USD;
     billingDate := 1; frequency := "custom";
     customFrequencyDays := Some 100000000;
     startDate := date_2024_01_01; isOneTime := false; cycleLimit := None;
     reminderEnabled := false; reminderDaysBefore := 0; isDeleted := None |}.

(** Amounts and cycle lengths on which the binary64 arithmetic of
    [getMonthlyEquivalent] neither overflows nor underflows: an amount that
    is zero or of a magnitude between 2^-500 and 2^500, and a custom cycle of
    at most 2^53 days. *)
Definition plain_amount (s : Subscription) : Prop :=
  (exists q : Qc,
      amount s = Fin q
      /\ (q = Q2Qc 0
          \/ (Q2Qc (Qmake 1 (2 ^ 500)) <= Qcabs.Qcabs q)%Qc
             /\ (Qcabs.Qcabs q <= Q2Qc (inject_Z (2 ^ 500)))%Qc))
  /\ (forall d : Z, customFrequencyDays s = Some d -> Z.abs d <= 2 ^ 53).

(** ** Arithmetic of [number] *)

Module NumFacts.

Lemma add_comm (x y : number) : Num.add x y = Num.add y x.
Proof.
  destruct x, y; simpl; try reflexivity.
  now rewrite Qcplus_comm.
Qed.

Lemma add_assoc (x y z : number) :
  Num.add x (Num.add y z) = Num.add (Num.add x y) z.
Proof.
  destruct x, y, z; simpl; try reflexivity.
  now rewrite Qcplus_assoc.
Qed.

Lemma sub_of_Z (a b : Z) : Num.sub (Num.of_Z a) (Num.of_Z b) = Num.of_Z (a - b).
Proof.
  unfold Num.of_Z, Num.sub. f_equal. apply Qc_is_canon.
  unfold Qcminus, Qcplus, Qcopp. cbn [this Q2Qc].
  rewrite !Qred_correct.
  unfold Qeq, Qplus, Qopp, inject_Z. cbn [Qnum Qden]. lia.
Qed.

Lemma compare_of_Z (a b : Z) :
  (Q2Qc (inject_Z a) ?= Q2Qc (inject_Z b))%Qc = (a ?= b).
Proof.
  unfold Qccompare. cbn [this Q2Qc]. rewrite <- Qred_compare.
  unfold Qcompare, inject_Z. cbn [Qnum Qden]. now rewrite !Z.mul_1_r.
Qed.

Lemma of_Z_zero (a : Z) : Q2Qc (inject_Z a) = 0%Qc <-> a = 0.
Proof.
  split.
  - intros H. pose proof (compare_of_Z a 0) as C.
    change 0%Qc with (Q2Qc (inject_Z 0)) in H. rewrite H, compare_of_Z in C.
    symmetry in C. now apply Z.compare_eq in C.
  - now intros ->.
Qed.

Lemma ltb_of_Z (a b : Z) : Num.ltb (Num.of_Z a) (Num.of_Z b) = (a <? b).
Proof.
  unfold Num.ltb, Num.of_Z, Z.ltb. rewrite compare_of_Z. reflexivity.
Qed.

Lemma leb_of_Z (a b : Z) : Num.leb (Num.of_Z a) (Num.of_Z b) = (a <=? b).
Proof.
  unfold Num.leb, Num.of_Z, Z.leb. rewrite compare_of_Z.
  now destruct (a ?= b).
Qed.

(** [Math.ceil] of a quotient of integers is the integer ceiling. *)
Lemma ceil_div_of_Z (a b : Z) :
  0 < b ->
  Num.ceil (Num.div (Num.of_Z a) (Num.of_Z b)) = Num.of_Z (- ((- a) / b)).
Proof.
  intros Hb. unfold Num.div, Num.of_Z at 1 2.
  destruct (Qc_eq_dec (Q2Qc (inject_Z b)) 0) as [E|_].
  { apply of_Z_zero in E. lia. }
  unfold Num.ceil. f_equal.
  assert (E : (this (Q2Qc (inject_Z a) / Q2Qc (inject_Z b))%Qc
               == a # Z.to_pos b)%Q).
  { unfold Qcdiv, Qcmult, Qcinv. cbn [this Q2Qc]. rewrite !Qred_correct.
    unfold Qeq, Qmult, Qinv, inject_Z. cbn [Qnum Qden].
    destruct b as [|p|p]; try lia. cbn. lia. }
  rewrite E. unfold Qceiling, Qfloor, Qopp. cbn [Qnum Qden].
  rewrite Z2Pos.id by lia. reflexivity.
Qed.

Lemma ltb_Fin (a b : Qc) : Num.ltb (Fin a) (Fin b) = true <-> (a < b)%Qc.
Proof.
  unfold Num.ltb. rewrite Qclt_alt. destruct (a ?= b)%Qc; split; congruence.
Qed.

Lemma leb_Fin (a b : Qc) : Num.leb (Fin a) (Fin b) = true <-> (a <= b)%Qc.
Proof.
  unfold Num.leb. rewrite Qcle_alt. destruct (a ?= b)%Qc; split; congruence.
Qed.

Lemma min_Fin (a b : Qc) :
  Num.min (Fin a) (Fin b) = if Num.ltb (Fin b) (Fin a) then Fin b else Fin a.
Proof. reflexivity. Qed.

Lemma max_Fin (a b : Qc) :
  Num.max (Fin a) (Fin b) = if Num.ltb (Fin a) (Fin b) then Fin b else Fin a.
Proof. reflexivity. Qed.

(** [Math.max(0, Math.min(100, x))] lies in [0, 100] unless [x] is NaN. *)
Lemma clamp_range (x : number) :
  x <> NaN ->
  Num.leb (Num.of_Z 0) (Num.max (Num.of_Z 0) (Num.min (Num.of_Z 100) x)) = true
  /\ Num.leb (Num.max (Num.of_Z 0) (Num.min (Num.of_Z 100) x)) (Num.of_Z 100)
     = true.
Proof.
  intros Hx. destruct x as [q| | |]; try contradiction; try (split; reflexivity).
  unfold Num.of_Z. rewrite min_Fin.
  destruct (Num.ltb (Fin q) _) eqn:L100; rewrite max_Fin.
  - destruct (Num.ltb _ (Fin q)) eqn:L0.
    + split; apply leb_Fin; apply Qclt_le_weak; now apply ltb_Fin.
    + split; reflexivity.
  - split; reflexivity.
Qed.

(** A quotient of integers with a non-zero divisor, scaled, is finite. *)
Lemma scaled_ratio_finite (a b c : Z) :
  b <> 0 ->
  exists q : Qc, Num.mul (Num.div (Num.of_Z a) (Num.of_Z b)) (Num.of_Z c) = Fin q.
Proof.
  intros Hb. unfold Num.div, Num.of_Z.
  destruct (Qc_eq_dec (Q2Qc (inject_Z b)) 0) as [E|_].
  { apply of_Z_zero in E. contradiction. }
  eexists. reflexivity.
Qed.

(** Scaling commutes with a division by a non-zero integer and with the
    multiplication by 30. *)
Lemma div_scale (k : Qc) (a : number) (b : Z) :
  b <> 0 ->
  Num.div (Num.mul (Fin k) a) (Num.of_Z b)
  = Num.mul (Fin k) (Num.div a (Num.of_Z b)).
Proof.
  intros Hb. unfold Num.of_Z.
  assert (Hq : Q2Qc (inject_Z b) <> 0%Qc)
    by (intros E; apply of_Z_zero in E; contradiction).
  assert (Hc : (Q2Qc (inject_Z b) ?= 0)%Qc <> Eq)
    by (intros E; apply Qceq_alt in E; contradiction).
  destruct a as [q| | |]; cbn [Num.mul Num.div Num.sign].
  - destruct (Qc_eq_dec (Q2Qc (inject_Z b)) 0) as [E|_]; [contradiction|].
    cbn [Num.mul]. f_equal. unfold Qcdiv. symmetry. apply Qcmult_assoc.
  - destruct (k ?= 0)%Qc; cbn [Num.sign_mul Num.inf_of Num.div Num.sign Num.mul];
      destruct (Q2Qc (inject_Z b) ?= 0)%Qc; try reflexivity; try contradiction.
  - destruct (k ?= 0)%Qc; cbn [Num.sign_mul Num.inf_of Num.div Num.sign Num.mul];
      destruct (Q2Qc (inject_Z b) ?= 0)%Qc; try reflexivity; try contradiction.
  - reflexivity.
Qed.

Lemma mul_scale_30 (k : Qc) (a : number) :
  Num.mul (Num.mul (Fin k) a) (Num.of_Z 30)
  = Num.mul (Fin k) (Num.mul a (Num.of_Z 30)).
Proof.
  destruct a as [q| | |]; cbn [Num.mul Num.sign Num.of_Z].
  - f_equal. symmetry. apply Qcmult_assoc.
  - destruct (k ?= 0)%Qc; reflexivity.
  - destruct (k ?= 0)%Qc; reflexivity.
  - reflexivity.
Qed.

(** A ratio of at least one, as a percentage, is clamped to 100. *)
Lemma full_progress (a b : Z) :
  0 < b -> b <= a ->
  Num.max (Num.of_Z 0)
    (Num.min (Num.of_Z 100)
       (Num.mul (Num.div (Num.of_Z a) (Num.of_Z b)) (Num.of_Z 100)))
  = Num.of_Z 100.
Proof.
  intros Hb Hab. unfold Num.div, Num.of_Z at 3 4.
  destruct (Qc_eq_dec (Q2Qc (inject_Z b)) 0) as [E|_].
  { apply of_Z_zero in E. lia. }
  unfold Num.of_Z. cbn [Num.mul]. rewrite min_Fin.
  assert (L : (Q2Qc (inject_Z 100)
               <= Q2Qc (inject_Z a) / Q2Qc (inject_Z b) * Q2Qc (inject_Z 100))%Qc).
  { unfold Qcle, Qcdiv. unfold Qcmult, Qcinv. cbn [this Q2Qc].
    rewrite !Qred_correct.
    destruct b as [|pb|pb]; try lia.
    unfold Qle, Qmult, Qinv, inject_Z. cbn [Qnum Qden Z.mul Pos.mul]. nia. }
  destruct (Num.ltb _ _) eqn:T.
  - apply ltb_Fin in T. apply Qclt_not_le in T. contradiction.
  - reflexivity.
Qed.

End NumFacts.

(** ** Monthly equivalents and the monthly total *)

Lemma fold_left_monthly (g : Subscription -> number) (l : list Subscription) (a : number) :
  fold_left (fun total sub => Num.add total (g sub)) l a
  = fold_left Num.add (map g l) a.
Proof.
  revert a. induction l as [|s l IH]; intros a; simpl; [reflexivity | apply IH].
Qed.

Lemma not_deleted_truthy (s : Subscription) :
  negb (truthyB (isDeleted s)) = not_deleted s.
Proof.
  unfold not_deleted, truthyB. now destruct (isDeleted s) as [[|]|].
Qed.

(** C2: [calculateTotalMonthlySpend] is the sum of the (unconverted) monthly
    equivalents of exactly the entries whose [isDeleted] flag is not [true]; the
    target currency has no influence on the result. *)
Theorem calculateTotalMonthlySpend_sum :
  forall (subscriptions : list Subscription) (targetCurrency : Currency),
    calculateTotalMonthlySpend subscriptions targetCurrency
    = sum_numbers (map getMonthlyEquivalent (filter not_deleted subscriptions))
    /\ (forall other : Currency,
          calculateTotalMonthlySpend subscriptions other
          = calculateTotalMonthlySpend subscriptions targetCurrency).
Proof.
  intros subs target.
  assert (E : forall c, calculateTotalMonthlySpend subs c
            = sum_numbers (map getMonthlyEquivalent (filter not_deleted subs))).
  { intros c. unfold calculateTotalMonthlySpend, sum_numbers. cbv zeta.
    rewrite (filter_ext _ _ not_deleted_truthy).
    rewrite fold_left_monthly.
    apply fold_symmetric.
    - intros x y z. apply NumFacts.add_assoc.
    - intros y. apply NumFacts.add_comm. }
  split; [apply E | intros other; now rewrite !E].
Qed.

(** ** Currency conversion *)

Lemma rates_table (c : Currency) : rates c = rate_table c.
Proof.
  destruct c; unfold rates, rate_table, Num.of_Z, Num.div;
    try (destruct (Qc_eq_dec _ _) as [E|_]; [discriminate E|]);
    f_equal; apply Qc_is_canon; reflexivity.
Qed.

Lemma Currency_eqb_eq (a b : Currency) : Currency_eqb a b = true <-> a = b.
Proof. destruct a, b; simpl; split; intros H; congruence. Qed.

(** C5: [convertCurrency] is the identity between equal currencies and
    otherwise converts through USD with the fixed rate table; in particular
    converting from a currency to itself returns the amount. *)
Theorem convertCurrency_spec :
  forall (x : number) (from to : Currency),
    (from = to -> convertCurrency x from to = x)
    /\ (from <> to ->
        convertCurrency x from to
        = Num.mul (Num.div x (rate_table from)) (rate_table to))
    /\ convertCurrency x from from = x.
Proof.
  intros x from to. unfold convertCurrency. repeat split.
  - intros ->. now rewrite (proj2 (Currency_eqb_eq to to) eq_refl).
  - intros Hne. destruct (Currency_eqb from to) eqn:E.
    + apply Currency_eqb_eq in E. contradiction.
    + now rewrite !rates_table.
  - now rewrite (proj2 (Currency_eqb_eq from from) eq_refl).
Qed.

(** ** Case analysis on the frequency string *)

Lemma frequency_cases (f : BillingFrequency) :
  recognized f
  \/ ((f =? "monthly")%string = false /\ (f =? "quarterly")%string = false
      /\ (f =? "half-yearly")%string = false /\ (f =? "yearly")%string = false
      /\ (f =? "custom")%string = false).
Proof.
  unfold recognized.
  destruct (String.eqb_spec f "monthly"); [now left; left|].
  destruct (String.eqb_spec f "quarterly"); [now left; right; left|].
  destruct (String.eqb_spec f "half-yearly"); [now left; right; right; left|].
  destruct (String.eqb_spec f "yearly"); [now left; right; right; right; left|].
  destruct (String.eqb_spec f "custom"); [now left; right; right; right; right|].
  right. repeat split.
Qed.

Lemma unrecognized_eqb (f : BillingFrequency) :
  ~ recognized f ->
  (f =? "monthly")%string = false /\ (f =? "quarterly")%string = false
  /\ (f =? "half-yearly")%string = false /\ (f =? "yearly")%string = false
  /\ (f =? "custom")%string = false.
Proof.
  intros H. destruct (frequency_cases f) as [R|E]; [contradiction | exact E].
Qed.

(** Rewrites the switch on a known frequency. *)
Ltac switch_on H := rewrite H; cbn [String.eqb Ascii.eqb Bool.eqb andb].

(** C6 (as amended): the monthly equivalent is the amount for [monthly], a
    third, a sixth and a twelfth of it for [quarterly], [half-yearly] and
    [yearly], [amount * 30 / customFrequencyDays] for [custom] when
    [customFrequencyDays] is present and not zero, and the raw amount for
    [custom] with [customFrequencyDays] absent or zero and for every
    unrecognized frequency; the function is total, it never throws. *)
Theorem getMonthlyEquivalent_cases :
  forall s : Subscription,
    (frequency s = "monthly"%string -> getMonthlyEquivalent s = amount s)
    /\ (frequency s = "quarterly"%string ->
        getMonthlyEquivalent s = Num.div (amount s) (Num.of_Z 3))
    /\ (frequency s = "half-yearly"%string ->
        getMonthlyEquivalent s = Num.div (amount s) (Num.of_Z 6))
    /\ (frequency s = "yearly"%string ->
        getMonthlyEquivalent s = Num.div (amount s) (Num.of_Z 12))
    /\ (forall d : Z,
          frequency s = "custom"%string -> customFrequencyDays s = Some d ->
          d <> 0 ->
          getMonthlyEquivalent s
          = Num.div (Num.mul (amount s) (Num.of_Z 30)) (Num.of_Z d))
    /\ (frequency s = "custom"%string ->
        customFrequencyDays s = None \/ customFrequencyDays s = Some 0 ->
        getMonthlyEquivalent s = amount s)
    /\ (~ recognized (frequency s) -> getMonthlyEquivalent s = amount s).
Proof.
  intros s. unfold getMonthlyEquivalent. cbv zeta.
  repeat split.
  - intros H. now switch_on H.
  - intros H. now switch_on H.
  - intros H. now switch_on H.
  - intros H. now switch_on H.
  - intros d H Hd Hnz. switch_on H. rewrite Hd.
    now rewrite (proj2 (Z.eqb_neq d 0) Hnz).
  - intros H [Hd|Hd]; switch_on H; now rewrite Hd.
  - intros H. apply unrecognized_eqb in H as (E1 & E2 & E3 & E4 & E5).
    now rewrite E1, E2, E3, E4, E5.
Qed.

(** ** Calendar facts *)

Module CalendarFacts.

Import ES.

Lemma DayFromYear_succ (y : Z) : DayFromYear (y + 1) = DayFromYear y + DaysInYear y.
Proof.
  unfold DayFromYear, DaysInYear, isLeapYear.
  replace (y + 1 - 1969) with (y - 1968) by lia.
  replace (y + 1 - 1901) with (y - 1900) by lia.
  replace (y + 1 - 1601) with (y - 1600) by lia.
  destruct (Z.eqb_spec (y mod 4) 0); cbn [negb];
    [destruct (Z.eqb_spec (y mod 100) 0); cbn [negb];
     [destruct (Z.eqb_spec (y mod 400) 0); cbn [negb]|]|];
    Z.div_mod_to_equations; lia.
Qed.

Lemma MonthFromTime_range (t : Z) : 0 <= MonthFromTime t <= 11.
Proof.
  unfold MonthFromTime. cbv zeta.
  repeat match goal with
         | |- context [if ?b then _ else _] => destruct b
         end; lia.
Qed.

Lemma MakeDay_firstOfMonth (year month date : Z) :
  MakeDay year month date = firstOfMonth (12 * year + month) + date - 1.
Proof.
  unfold MakeDay, firstOfMonth. cbv zeta.
  replace ((12 * year + month) / 12) with (year + month / 12)
    by (Z.div_mod_to_equations; lia).
  replace ((12 * year + month) mod 12) with (month mod 12)
    by (Z.div_mod_to_equations; lia).
  reflexivity.
Qed.

(** Every month has at least 28 and at most 31 days. *)
Lemma firstOfMonth_succ (k : Z) :
  firstOfMonth k + 28 <= firstOfMonth (k + 1) <= firstOfMonth k + 31.
Proof.
  unfold firstOfMonth.
  assert (Hm : 0 <= k mod 12 < 12) by (apply Z.mod_pos_bound; lia).
  destruct (Z.eq_dec (k mod 12) 11) as [E|E].
  - replace ((k + 1) / 12) with (k / 12 + 1) by (Z.div_mod_to_equations; lia).
    replace ((k + 1) mod 12) with 0 by (Z.div_mod_to_equations; lia).
    rewrite E, DayFromYear_succ. unfold DaysInYear.
    destruct (isLeapYear (k / 12)); cbn [daysBeforeMonth];
      destruct (isLeapYear (k / 12 + 1)); lia.
  - replace ((k + 1) / 12) with (k / 12) by (Z.div_mod_to_equations; lia).
    replace ((k + 1) mod 12) with (k mod 12 + 1) by (Z.div_mod_to_equations; lia).
    assert (C : k mod 12 = 0 \/ k mod 12 = 1 \/ k mod 12 = 2 \/ k mod 12 = 3
                \/ k mod 12 = 4 \/ k mod 12 = 5 \/ k mod 12 = 6 \/ k mod 12 = 7
                \/ k mod 12 = 8 \/ k mod 12 = 9 \/ k mod 12 = 10) by lia.
    destruct (isLeapYear (k / 12));
      repeat (destruct C as [C|C]; [rewrite C; cbn [daysBeforeMonth Z.add Pos.add Pos.succ]; lia|]);
      rewrite C; cbn [daysBeforeMonth Z.add Pos.add Pos.succ]; lia.
Qed.

Lemma firstOfMonth_lt (a b : Z) : a < b -> firstOfMonth a < firstOfMonth b.
Proof.
  intros H. replace b with (a + 1 + Z.of_nat (Z.to_nat (b - a - 1))) by lia.
  induction (Z.to_nat (b - a - 1)) as [|n IH].
  - rewrite Z.add_0_r. pose proof (firstOfMonth_succ a). lia.
  - replace (a + 1 + Z.of_nat (S n)) with (a + 1 + Z.of_nat n + 1) by lia.
    pose proof (firstOfMonth_succ (a + 1 + Z.of_nat n)). lia.
Qed.

Lemma firstOfMonth_le (a b : Z) : a <= b -> firstOfMonth a <= firstOfMonth b.
Proof.
  intros H. destruct (Z.eq_dec a b) as [->|N]; [lia|].
  assert (L : a < b) by lia. apply firstOfMonth_lt in L. lia.
Qed.

(** Decomposing a time value into year, month and date and rebuilding the
    day from them gives the day back. *)
Lemma MakeDay_roundtrip (t : Z) :
  MakeDay (YearFromTime t) (MonthFromTime t) (DateFromTime t) = Day t.
Proof.
  pose proof (MonthFromTime_range t) as Hm.
  unfold MakeDay, DateFromTime, DayWithinYear, InLeapYear. cbv zeta.
  rewrite Z.div_small, Z.mod_small by lia.
  rewrite Z.add_0_r. lia.
Qed.

Lemma Day_TimeWithinDay (t : Z) : MakeDate (Day t) (TimeWithinDay t) = t.
Proof.
  unfold MakeDate, Day, TimeWithinDay, msPerDay.
  Z.div_mod_to_equations; lia.
Qed.

(** [YearFromDay] is the year of the day: the largest year that starts on or
    before it. *)
Lemma YearFromDay_bounds (d : Z) :
  DayFromYear (YearFromDay d) <= d < DayFromYear (YearFromDay d + 1).
Proof.
  unfold YearFromDay. cbv zeta.
  set (y0 := 1970 + 400 * d / 146097).
  assert (B : DayFromYear (y0 - 1) <= d < DayFromYear (y0 + 2)).
  { unfold DayFromYear, y0. Z.div_mod_to_equations. lia. }
  destruct (Z.leb_spec (DayFromYear (y0 + 1)) d).
  - replace (y0 + 1 + 1) with (y0 + 2) by lia. lia.
  - destruct (Z.leb_spec (DayFromYear y0) d).
    + lia.
    + replace (y0 - 1 + 1) with y0 by lia. lia.
Qed.

(** A time value lies in the month it decomposes to. *)
Lemma Day_in_month (t : Z) :
  firstOfMonth (12 * YearFromTime t + MonthFromTime t) <= Day t
  < firstOfMonth (12 * YearFromTime t + MonthFromTime t + 1).
Proof.
  pose proof (YearFromDay_bounds (Day t)) as B.
  pose proof (DayFromYear_succ (YearFromTime t)) as S.
  unfold firstOfMonth.
  pose proof (MonthFromTime_range t) as R.
  replace ((12 * YearFromTime t + MonthFromTime t) / 12) with (YearFromTime t)
    by (Z.div_mod_to_equations; lia).
  replace ((12 * YearFromTime t + MonthFromTime t) mod 12) with (MonthFromTime t)
    by (Z.div_mod_to_equations; lia).
  destruct (Z.eq_dec (MonthFromTime t) 11) as [E|E].
  - replace ((12 * YearFromTime t + MonthFromTime t + 1) / 12)
      with (YearFromTime t + 1) by (Z.div_mod_to_equations; lia).
    replace ((12 * YearFromTime t + MonthFromTime t + 1) mod 12) with 0
      by (Z.div_mod_to_equations; lia).
    rewrite E. revert E.
    unfold MonthFromTime, DayWithinYear, InLeapYear, DaysInYear in *.
    fold (YearFromTime t) in B. cbv zeta.
    destruct (isLeapYear (YearFromTime t)); cbn [daysBeforeMonth];
      repeat match goal with
             | |- context [if ?a <? ?b then _ else _] => destruct (Z.ltb_spec a b)
             end; lia.
  - replace ((12 * YearFromTime t + MonthFromTime t + 1) / 12)
      with (YearFromTime t) by (Z.div_mod_to_equations; lia).
    replace ((12 * YearFromTime t + MonthFromTime t + 1) mod 12)
      with (MonthFromTime t + 1) by (Z.div_mod_to_equations; lia).
    revert E. clear R.
    unfold MonthFromTime, DayWithinYear, InLeapYear, DaysInYear in *.
    fold (YearFromTime t) in B. cbv zeta.
    destruct (isLeapYear (YearFromTime t));
      repeat match goal with
             | |- context [if ?a <? ?b then _ else _] => destruct (Z.ltb_spec a b)
             end; cbn [daysBeforeMonth Z.add Pos.add Pos.succ]; lia.
Qed.

(** A day on or after the first of month [k] decomposes to month [k] or to a
    later one. *)
Lemma month_index_ge (t k : Z) :
  firstOfMonth k <= Day t -> k <= 12 * YearFromTime t + MonthFromTime t.
Proof.
  intros H. pose proof (Day_in_month t) as [_ U].
  destruct (Z.le_gt_cases k (12 * YearFromTime t + MonthFromTime t)) as [L|G];
    [exact L|].
  assert (M : firstOfMonth (12 * YearFromTime t + MonthFromTime t + 1)
              <= firstOfMonth k) by (apply firstOfMonth_le; lia).
  lia.
Qed.

Lemma DateFromTime_pos (t : Z) : 1 <= DateFromTime t.
Proof.
  pose proof (Day_in_month t) as [L _].
  pose proof (MakeDay_roundtrip t) as R.
  rewrite MakeDay_firstOfMonth in R. lia.
Qed.

End CalendarFacts.

(** ** Facts about [Date] setters and the cycle helpers *)

Section DateFacts.

Variable LocalTZA : Z.

Import ES.

Let month_index (d : Date) : Z :=
  12 * getFullYear LocalTZA d + getMonth LocalTZA d.

Lemma getTime_repr (d : Date) :
  getTime d
  = (firstOfMonth (month_index d) + getDate LocalTZA d - 1) * msPerDay
    + TimeWithinDay (LocalTime LocalTZA (getTime d)) - LocalTZA.
Proof.
  unfold month_index, getFullYear, getMonth, getDate.
  rewrite <- CalendarFacts.MakeDay_firstOfMonth, CalendarFacts.MakeDay_roundtrip.
  pose proof (CalendarFacts.Day_TimeWithinDay (LocalTime LocalTZA (getTime d))) as H.
  unfold MakeDate in H. unfold LocalTime in *. lia.
Qed.

Lemma getTime_setMonth (d : Date) (m : Z) :
  getTime (setMonth LocalTZA d m)
  = (firstOfMonth (12 * getFullYear LocalTZA d + m) + getDate LocalTZA d - 1)
    * msPerDay
    + TimeWithinDay (LocalTime LocalTZA (getTime d)) - LocalTZA.
Proof.
  unfold setMonth, getFullYear, getDate, UTC, MakeDate. cbn [getTime].
  now rewrite CalendarFacts.MakeDay_firstOfMonth.
Qed.

Lemma getTime_setFullYear (d : Date) (y : Z) :
  getTime (setFullYear LocalTZA d y)
  = (firstOfMonth (12 * y + getMonth LocalTZA d) + getDate LocalTZA d - 1)
    * msPerDay
    + TimeWithinDay (LocalTime LocalTZA (getTime d)) - LocalTZA.
Proof.
  unfold setFullYear, getMonth, getDate, UTC, MakeDate. cbn [getTime].
  now rewrite CalendarFacts.MakeDay_firstOfMonth.
Qed.

Lemma getTime_setDate (d : Date) (n : Z) :
  getTime (setDate LocalTZA d (getDate LocalTZA d + n))
  = getTime d + n * msPerDay.
Proof.
  pose proof (getTime_repr d) as R.
  unfold setDate, month_index, getFullYear, getMonth, getDate, UTC, MakeDate in *.
  cbn [getTime]. rewrite CalendarFacts.MakeDay_firstOfMonth. lia.
Qed.

Lemma Date_ext (a b : Date) : getTime a = getTime b -> a = b.
Proof. destruct a, b. cbn. now intros ->. Qed.

Lemma plus_days_0 (d : Date) : plus_days LocalTZA 0 d = d.
Proof. apply Date_ext. unfold plus_days. rewrite getTime_setDate. lia. Qed.

(** Moving a date by [n] months moves it by whole days, in the direction of
    [n]. *)
Lemma plus_months_lt (d : Date) (n : Z) :
  0 < n -> getTime d < getTime (plus_months LocalTZA n d).
Proof.
  intros H. unfold plus_months. rewrite getTime_setMonth. pose proof (getTime_repr d) as R.
  assert (L : firstOfMonth (month_index d)
              < firstOfMonth (12 * getFullYear LocalTZA d + (getMonth LocalTZA d + n)))
    by (apply CalendarFacts.firstOfMonth_lt; unfold month_index; lia).
  unfold msPerDay in *. lia.
Qed.

Lemma plus_months_gt (d : Date) (n : Z) :
  n < 0 -> getTime (plus_months LocalTZA n d) < getTime d.
Proof.
  intros H. unfold plus_months. rewrite getTime_setMonth. pose proof (getTime_repr d) as R.
  assert (L : firstOfMonth (12 * getFullYear LocalTZA d + (getMonth LocalTZA d + n))
              < firstOfMonth (month_index d))
    by (apply CalendarFacts.firstOfMonth_lt; unfold month_index; lia).
  unfold msPerDay in *. lia.
Qed.

Lemma plus_years_lt (d : Date) (n : Z) :
  0 < n -> getTime d < getTime (plus_years LocalTZA n d).
Proof.
  intros H. unfold plus_years. rewrite getTime_setFullYear. pose proof (getTime_repr d) as R.
  assert (L : firstOfMonth (month_index d)
              < firstOfMonth (12 * (getFullYear LocalTZA d + n) + getMonth LocalTZA d))
    by (apply CalendarFacts.firstOfMonth_lt; unfold month_index; lia).
  unfold msPerDay in *. lia.
Qed.

Lemma plus_years_gt (d : Date) (n : Z) :
  n < 0 -> getTime (plus_years LocalTZA n d) < getTime d.
Proof.
  intros H. unfold plus_years. rewrite getTime_setFullYear. pose proof (getTime_repr d) as R.
  assert (L : firstOfMonth (12 * (getFullYear LocalTZA d + n) + getMonth LocalTZA d)
              < firstOfMonth (month_index d))
    by (apply CalendarFacts.firstOfMonth_lt; unfold month_index; lia).
  unfold msPerDay in *. lia.
Qed.

(** The two cycle helpers, frequency by frequency. *)
Lemma addBillingCycle_rule (d : Date) :
  addBillingCycle LocalTZA d "monthly"%string = (fun _ => plus_months LocalTZA 1 d)
  /\ addBillingCycle LocalTZA d "quarterly"%string = (fun _ => plus_months LocalTZA 3 d)
  /\ addBillingCycle LocalTZA d "half-yearly"%string = (fun _ => plus_months LocalTZA 6 d)
  /\ addBillingCycle LocalTZA d "yearly"%string = (fun _ => plus_years LocalTZA 1 d)
  /\ (forall n, addBillingCycle LocalTZA d "custom"%string (Some n) = plus_days LocalTZA n d)
  /\ addBillingCycle LocalTZA d "custom"%string None = d.
Proof.
  repeat split.
  intros n. unfold addBillingCycle. cbn [String.eqb Ascii.eqb Bool.eqb andb].
  destruct (Z.eqb_spec n 0) as [->|_]; [now rewrite plus_days_0 | reflexivity].
Qed.

Lemma subtractBillingCycle_rule (d : Date) :
  subtractBillingCycle LocalTZA d "monthly"%string = (fun _ => plus_months LocalTZA (-1) d)
  /\ subtractBillingCycle LocalTZA d "quarterly"%string = (fun _ => plus_months LocalTZA (-3) d)
  /\ subtractBillingCycle LocalTZA d "half-yearly"%string = (fun _ => plus_months LocalTZA (-6) d)
  /\ subtractBillingCycle LocalTZA d "yearly"%string = (fun _ => plus_years LocalTZA (-1) d)
  /\ (forall n, subtractBillingCycle LocalTZA d "custom"%string (Some n) = plus_days LocalTZA (- n) d)
  /\ subtractBillingCycle LocalTZA d "custom"%string None = d.
Proof.
  repeat split.
  intros n. unfold subtractBillingCycle. cbn [String.eqb Ascii.eqb Bool.eqb andb].
  destruct (Z.eqb_spec n 0) as [->|_]; [now rewrite plus_days_0 | reflexivity].
Qed.

End DateFacts.

(** ** Finite subscriptions: end date and cancellation reminder *)

Lemma for_loop_id {A : Type} (n : Z) (x : A) : for_loop n (fun a => a) x = x.
Proof. unfold for_loop. induction (Z.to_nat n); simpl; congruence. Qed.

Lemma for_loop_succ {A : Type} (n : Z) (f : A -> A) (x : A) :
  0 <= n -> for_loop (n + 1) f x = f (for_loop n f x).
Proof.
  intros H. unfold for_loop.
  replace (Z.to_nat (n + 1)) with (S (Z.to_nat n)) by lia. reflexivity.
Qed.

Lemma truthyZ_Some (n : Z) : truthyZ (Some n) = negb (n =? 0).
Proof. reflexivity. Qed.



(** C10: for [custom] without [customFrequencyDays] the two cycle helpers
    return their input date; hence the end date of a one-time custom
    subscription without [customFrequencyDays] is its [startDate], and no
    error is raised. *)
Theorem custom_without_days_is_noop :
  forall (tza : Z) (d : Date) (s : Subscription) (N : Z),
    addBillingCycle tza d "custom" None = d
    /\ subtractBillingCycle tza d "custom" None = d
    /\ (frequency s = "custom"%string -> customFrequencyDays s = None ->
        isOneTime s = true -> cycleLimit s = Some N -> N <> 0 ->
        getSubscriptionEndDate tza s = Ok (startDate s)).
Proof.
  intros tza d s N. split; [reflexivity|]. split; [reflexivity|].
  intros Hf Hc H1 HN Hnz. unfold getSubscriptionEndDate.
  rewrite H1, HN, truthyZ_Some, (proj2 (Z.eqb_neq N 0) Hnz), Hf, Hc.
  cbn [negb orb valueZ]. f_equal.
  change (fun endDate : Date => addBillingCycle tza endDate "custom" None)
    with (fun endDate : Date => endDate).
  apply for_loop_id.
Qed.

(** ** The next billing date *)

Section NextBilling.

Variable tza : Z.


(** The result is the end date, when the subscription has ended, and the
    next occurrence of the billing day otherwise. *)
Lemma getNextBillingDate_cases (s : Subscription) (today : Date) :
  (exists endDate : Date,
      getSubscriptionEndDate tza s = Ok endDate
      /\ getTime endDate < getTime today
      /\ getNextBillingDate tza s today = Ok endDate)
  \/ getNextBillingDate tza s today
     = Ok (next_occurrence tza (billingDate s) (frequency s)
             (customFrequencyDays s) today).
Proof.
  unfold getNextBillingDate, next_occurrence, getSubscriptionEndDate.
  destruct (isOneTime s); cbn [andb negb orb].
  - destruct (truthyZ (cycleLimit s)); cbn [negb bind].
    + match goal with |- context [Date_gt today ?e] => set (endDate := e) end.
      destruct (Date_gt today endDate) eqn:G.
      * left. exists endDate. repeat split.
        unfold Date_gt in G. now apply Z.ltb_lt in G.
      * right. now destruct (Date_le _ today).
    + right. now destruct (Date_le _ today).
  - right. cbn [bind]. now destruct (Date_le _ today).
Qed.

Lemma getNextBillingDate_returns (s : Subscription) (today : Date) :
  getNextBillingDate tza s today = Ok (next_billing tza s today).
Proof.
  unfold next_billing.
  destruct (getNextBillingDate_cases s today) as [(e & _ & _ & H)|H];
    now rewrite H.
Qed.

Lemma getDaysUntilBilling_returns (s : Subscription) (today : Date) :
  getDaysUntilBilling tza s today = Ok (Num.of_Z (days_key tza today s)).
Proof.
  unfold getDaysUntilBilling. rewrite getNextBillingDate_returns. cbn [bind].
  rewrite NumFacts.sub_of_Z.
  change (1000 * 60 * 60 * 24) with ES.msPerDay.
  rewrite NumFacts.ceil_div_of_Z by (unfold ES.msPerDay; lia).
  reflexivity.
Qed.

End NextBilling.


(** ** Filtering and sorting with callbacks that return *)

Section ArrayFacts.

Context {A : Type}.

Lemma filterM_returns (p : A -> result bool) (q : A -> bool) (l : list A) :
  (forall x, p x = Ok (q x)) -> filterM p l = Ok (filter q l).
Proof.
  intros H. induction l as [|x l IH]; cbn [filterM filter]; [reflexivity|].
  rewrite H, IH. cbn [bind]. reflexivity.
Qed.

Variable key : A -> Z.

Lemma insertM_returns (cmp : A -> A -> result number) (x : A) (l : list A) :
  (forall a b, cmp a b = Ok (Num.of_Z (key a - key b))) ->
  insertM cmp x l = Ok (insert_by key x l).
Proof.
  intros H. induction l as [|y l IH]; cbn [insertM insert_by]; [reflexivity|].
  rewrite H. cbn [bind]. rewrite NumFacts.ltb_of_Z.
  replace (0 <? key x - key y) with (key y <? key x)
    by (destruct (Z.ltb_spec (key y) (key x)), (Z.ltb_spec 0 (key x - key y)); lia).
  destruct (key y <? key x); [now rewrite IH | reflexivity].
Qed.

Lemma sortM_returns (cmp : A -> A -> result number) (l : list A) :
  (forall a b, cmp a b = Ok (Num.of_Z (key a - key b))) ->
  sortM cmp l = Ok (sort_by key l).
Proof.
  intros H. induction l as [|x l IH]; cbn [sortM]; [reflexivity|].
  rewrite IH. cbn [bind]. now apply insertM_returns.
Qed.

Lemma insert_by_perm (x : A) (l : list A) : Permutation (x :: l) (insert_by key x l).
Proof.
  induction l as [|y l IH]; cbn [insert_by]; [reflexivity|].
  destruct (key y <? key x); [|reflexivity].
  rewrite perm_swap. now apply perm_skip.
Qed.

Lemma sort_by_perm (l : list A) : Permutation l (sort_by key l).
Proof.
  induction l as [|x l IH]; cbn [sort_by fold_right]; [reflexivity|].
  rewrite <- insert_by_perm. now apply perm_skip.
Qed.

Let key_le (a b : A) : Prop := key a <= key b.

Lemma insert_by_sorted (x : A) (l : list A) :
  StronglySorted key_le l -> StronglySorted key_le (insert_by key x l).
Proof.
  induction 1 as [|y l Hs IH Hy]; cbn [insert_by].
  - repeat constructor.
  - destruct (Z.ltb_spec (key y) (key x)) as [L|L].
    + constructor; [exact IH|].
      rewrite <- insert_by_perm. constructor; [unfold key_le; lia | exact Hy].
    + constructor; [now constructor|].
      constructor; [exact L|].
      eapply Forall_impl; [|exact Hy]. unfold key_le. intros a. cbv beta. lia.
Qed.

Lemma sort_by_sorted (l : list A) : StronglySorted key_le (sort_by key l).
Proof.
  induction l as [|x l IH]; cbn [sort_by fold_right]; [constructor|].
  now apply insert_by_sorted.
Qed.

Lemma StronglySorted_impl (R R' : A -> A -> Prop) (l : list A) :
  (forall a b, R a b -> R' a b) -> StronglySorted R l -> StronglySorted R' l.
Proof.
  intros H. induction 1 as [|a l S IH Ha]; constructor; [exact IH|].
  eapply Forall_impl; [|exact Ha]. intros b. apply H.
Qed.

End ArrayFacts.

(** C8: [getUpcomingSubscriptions] returns (it does not throw) exactly the
    entries that are not soft-deleted and whose days until billing lie in
    [0, days], each as often as it occurs in the input, in ascending order
    of days until billing. *)
Theorem getUpcomingSubscriptions_spec :
  forall (tza : Z) (subscriptions : list Subscription) (days : number)
         (today : Date),
  exists upcoming_list : list Subscription,
    getUpcomingSubscriptions tza subscriptions days today = Ok upcoming_list
    /\ Permutation (filter (upcoming tza days today) subscriptions) upcoming_list
    /\ (forall s : Subscription,
          In s upcoming_list
          <-> In s subscriptions /\ upcoming tza days today s = true)
    /\ StronglySorted (days_le tza today) upcoming_list.
Proof.
  intros tza subs days today.
  set (kept := filter (upcoming tza days today) subs).
  exists (sort_by (days_key tza today) kept).
  assert (P : Permutation kept (sort_by (days_key tza today) kept))
    by apply sort_by_perm.
  split; [|split; [exact P|split]].
  - unfold getUpcomingSubscriptions.
    rewrite (filterM_returns _ (upcoming tza days today)).
    + cbn [bind]. apply sortM_returns. intros a b.
      rewrite !getDaysUntilBilling_returns. cbn [bind].
      now rewrite NumFacts.sub_of_Z.
    + intros s. unfold upcoming, not_deleted, truthyB.
      rewrite getDaysUntilBilling_returns. cbn [bind].
      now destruct (isDeleted s) as [[|]|].
  - intros s. rewrite <- filter_In. fold kept.
    split; intros H.
    + eapply Permutation_in; [symmetry; exact P | exact H].
    + eapply Permutation_in; [exact P | exact H].
  - eapply StronglySorted_impl; [|apply (sort_by_sorted (days_key tza today))].
    intros a b Hab. cbv beta in Hab.
    exists (Num.of_Z (days_key tza today a)), (Num.of_Z (days_key tza today b)).
    rewrite !getDaysUntilBilling_returns, NumFacts.leb_of_Z.
    repeat split. now apply Z.leb_le.
Qed.

(** ** Progress through the billing cycle *)

(** One cycle back is strictly earlier, when the cycle length is defined. *)
Lemma subtractBillingCycle_lt (tza : Z) (s : Subscription) (d : Date) :
  well_formed s ->
  getTime (subtractBillingCycle tza d (frequency s) (customFrequencyDays s))
  < getTime d.
Proof.
  intros [R Hc].
  destruct (subtractBillingCycle_rule tza d) as (R1 & R2 & R3 & R4 & R5 & _).
  destruct R as [E|[E|[E|[E|E]]]]; rewrite E.
  - rewrite R1. now apply plus_months_gt.
  - rewrite R2. now apply plus_months_gt.
  - rewrite R3. now apply plus_months_gt.
  - rewrite R4. now apply plus_years_gt.
  - destruct (Hc E) as (n & -> & Hn). rewrite R5.
    unfold plus_days. rewrite getTime_setDate. unfold ES.msPerDay. lia.
Qed.

(** One cycle forward is strictly later, when the cycle length is defined. *)
Lemma addBillingCycle_lt (tza : Z) (s : Subscription) (d : Date) :
  well_formed s ->
  getTime d
  < getTime (addBillingCycle tza d (frequency s) (customFrequencyDays s)).
Proof.
  intros [R Hc].
  destruct (addBillingCycle_rule tza d) as (R1 & R2 & R3 & R4 & R5 & _).
  destruct R as [E|[E|[E|[E|E]]]]; rewrite E.
  - rewrite R1. now apply plus_months_lt.
  - rewrite R2. now apply plus_months_lt.
  - rewrite R3. now apply plus_months_lt.
  - rewrite R4. now apply plus_years_lt.
  - destruct (Hc E) as (n & -> & Hn). rewrite R5.
    unfold plus_days. rewrite getTime_setDate. unfold ES.msPerDay. lia.
Qed.

(** ** Is the next billing date in the future? *)

Section Future.

Variable tza : Z.

Import ES.

(** An instant lies before the first of the month after its own. *)
Lemma before_next_month (d : Date) :
  getTime d
  < firstOfMonth (12 * getFullYear tza d + getMonth tza d + 1) * msPerDay - tza.
Proof.
  unfold getFullYear, getMonth.
  set (t := LocalTime tza (getTime d)).
  pose proof (CalendarFacts.Day_in_month t) as [_ U].
  pose proof (CalendarFacts.Day_TimeWithinDay t) as E.
  assert (R : 0 <= TimeWithinDay t < msPerDay)
    by (apply Z.mod_pos_bound; reflexivity).
  unfold MakeDate in E. unfold t at 3, LocalTime in E.
  unfold msPerDay in *. lia.
Qed.

(** A date on or after the first of month [k], moved on by [n] months, is on
    or after the first of month [k + n]. *)
Lemma plus_months_ge (d : Date) (k n : Z) :
  firstOfMonth k <= Day (LocalTime tza (getTime d)) ->
  firstOfMonth (k + n) * msPerDay - tza <= getTime (plus_months tza n d).
Proof.
  intros H. unfold plus_months. rewrite getTime_setMonth.
  unfold getFullYear, getMonth, getDate.
  set (t := LocalTime tza (getTime d)) in *.
  pose proof (CalendarFacts.month_index_ge t k H) as K.
  pose proof (CalendarFacts.DateFromTime_pos t) as D.
  assert (R : 0 <= TimeWithinDay t < msPerDay)
    by (apply Z.mod_pos_bound; reflexivity).
  assert (M : firstOfMonth (k + n)
              <= firstOfMonth (12 * YearFromTime t + (MonthFromTime t + n)))
    by (apply CalendarFacts.firstOfMonth_le; lia).
  unfold msPerDay in *. lia.
Qed.

Lemma plus_years_ge (d : Date) (k n : Z) :
  firstOfMonth k <= Day (LocalTime tza (getTime d)) ->
  firstOfMonth (k + 12 * n) * msPerDay - tza <= getTime (plus_years tza n d).
Proof.
  intros H. unfold plus_years. rewrite getTime_setFullYear.
  unfold getFullYear, getMonth, getDate.
  set (t := LocalTime tza (getTime d)) in *.
  pose proof (CalendarFacts.month_index_ge t k H) as K.
  pose proof (CalendarFacts.DateFromTime_pos t) as D.
  assert (R : 0 <= TimeWithinDay t < msPerDay)
    by (apply Z.mod_pos_bound; reflexivity).
  assert (M : firstOfMonth (k + 12 * n)
              <= firstOfMonth (12 * (YearFromTime t + n) + MonthFromTime t))
    by (apply CalendarFacts.firstOfMonth_le; lia).
  unfold msPerDay in *. lia.
Qed.

(** The candidate [new Date(year, month, billingDay)] of the current month. *)
Lemma candidate_day (today : Date) (billingDay : Z) :
  exists k : Z,
    12 * getFullYear tza today + getMonth tza today <= k
    /\ LocalTime tza
         (getTime (newDate tza (getFullYear tza today) (getMonth tza today)
                     billingDay))
       = (firstOfMonth k + billingDay - 1) * msPerDay.
Proof.
  unfold newDate, UTC, LocalTime, MakeDate, MakeTime. cbn [getTime].
  rewrite CalendarFacts.MakeDay_firstOfMonth.
  destruct ((0 <=? getFullYear tza today) && (getFullYear tza today <=? 99)) eqn:E.
  - exists (12 * (1900 + getFullYear tza today) + getMonth tza today).
    split; lia.
  - exists (12 * getFullYear tza today + getMonth tza today). split; lia.
Qed.

(** For the four calendar frequencies and a billing day of at least 1, the
    next occurrence of the billing day is strictly after the instant. *)
Lemma next_occurrence_future
  (billingDay : Z) (f : BillingFrequency) (c : option Z) (today : Date) :
  1 <= billingDay ->
  f = "monthly"%string \/ f = "quarterly"%string \/ f = "half-yearly"%string
  \/ f = "yearly"%string ->
  getTime today < getTime (next_occurrence tza billingDay f c today).
Proof.
  intros Hb Hf. unfold next_occurrence. cbv zeta.
  destruct (candidate_day today billingDay) as (k & Hk & Hc). revert Hc.
  generalize (newDate tza (getFullYear tza today) (getMonth tza today) billingDay).
  intros cand Hc.
  destruct (Date_le cand today) eqn:L.
  2:{ unfold Date_le in L. apply Z.leb_gt in L. exact L. }
  clear L.
  pose proof (before_next_month today) as B.
  assert (Hday : firstOfMonth k <= Day (LocalTime tza (getTime cand))).
  { rewrite Hc. unfold Day. rewrite Z.div_mul by (unfold msPerDay; lia). lia. }
  destruct (addBillingCycle_rule tza cand) as (R1 & R2 & R3 & R4 & _).
  assert (M : forall n, 1 <= n ->
              firstOfMonth (12 * getFullYear tza today + getMonth tza today + 1)
              <= firstOfMonth (k + n))
    by (intros n Hn; apply CalendarFacts.firstOfMonth_le; lia).
  assert (G : forall (n : Z) (next : Date),
              1 <= n ->
              firstOfMonth (k + n) * msPerDay - tza <= getTime next ->
              getTime today < getTime next).
  { intros n next Hn Hnext. specialize (M n Hn).
    clear - B M Hnext. unfold msPerDay in *. lia. }
  destruct Hf as [-> | [-> | [-> | ->]]].
  - rewrite R1. apply (G 1); [lia | apply plus_months_ge; exact Hday].
  - rewrite R2. apply (G 3); [lia | apply plus_months_ge; exact Hday].
  - rewrite R3. apply (G 6); [lia | apply plus_months_ge; exact Hday].
  - rewrite R4. apply (G (12 * 1)); [lia | apply plus_years_ge; exact Hday].
Qed.

End Future.

(** C1 at a failing input: a recurring subscription billed every 7 days,
    with billing day 1, asked for its next billing date on 2024-01-20 at
    noon (UTC), gets 2024-01-08, which is in the past. *)
Theorem getNextBillingDate_weekly_in_the_past :
  isOneTime sample_weekly = false
  /\ frequency sample_weekly = "custom"%string
  /\ customFrequencyDays sample_weekly = Some 7
  /\ getNextBillingDate 0 sample_weekly date_2024_01_20_noon = Ok date_2024_01_08
  /\ getTime date_2024_01_08 < getTime date_2024_01_20_noon.
Proof.
  split; [reflexivity|]. split; [reflexivity|]. split; [reflexivity|].
  split; [vm_compute; reflexivity | vm_compute; reflexivity].
Qed.

(** ** Closed forms of the end date *)

Section ClosedForms.

Variable tza : Z.

Import ES.

Lemma Day_MakeDate (day time : Z) :
  0 <= time < msPerDay ->
  Day (MakeDate day time) = day /\ TimeWithinDay (MakeDate day time) = time.
Proof.
  intros H. unfold Day, TimeWithinDay, MakeDate, msPerDay in *.
  Z.div_mod_to_equations. lia.
Qed.

(** A day in the first 28 days of month [k] decomposes to month [k]. *)
Lemma decompose_unique (t k date : Z) :
  Day t = firstOfMonth k + date - 1 -> 1 <= date <= 28 ->
  12 * YearFromTime t + MonthFromTime t = k /\ DateFromTime t = date.
Proof.
  intros E R.
  pose proof (CalendarFacts.Day_in_month t) as [L U].
  pose proof (CalendarFacts.month_index_ge t k ltac:(lia)) as G.
  pose proof (CalendarFacts.firstOfMonth_succ k) as [S _].
  assert (I : 12 * YearFromTime t + MonthFromTime t = k).
  { destruct (Z.eq_dec (12 * YearFromTime t + MonthFromTime t) k) as [I|N];
      [exact I|].
    assert (M : firstOfMonth (k + 1)
                <= firstOfMonth (12 * YearFromTime t + MonthFromTime t))
      by (apply CalendarFacts.firstOfMonth_le; lia).
    lia. }
  split; [exact I|].
  pose proof (CalendarFacts.MakeDay_roundtrip t) as RT.
  rewrite CalendarFacts.MakeDay_firstOfMonth, I in RT. lia.
Qed.

Lemma plus_months_date (d : Date) (n : Z) :
  1 <= getDate tza d <= 28 ->
  12 * getFullYear tza (plus_months tza n d) + getMonth tza (plus_months tza n d)
  = 12 * getFullYear tza d + getMonth tza d + n
  /\ getDate tza (plus_months tza n d) = getDate tza d
  /\ TimeWithinDay (LocalTime tza (getTime (plus_months tza n d)))
     = TimeWithinDay (LocalTime tza (getTime d)).
Proof.
  intros R.
  assert (E : LocalTime tza (getTime (plus_months tza n d))
              = MakeDate (firstOfMonth (12 * getFullYear tza d + getMonth tza d + n)
                          + getDate tza d - 1)
                  (TimeWithinDay (LocalTime tza (getTime d)))).
  { unfold plus_months. rewrite getTime_setMonth. unfold LocalTime, MakeDate.
    replace (12 * getFullYear tza d + (getMonth tza d + n))
      with (12 * getFullYear tza d + getMonth tza d + n) by lia. lia. }
  assert (T : 0 <= TimeWithinDay (LocalTime tza (getTime d)) < msPerDay)
    by (apply Z.mod_pos_bound; reflexivity).
  destruct (Day_MakeDate (firstOfMonth (12 * getFullYear tza d + getMonth tza d + n)
                          + getDate tza d - 1) _ T) as [D W].
  rewrite <- E in D, W.
  destruct (decompose_unique _ _ _ D R) as [I J].
  unfold getFullYear, getMonth, getDate in *. auto.
Qed.

Lemma plus_months_0 (d : Date) : plus_months tza 0 d = d.
Proof.
  apply Date_ext. unfold plus_months. rewrite getTime_setMonth.
  pose proof (getTime_repr tza d) as R. rewrite Z.add_0_r.
  unfold msPerDay in *. lia.
Qed.

Lemma plus_months_add (d : Date) (n m : Z) :
  1 <= getDate tza d <= 28 ->
  plus_months tza m (plus_months tza n d) = plus_months tza (n + m) d.
Proof.
  intros R. destruct (plus_months_date d n R) as (I & J & W).
  apply Date_ext. unfold plus_months at 1 3. rewrite !getTime_setMonth.
  rewrite J, W.
  replace (12 * getFullYear tza (plus_months tza n d)
           + (getMonth tza (plus_months tza n d) + m))
    with (12 * getFullYear tza d + (getMonth tza d + (n + m))) by lia.
  reflexivity.
Qed.

Lemma iter_plus_months (d : Date) (c : Z) (n : nat) :
  1 <= getDate tza d <= 28 ->
  Nat.iter n (plus_months tza c) d = plus_months tza (c * Z.of_nat n) d.
Proof.
  intros R. induction n as [|n IH].
  - rewrite Z.mul_0_r. symmetry. apply plus_months_0.
  - rewrite Nat.iter_succ, IH, plus_months_add by exact R. f_equal. lia.
Qed.

Lemma plus_years_months (d : Date) (n : Z) :
  plus_years tza n d = plus_months tza (12 * n) d.
Proof.
  apply Date_ext. unfold plus_years, plus_months.
  rewrite getTime_setFullYear, getTime_setMonth.
  replace (12 * (getFullYear tza d + n) + getMonth tza d)
    with (12 * getFullYear tza d + (getMonth tza d + 12 * n)) by lia.
  reflexivity.
Qed.

Lemma iter_plus_days (d : Date) (c : Z) (n : nat) :
  getTime (Nat.iter n (plus_days tza c) d) = getTime d + Z.of_nat n * c * msPerDay.
Proof.
  induction n as [|n IH].
  - change (Nat.iter 0 (plus_days tza c) d) with d. lia.
  - rewrite Nat.iter_succ. unfold plus_days at 1. rewrite getTime_setDate, IH. lia.
Qed.

End ClosedForms.

Lemma iter_ext {A : Type} (f g : A -> A) (n : nat) (x : A) :
  (forall a, f a = g a) -> Nat.iter n f x = Nat.iter n g x.
Proof.
  intros H. induction n as [|n IH]; [reflexivity|].
  now rewrite !Nat.iter_succ, IH, H.
Qed.

Lemma cycle_months_rule (tza : Z) (f : BillingFrequency) (c : option Z)
  (months : Z) (d : Date) :
  cycle_months f = Some months ->
  addBillingCycle tza d f c = plus_months tza months d.
Proof.
  unfold cycle_months.
  destruct (String.eqb_spec f "monthly") as [->|_];
    [intros [= <-]; reflexivity|].
  destruct (String.eqb_spec f "quarterly") as [->|_];
    [intros [= <-]; reflexivity|].
  destruct (String.eqb_spec f "half-yearly") as [->|_];
    [intros [= <-]; reflexivity|].
  destruct (String.eqb_spec f "yearly") as [->|_]; [|discriminate].
  intros [= <-]. apply (plus_years_months tza d 1).
Qed.

(** In the calendar arithmetic without range, the end date of a one-time
    subscription with a calendar frequency that starts in the first 28 days
    of a month is its start date moved on by [cycleLimit] times the cycle
    length in calendar months. *)
Lemma exact_end_date_calendar :
  forall (tza : Z) (s : Subscription) (N months : Z),
    isOneTime s = true -> cycleLimit s = Some N -> 0 < N ->
    cycle_months (frequency s) = Some months ->
    getDate tza (startDate s) <= 28 ->
    getSubscriptionEndDate tza s
    = Ok (plus_months tza (months * N) (startDate s))
    /\ getDate tza (plus_months tza (months * N) (startDate s))
       = getDate tza (startDate s)
    /\ 12 * getFullYear tza (plus_months tza (months * N) (startDate s))
       + getMonth tza (plus_months tza (months * N) (startDate s))
       = 12 * getFullYear tza (startDate s) + getMonth tza (startDate s)
         + months * N.
Proof.
  intros tza s N months H1 HN Hpos Hm Hd.
  assert (R : 1 <= getDate tza (startDate s) <= 28)
    by (split; [apply CalendarFacts.DateFromTime_pos | exact Hd]).
  destruct (plus_months_date tza (startDate s) (months * N) R) as (I & J & _).
  split; [|split; assumption].
  unfold getSubscriptionEndDate.
  rewrite H1, HN, truthyZ_Some, (proj2 (Z.eqb_neq N 0)) by lia.
  cbn [negb orb valueZ]. f_equal. unfold for_loop.
  rewrite (iter_ext _ (plus_months tza months))
    by (intros d; now apply cycle_months_rule).
  rewrite iter_plus_months by exact R. f_equal. lia.
Qed.

(** In the calendar arithmetic without range, the end date of a one-time
    subscription with a custom frequency of [n] days lies [cycleLimit * n]
    days after its start date. *)
Lemma exact_end_date_custom :
  forall (tza : Z) (s : Subscription) (N n : Z),
    isOneTime s = true -> cycleLimit s = Some N -> 0 < N ->
    frequency s = "custom"%string -> customFrequencyDays s = Some n ->
    exists endDate : Date,
      getSubscriptionEndDate tza s = Ok endDate
      /\ getTime endDate = getTime (startDate s) + N * n * ES.msPerDay.
Proof.
  intros tza s N n H1 HN Hpos Hf Hc. eexists. split.
  - unfold getSubscriptionEndDate.
    rewrite H1, HN, truthyZ_Some, (proj2 (Z.eqb_neq N 0)) by lia.
    cbn [negb orb valueZ]. reflexivity.
  - unfold for_loop. rewrite Hf, Hc.
    rewrite (iter_ext _ (plus_days tza n))
      by (intros d; apply (addBillingCycle_rule tza d)).
    rewrite iter_plus_days. rewrite Z2Nat.id by lia. reflexivity.
Qed.

(** ** Further properties of the calculator *)

(** On exact rationals the monthly equivalent commutes with scaling the
    amount. *)
Lemma getMonthlyEquivalent_scale :
  forall (s : Subscription) (k : Qc),
    getMonthlyEquivalent (with_amount (Num.mul (Fin k) (amount s)) s)
    = Num.mul (Fin k) (getMonthlyEquivalent s).
Proof.
  intros s k. unfold getMonthlyEquivalent, with_amount.
  cbn [amount frequency customFrequencyDays].
  destruct (frequency s =? "monthly")%string; [reflexivity|].
  destruct (frequency s =? "quarterly")%string;
    [apply NumFacts.div_scale; lia|].
  destruct (frequency s =? "half-yearly")%string;
    [apply NumFacts.div_scale; lia|].
  destruct (frequency s =? "yearly")%string;
    [apply NumFacts.div_scale; lia|].
  destruct (frequency s =? "custom")%string; [|reflexivity].
  destruct (customFrequencyDays s) as [d|]; [|reflexivity].
  destruct (Z.eqb_spec d 0) as [_|Hd]; [reflexivity|].
  rewrite NumFacts.mul_scale_30. now apply NumFacts.div_scale.
Qed.

(** X5: a soft-deleted subscription is never active; a live recurring one
    always is; a live one-time subscription is active strictly before its
    end date. *)
Theorem isActive_spec :
  forall (tza : Z) (s : Subscription) (now : Date),
    (isDeleted s = Some true -> isActive tza s now = Ok false)
    /\ (not_deleted s = true -> isOneTime s = false ->
        isActive tza s now = Ok true)
    /\ (forall N : Z,
          not_deleted s = true -> isOneTime s = true ->
          cycleLimit s = Some N -> N <> 0 ->
          exists endDate : Date,
            getSubscriptionEndDate tza s = Ok endDate
            /\ isActive tza s now = Ok (getTime now <? getTime endDate)).
Proof.
  intros tza s now. unfold isActive, not_deleted, truthyB. split; [|split].
  - now intros ->.
  - intros Hd ->. now destruct (isDeleted s) as [[|]|].
  - intros N Hd H1 HN Hnz.
    unfold getSubscriptionEndDate.
    rewrite H1, HN, truthyZ_Some, (proj2 (Z.eqb_neq N 0) Hnz).
    cbn [negb orb andb bind]. eexists. split; [reflexivity|].
    now destruct (isDeleted s) as [[|]|].
Qed.

(** ** The scenarios of the specification, evaluated *)

Lemma Fin_eq (a b : Qc) : Qeq (this a) (this b) -> Fin a = Fin b.
Proof. intros H. f_equal. now apply Qc_is_canon. Qed.

(** Monthly on the 15th, asked on 2024-01-20: billed next on 2024-02-15, in
    26 days. *)
Example scenario_next_billing :
  getNextBillingDate 0 sample_monthly date_2024_01_20 = Ok date_2024_02_15
  /\ getDaysUntilBilling 0 sample_monthly date_2024_01_20 = Ok (Num.of_Z 26).
Proof.
  split; [vm_compute; reflexivity|].
  rewrite getDaysUntilBilling_returns. vm_compute. reflexivity.
Qed.

(** Six monthly cycles from 2024-01-01 end on 2024-07-01, with the
    cancellation reminder on 2024-06-01. *)
Example scenario_six_months :
  getSubscriptionEndDate 0 sample_six_months = Ok date_2024_07_01
  /\ getCancellationReminderDate 0 sample_six_months = Some date_2024_06_01.
Proof. split; vm_compute; reflexivity. Qed.

(** Month rollover: one month on from 2024-01-31 is 2024-03-02, the 31st day
    counted from the first of February. *)
Example scenario_rollover :
  addBillingCycle 0 (mkDate 1706659200000) "monthly" None = mkDate 1709337600000.
Proof. vm_compute. reflexivity. Qed.

(** 300 every 90 days is 100 a month. *)
Example scenario_ninety_days :
  getMonthlyEquivalent sample_ninety_days = Num.of_Z 100.
Proof. apply Fin_eq. vm_compute. reflexivity. Qed.

(** A deleted entry is left out of the monthly total. *)
Example scenario_total :
  calculateTotalMonthlySpend [sample_live; sample_deleted] USD = Num.of_Z 10.
Proof. apply Fin_eq. vm_compute. reflexivity. Qed.

(** Without a defined cycle length the progress can be NaN (asked at the
    very instant of the billing date, 0 / 0). *)
Example progress_without_days_is_NaN :
  getBillingCycleProgress 0 sample_custom_no_days date_2024_01_01 = Ok NaN.
Proof. vm_compute. reflexivity. Qed.

(** ** Instances of the theorems at concrete inputs *)

Lemma convertCurrency_spec_witness :
  convertCurrency (Num.of_Z 83) INR INR = Num.of_Z 83
  /\ convertCurrency (Num.of_Z 83) INR USD
     = Num.mul (Num.div (Num.of_Z 83) (rate_table INR)) (rate_table USD).
Proof.
  split.
  - apply (proj1 (convertCurrency_spec (Num.of_Z 83) INR INR)). reflexivity.
  - apply (proj1 (proj2 (convertCurrency_spec (Num.of_Z 83) INR USD))).
    discriminate.
Defined.

Lemma getMonthlyEquivalent_cases_witness :
  getMonthlyEquivalent sample_monthly = amount sample_monthly
  /\ getMonthlyEquivalent sample_ninety_days
     = Num.div (Num.mul (amount sample_ninety_days) (Num.of_Z 30)) (Num.of_Z 90)
  /\ getMonthlyEquivalent sample_zero_days = amount sample_zero_days.
Proof.
  split; [|split].
  - apply (proj1 (getMonthlyEquivalent_cases sample_monthly)). reflexivity.
  - destruct (getMonthlyEquivalent_cases sample_ninety_days)
      as (_ & _ & _ & _ & H & _).
    apply (H 90); [reflexivity | reflexivity | lia].
  - destruct (getMonthlyEquivalent_cases sample_zero_days)
      as (_ & _ & _ & _ & _ & H & _).
    apply H; [reflexivity | right; reflexivity].
Defined.



Lemma well_formed_sample_monthly : well_formed sample_monthly.
Proof.
  split; [left; reflexivity | intros H; discriminate H].
Defined.


Lemma custom_without_days_is_noop_witness :
  getSubscriptionEndDate 0 sample_custom_no_days
  = Ok (startDate sample_custom_no_days).
Proof.
  apply (proj2 (proj2 (custom_without_days_is_noop 0 date_2024_01_01
                          sample_custom_no_days 3)));
    [reflexivity | reflexivity | reflexivity | reflexivity | lia].
Defined.

(** ** Inputs at which the claims as first stated fail *)


(** C6 as first stated fails: with [frequency = custom] and
    [customFrequencyDays] present and zero the monthly equivalent is the raw
    amount, 10, and not [amount * 30 / customFrequencyDays], which is
    infinite. *)
Lemma getMonthlyEquivalent_zero_days :
  frequency sample_zero_days = "custom"%string
  /\ customFrequencyDays sample_zero_days = Some 0
  /\ getMonthlyEquivalent sample_zero_days = Num.of_Z 10
  /\ Num.div (Num.mul (amount sample_zero_days) (Num.of_Z 30)) (Num.of_Z 0)
     = PosInf
  /\ getMonthlyEquivalent sample_zero_days
     <> Num.div (Num.mul (amount sample_zero_days) (Num.of_Z 30)) (Num.of_Z 0).
Proof.
  split; [reflexivity|]. split; [reflexivity|]. split; [reflexivity|].
  assert (E : Num.div (Num.mul (amount sample_zero_days) (Num.of_Z 30))
                (Num.of_Z 0) = PosInf) by (vm_compute; reflexivity).
  split; [exact E|]. rewrite E. discriminate.
Qed.

(** ** Instances of the further properties *)

Lemma isActive_spec_witness :
  isActive 0 sample_deleted date_2024_01_20 = Ok false
  /\ isActive 0 sample_live date_2024_01_20 = Ok true
  /\ exists endDate : Date,
       getSubscriptionEndDate 0 sample_six_months = Ok endDate
       /\ isActive 0 sample_six_months date_2024_01_20
          = Ok (getTime date_2024_01_20 <? getTime endDate).
Proof.
  split; [|split].
  - apply (proj1 (isActive_spec 0 sample_deleted date_2024_01_20)). reflexivity.
  - apply (proj1 (proj2 (isActive_spec 0 sample_live date_2024_01_20)));
      reflexivity.
  - apply (proj2 (proj2 (isActive_spec 0 sample_six_months date_2024_01_20)) 6);
      [reflexivity | reflexivity | reflexivity | lia].
Defined.

(** ** More on upcoming subscriptions: windows, ties, bounds *)

Section StableSort.

Context {A : Type}.
Variable key : A -> Z.

(** Inserting into a list whose keys are all at least the new key puts the
    new element first. *)
Lemma insert_by_head (x : A) (l : list A) :
  Forall (fun y => key x <= key y) l -> insert_by key x l = x :: l.
Proof.
  intros H. destruct l as [|y l]; [reflexivity|].
  cbn [insert_by]. inversion H as [|? ? Hy _]; subst.
  destruct (Z.ltb_spec (key y) (key x)); [lia | reflexivity].
Qed.

Lemma Forall_filter_keep (P : A -> Prop) (p : A -> bool) (l : list A) :
  Forall P l -> Forall P (filter p l).
Proof.
  induction 1 as [|z l Hz F IH]; cbn [filter]; [constructor|].
  destruct (p z); [now constructor | exact IH].
Qed.

Lemma filter_insert_by (p : A -> bool) (x : A) (l : list A) :
  StronglySorted (fun a b => key a <= key b) l ->
  filter p (insert_by key x l)
  = if p x then insert_by key x (filter p l) else filter p l.
Proof.
  induction 1 as [|y l Hs IH Hy]; cbn [insert_by].
  - cbn [filter]. now destruct (p x).
  - destruct (Z.ltb_spec (key y) (key x)) as [L|L].
    + cbn [filter]. rewrite IH.
      destruct (p y), (p x); cbn [insert_by]; try reflexivity.
      now rewrite (proj2 (Z.ltb_lt (key y) (key x)) L).
    + change (filter p (x :: y :: l))
        with (if p x then x :: filter p (y :: l) else filter p (y :: l)).
      destruct (p x); [|reflexivity].
      symmetry. apply insert_by_head. apply Forall_filter_keep.
      constructor; [exact L|].
      eapply Forall_impl; [|exact Hy]. intros z. cbv beta. lia.
Qed.

(** The sort commutes with every filter. *)
Lemma sort_by_filter (p : A -> bool) (l : list A) :
  sort_by key (filter p l) = filter p (sort_by key l).
Proof.
  induction l as [|x l IH]; [reflexivity|].
  cbn [filter sort_by fold_right].
  rewrite filter_insert_by by apply sort_by_sorted.
  fold (sort_by key l). rewrite <- IH.
  now destruct (p x).
Qed.

(** The sort is stable: the elements with a given key keep their order. *)
Lemma filter_key_insert_by (k : Z) (x : A) (l : list A) :
  filter (fun a => key a =? k) (insert_by key x l)
  = filter (fun a => key a =? k) (x :: l).
Proof.
  induction l as [|y l IH]; [reflexivity|].
  cbn [insert_by]. destruct (Z.ltb_spec (key y) (key x)) as [L|L];
    [|reflexivity].
  cbn [filter] in *. rewrite IH.
  destruct (Z.eqb_spec (key y) k), (Z.eqb_spec (key x) k); try reflexivity.
  lia.
Qed.

Lemma sort_by_stable (k : Z) (l : list A) :
  filter (fun a => key a =? k) (sort_by key l)
  = filter (fun a => key a =? k) l.
Proof.
  induction l as [|x l IH]; [reflexivity|].
  cbn [sort_by fold_right]. rewrite filter_key_insert_by.
  fold (sort_by key l). cbn [filter]. now rewrite IH.
Qed.

End StableSort.

Lemma filter_filter_impl {A : Type} (p q : A -> bool) (l : list A) :
  (forall a, p a = true -> q a = true) ->
  filter p (filter q l) = filter p l.
Proof.
  intros H. induction l as [|x l IH]; [reflexivity|].
  cbn [filter]. destruct (q x) eqn:Q, (p x) eqn:P; cbn [filter];
    rewrite ?P, ?IH; try reflexivity.
  apply H in P. congruence.
Qed.

(** What [getUpcomingSubscriptions] returns, in closed form. *)
Lemma getUpcomingSubscriptions_returns
  (tza : Z) (subs : list Subscription) (days : number) (today : Date) :
  getUpcomingSubscriptions tza subs days today
  = Ok (sort_by (days_key tza today) (filter (upcoming tza days today) subs)).
Proof.
  unfold getUpcomingSubscriptions.
  rewrite (filterM_returns _ (upcoming tza days today)).
  - cbn [bind]. apply sortM_returns. intros a b.
    rewrite !getDaysUntilBilling_returns. cbn [bind].
    now rewrite NumFacts.sub_of_Z.
  - intros s. unfold upcoming, not_deleted, truthyB.
    rewrite getDaysUntilBilling_returns. cbn [bind].
    now destruct (isDeleted s) as [[|]|].
Qed.

Lemma leb_trans_of_Z (k : Z) (w1 w2 : number) :
  Num.leb (Num.of_Z k) w1 = true -> Num.leb w1 w2 = true ->
  Num.leb (Num.of_Z k) w2 = true.
Proof.
  unfold Num.of_Z. destruct w1 as [a| | |], w2 as [b| | |];
    try discriminate; try reflexivity.
  rewrite !NumFacts.leb_Fin. apply Qcle_trans.
Qed.

Lemma billed_in_key (tza : Z) (today : Date) (k : Z) (s : Subscription) :
  billed_in tza today k s = (days_key tza today s =? k).
Proof.
  unfold billed_in. rewrite getDaysUntilBilling_returns, !NumFacts.leb_of_Z.
  destruct (Z.eqb_spec (days_key tza today s) k),
    (Z.leb_spec (days_key tza today s) k),
    (Z.leb_spec k (days_key tza today s)); cbn [andb]; try reflexivity; lia.
Qed.

(** X8: a shorter window returns the entries of a longer one that fall into
    it, in the same order: the result for [w1] is the result for [w2]
    filtered, whenever [w1 <= w2]. *)
Theorem getUpcomingSubscriptions_window :
  forall (tza : Z) (subs : list Subscription) (w1 w2 : number) (today : Date),
    Num.leb w1 w2 = true ->
    exists shorter longer : list Subscription,
      getUpcomingSubscriptions tza subs w1 today = Ok shorter
      /\ getUpcomingSubscriptions tza subs w2 today = Ok longer
      /\ shorter = filter (upcoming tza w1 today) longer.
Proof.
  intros tza subs w1 w2 today H. eexists. eexists.
  split; [apply getUpcomingSubscriptions_returns|].
  split; [apply getUpcomingSubscriptions_returns|].
  rewrite !sort_by_filter. symmetry. apply filter_filter_impl.
  intros s. unfold upcoming. rewrite getDaysUntilBilling_returns.
  intros U. apply andb_prop in U as [U1 U2]. apply andb_prop in U2 as [U2 U3].
  rewrite U1, U2. cbn [andb]. now apply (leb_trans_of_Z _ w1).
Qed.

(** X9: ties keep the input order: the returned entries billed in exactly
    [k] days are the qualifying entries of the input billed in [k] days, in
    input order. *)
Theorem getUpcomingSubscriptions_stable :
  forall (tza : Z) (subs : list Subscription) (days : number) (today : Date)
         (k : Z),
  exists upcoming_list : list Subscription,
    getUpcomingSubscriptions tza subs days today = Ok upcoming_list
    /\ filter (billed_in tza today k) upcoming_list
       = filter (billed_in tza today k) (filter (upcoming tza days today) subs).
Proof.
  intros tza subs days today k. eexists.
  split; [apply getUpcomingSubscriptions_returns|].
  rewrite !(filter_ext _ _ (billed_in_key tza today k)).
  apply sort_by_stable.
Qed.

(** X10: with a window of [w] whole days, every returned entry is one of the
    input that is not deleted and whose next billing date lies less than a
    day before the instant at the earliest and [w] days after it at the
    latest. *)
Theorem getUpcomingSubscriptions_bounds :
  forall (tza : Z) (subs : list Subscription) (w : Z) (today : Date),
  exists upcoming_list : list Subscription,
    getUpcomingSubscriptions tza subs (Num.of_Z w) today = Ok upcoming_list
    /\ forall s : Subscription,
         In s upcoming_list ->
         In s subs /\ isDeleted s <> Some true
         /\ exists nextBilling : Date,
              getNextBillingDate tza s today = Ok nextBilling
              /\ - ES.msPerDay < getTime nextBilling - getTime today
                 <= w * ES.msPerDay.
Proof.
  intros tza subs w today. eexists.
  split; [apply getUpcomingSubscriptions_returns|].
  intros s Hs.
  eapply Permutation_in in Hs; [|symmetry; apply sort_by_perm].
  apply filter_In in Hs as [Hin U]. split; [exact Hin|].
  unfold upcoming in U. rewrite getDaysUntilBilling_returns in U.
  apply andb_prop in U as [U1 U2]. apply andb_prop in U2 as [U2 U3].
  split.
  - unfold not_deleted in U1. intros E. rewrite E in U1. discriminate.
  - exists (next_billing tza s today).
    split; [apply getNextBillingDate_returns|].
    rewrite NumFacts.leb_of_Z in U2, U3.
    apply Z.leb_le in U2, U3. unfold days_key, ES.msPerDay in *.
    Z.div_mod_to_equations. lia.
Qed.

(** ** The life of a one-time subscription *)

Lemma iter_lt (f : Date -> Date) (n : nat) (d : Date) :
  (forall x, getTime x < getTime (f x)) ->
  (0 < n)%nat -> getTime d < getTime (Nat.iter n f d).
Proof.
  intros H Hn. destruct n as [|n]; [lia|]. clear Hn.
  induction n as [|n IH].
  - apply H.
  - rewrite Nat.iter_succ. specialize (H (Nat.iter (S n) f d)). lia.
Qed.

(** In the calendar arithmetic without range the dates of a well-formed
    one-time subscription are in order. *)
Lemma exact_timeline :
  forall (tza : Z) (s : Subscription) (N : Z),
    well_formed s -> isOneTime s = true -> cycleLimit s = Some N -> 1 <= N ->
    exists endDate : Date,
      getSubscriptionEndDate tza s = Ok endDate
      /\ getTime (startDate s) < getTime endDate
      /\ (2 <= N ->
          exists reminder : Date,
            getCancellationReminderDate tza s = Some reminder
            /\ getTime (startDate s) < getTime reminder
            /\ getTime reminder < getTime endDate).
Proof.
  intros tza s N W H1 HN Hpos.
  pose proof (fun d => addBillingCycle_lt tza s d W) as Step.
  eexists. split; [|split].
  - unfold getSubscriptionEndDate.
    rewrite H1, HN, truthyZ_Some, (proj2 (Z.eqb_neq N 0)) by lia.
    cbn [negb orb valueZ]. reflexivity.
  - unfold for_loop. apply iter_lt; [exact Step | lia].
  - intros H2. eexists. split; [|split].
    + unfold getCancellationReminderDate.
      rewrite H1, HN, truthyZ_Some, (proj2 (Z.eqb_neq N 0)) by lia.
      cbn [negb orb valueZ]. rewrite (proj2 (Z.leb_gt N 1)) by lia.
      reflexivity.
    + unfold for_loop. apply iter_lt; [exact Step | lia].
    + replace N with (N - 1 + 1) at 2 by lia.
      rewrite for_loop_succ by lia. apply Step.
Qed.

(** X12: once the end date of a one-time subscription has passed, the next
    billing date is that end date, the subscription is not active, the days
    until billing are zero or negative and, when the subscription is
    well-formed, the progress through the cycle is 100. *)
Theorem ended_subscription :
  forall (tza : Z) (s : Subscription) (endDate now : Date),
    getSubscriptionEndDate tza s = Ok endDate ->
    getTime endDate < getTime now ->
    getNextBillingDate tza s now = Ok endDate
    /\ isActive tza s now = Ok false
    /\ (exists k : Z,
          getDaysUntilBilling tza s now = Ok (Num.of_Z k) /\ k <= 0)
    /\ (well_formed s ->
        getBillingCycleProgress tza s now = Ok (Num.of_Z 100)).
Proof.
  intros tza s e now He Hlt.
  assert (G : exists N, isOneTime s = true /\ cycleLimit s = Some N /\ N <> 0).
  { unfold getSubscriptionEndDate in He.
    destruct (isOneTime s); [|discriminate He].
    destruct (cycleLimit s) as [N|]; [|discriminate He].
    exists N. cbn [truthyZ negb orb] in He.
    destruct (Z.eqb_spec N 0); [discriminate He | auto]. }
  destruct G as (N & H1 & HN & Hnz).
  assert (Hnext : getNextBillingDate tza s now = Ok e).
  { unfold getNextBillingDate. rewrite H1, HN, truthyZ_Some, He.
    rewrite (proj2 (Z.eqb_neq N 0) Hnz). cbn [negb andb bind].
    unfold Date_gt. now rewrite (proj2 (Z.ltb_lt _ _) Hlt). }
  split; [exact Hnext|]. split; [|split].
  - unfold isActive. destruct (truthyB (isDeleted s)); [reflexivity|].
    rewrite H1, HN, truthyZ_Some, He, (proj2 (Z.eqb_neq N 0) Hnz).
    cbn [negb andb bind]. unfold Date_lt.
    now rewrite (proj2 (Z.ltb_ge _ _)) by lia.
  - exists (days_key tza now s). split; [apply getDaysUntilBilling_returns|].
    unfold days_key, next_billing. rewrite Hnext.
    unfold ES.msPerDay. Z.div_mod_to_equations. lia.
  - intros W. unfold getBillingCycleProgress. rewrite Hnext. cbn [bind].
    pose proof (subtractBillingCycle_lt tza s e W) as L.
    rewrite !NumFacts.sub_of_Z. f_equal.
    apply NumFacts.full_progress; lia.
Qed.

(** ** Maps in insertion order *)

Module JSMapFacts.

Section Facts.

Context {V : Type}.
Implicit Types (m : JSMap.t V) (k : string) (v : V).

Lemma get_set_same k v m : JSMap.get k (JSMap.set k v m) = Some v.
Proof.
  induction m as [|[k' v'] m IH]; cbn [JSMap.set JSMap.get].
  - now rewrite String.eqb_refl.
  - destruct (String.eqb_spec k' k) as [->|N]; cbn [JSMap.get].
    + now rewrite String.eqb_refl.
    + now rewrite (proj2 (String.eqb_neq k' k) N).
Qed.

Lemma get_set_other k k' v m :
  k' <> k -> JSMap.get k' (JSMap.set k v m) = JSMap.get k' m.
Proof.
  intros N. induction m as [|[k0 v0] m IH]; cbn [JSMap.set JSMap.get].
  - now rewrite (proj2 (String.eqb_neq k k') (not_eq_sym N)).
  - destruct (String.eqb_spec k0 k) as [->|N0]; cbn [JSMap.get].
    + now rewrite (proj2 (String.eqb_neq k k') (not_eq_sym N)).
    + now rewrite IH.
Qed.

Lemma get_delete_same k m : JSMap.get k (JSMap.delete k m) = None.
Proof.
  unfold JSMap.delete.
  induction m as [|[k' v'] m IH]; cbn [filter JSMap.get fst]; [reflexivity|].
  destruct (String.eqb_spec k' k) as [->|N]; cbn [negb JSMap.get]; [exact IH|].
  now rewrite (proj2 (String.eqb_neq k' k) N).
Qed.

Lemma get_delete_other k k' m :
  k' <> k -> JSMap.get k' (JSMap.delete k m) = JSMap.get k' m.
Proof.
  intros N. unfold JSMap.delete.
  induction m as [|[k0 v0] m IH]; cbn [filter JSMap.get fst]; [reflexivity|].
  destruct (String.eqb_spec k0 k) as [->|N0]; cbn [negb JSMap.get].
  - now rewrite IH, (proj2 (String.eqb_neq k k') (not_eq_sym N)).
  - now rewrite IH.
Qed.

Lemma get_None_keys k m : JSMap.get k m = None <-> ~ In k (JSMap.keys m).
Proof.
  induction m as [|[k' v'] m IH]; cbn [JSMap.get JSMap.keys map fst In].
  - tauto.
  - destruct (String.eqb_spec k' k) as [->|N].
    + split; [discriminate | intros H; exfalso; apply H; now left].
    + rewrite IH. unfold JSMap.keys. tauto.
Qed.

(** Setting a key that is absent appends the entry. *)
Lemma set_absent k v m :
  JSMap.get k m = None -> JSMap.set k v m = m ++ [(k, v)].
Proof.
  induction m as [|[k' v'] m IH]; cbn [JSMap.set JSMap.get app]; [reflexivity|].
  destruct (String.eqb_spec k' k); [discriminate|].
  intros H. now rewrite IH.
Qed.

Lemma delete_absent k m : JSMap.get k m = None -> JSMap.delete k m = m.
Proof.
  unfold JSMap.delete.
  induction m as [|[k' v'] m IH]; cbn [filter JSMap.get fst]; [reflexivity|].
  destruct (String.eqb_spec k' k); [discriminate|].
  intros H. cbn [negb]. now rewrite IH.
Qed.

Lemma delete_app k m m' :
  JSMap.delete k (m ++ m') = JSMap.delete k m ++ JSMap.delete k m'.
Proof. apply filter_app. Qed.

Lemma delete_comm k k' m :
  JSMap.delete k (JSMap.delete k' m) = JSMap.delete k' (JSMap.delete k m).
Proof.
  unfold JSMap.delete. induction m as [|e m IH]; cbn [filter]; [reflexivity|].
  destruct (negb (fst e =? k')%string) eqn:A, (negb (fst e =? k)%string) eqn:B;
    cbn [filter]; rewrite ?A, ?B, IH; reflexivity.
Qed.

Lemma delete_idem k m : JSMap.delete k (JSMap.delete k m) = JSMap.delete k m.
Proof. apply delete_absent, get_delete_same. Qed.

Lemma keys_delete k m :
  JSMap.keys (JSMap.delete k m)
  = filter (fun k' => negb (k' =? k)%string) (JSMap.keys m).
Proof.
  unfold JSMap.delete, JSMap.keys.
  induction m as [|[k' v'] m IH]; cbn [filter map fst]; [reflexivity|].
  destruct (negb (k' =? k)%string); cbn [map fst]; now rewrite IH.
Qed.

Lemma NoDup_filter {A : Type} (p : A -> bool) (l : list A) :
  NoDup l -> NoDup (filter p l).
Proof.
  induction 1 as [|x l Hx _ IH]; cbn [filter]; [constructor|].
  destruct (p x); [|exact IH].
  constructor; [|exact IH]. rewrite filter_In. tauto.
Qed.

Lemma NoDup_keys_delete k m :
  NoDup (JSMap.keys m) -> NoDup (JSMap.keys (JSMap.delete k m)).
Proof. rewrite keys_delete. apply NoDup_filter. Qed.

Lemma NoDup_keys_append k v m :
  NoDup (JSMap.keys m) -> JSMap.get k m = None ->
  NoDup (JSMap.keys (m ++ [(k, v)])).
Proof.
  intros H G. apply get_None_keys in G. unfold JSMap.keys in *.
  rewrite map_app. cbn [map fst].
  apply Permutation_NoDup with (l := k :: map fst m).
  - apply Permutation_cons_append.
  - now constructor.
Qed.

End Facts.

End JSMapFacts.

(** ** The notification scheduler *)

Module SchedulerFacts.

Import NotificationScheduler.

Lemma billing_key_inj (a b : string) :
  ("billing_" ++ a)%string = ("billing_" ++ b)%string -> a = b.
Proof. cbn. now intros [= ->]. Qed.

Lemma cancel_key_inj (a b : string) :
  ("cancel_" ++ a)%string = ("cancel_" ++ b)%string -> a = b.
Proof. cbn. now intros [= ->]. Qed.

Lemma billing_cancel_ne (a b : string) :
  ("billing_" ++ a)%string <> ("cancel_" ++ b)%string.
Proof. cbn. discriminate. Qed.

Lemma get_app {V : Type} (k : string) (m m' : JSMap.t V) :
  JSMap.get k (m ++ m')
  = match JSMap.get k m with
    | Some v => Some v
    | None => JSMap.get k m'
    end.
Proof.
  induction m as [|[k' v'] m IH]; cbn [app JSMap.get]; [reflexivity|].
  now destruct (k' =? k)%string.
Qed.

(** After a cancellation neither key of the subscription is left. *)
Lemma cancel_get_billing (m : state) (i : string) :
  JSMap.get ("billing_" ++ i) (cancelForSubscription m i) = None.
Proof.
  unfold cancelForSubscription. cbv zeta.
  rewrite JSMapFacts.get_delete_other by apply billing_cancel_ne.
  apply JSMapFacts.get_delete_same.
Qed.

Lemma cancel_get_cancel (m : state) (i : string) :
  JSMap.get ("cancel_" ++ i) (cancelForSubscription m i) = None.
Proof. unfold cancelForSubscription. apply JSMapFacts.get_delete_same. Qed.

Lemma cancel_get_other (m : state) (i k : string) :
  k <> ("billing_" ++ i)%string -> k <> ("cancel_" ++ i)%string ->
  JSMap.get k (cancelForSubscription m i) = JSMap.get k m.
Proof.
  intros B C. unfold cancelForSubscription. cbv zeta.
  now rewrite !JSMapFacts.get_delete_other.
Qed.

Lemma cancel_absent (m : state) (i : string) :
  JSMap.get ("billing_" ++ i) m = None -> JSMap.get ("cancel_" ++ i) m = None ->
  cancelForSubscription m i = m.
Proof.
  intros B C. unfold cancelForSubscription. cbv zeta.
  rewrite (JSMapFacts.delete_absent _ _ B). now apply JSMapFacts.delete_absent.
Qed.

Lemma cancel_idem (m : state) (i : string) :
  cancelForSubscription (cancelForSubscription m i) i
  = cancelForSubscription m i.
Proof.
  apply cancel_absent; [apply cancel_get_billing | apply cancel_get_cancel].
Qed.

Section WithZone.

Variable tza : Z.

Lemma getReminderDate_enabled (s : Subscription) (today : Date) :
  reminderEnabled s = true ->
  exists r : Date, getReminderDate tza s today = Ok (Some r).
Proof.
  intros E. unfold getReminderDate.
  rewrite E, getNextBillingDate_returns. cbn [negb bind]. eexists. reflexivity.
Qed.

Lemma getCancellationReminderDate_guard (s : Subscription) :
  isOneTime s && truthyZ (cycleLimit s) = false ->
  getCancellationReminderDate tza s = None.
Proof.
  intros H. unfold getCancellationReminderDate.
  destruct (isOneTime s); cbn [negb orb andb] in *; [|reflexivity].
  now rewrite H.
Qed.

(** Every key of [notifications_for] is one of the two keys of the
    subscription. *)
Lemma notifications_for_keys (s : Subscription) (today : Date) :
  Forall (fun e => fst e = ("billing_" ++ id s)%string
                   \/ fst e = ("cancel_" ++ id s)%string)
    (notifications_for tza s today).
Proof.
  unfold notifications_for.
  destruct (negb (reminderEnabled s)); [constructor|].
  destruct (getReminderDate tza s today) as [[r|]|]; [| |constructor];
    destruct (getCancellationReminderDate tza s) as [c|]; cbn [app];
    repeat (apply Forall_cons; [cbn [fst]; auto|]); constructor.
Qed.

(** [scheduleForSubscription] removes the two notifications of the
    subscription and appends its new ones at the end of the map. *)
Lemma scheduleForSubscription_shape (m : state) (s : Subscription) (today : Date) :
  scheduleForSubscription tza m s today
  = cancelForSubscription m (id s) ++ notifications_for tza s today.
Proof.
  unfold scheduleForSubscription, notifications_for. cbv zeta.
  destruct (reminderEnabled s) eqn:E; cbn [negb]; [|now rewrite app_nil_r].
  destruct (getReminderDate_enabled s today E) as [r Hr].
  unfold scheduleBillingReminder. rewrite Hr. cbn [bind].
  cbn [ScheduledNotification.id].
  rewrite JSMapFacts.set_absent by apply cancel_get_billing.
  destruct (isOneTime s && truthyZ (cycleLimit s)) eqn:G.
  - unfold scheduleCancellationAlert.
    destruct (getCancellationReminderDate tza s) as [c|]; [|reflexivity].
    cbn [ScheduledNotification.id].
    rewrite JSMapFacts.set_absent; [now rewrite <- app_assoc|].
    rewrite get_app, cancel_get_cancel. cbn [JSMap.get].
    destruct (String.eqb_spec ("billing_" ++ id s) ("cancel_" ++ id s)) as [K|_];
      [now apply billing_cancel_ne in K | reflexivity].
  - now rewrite (getCancellationReminderDate_guard s G).
Qed.

Lemma schedule_get_other (m : state) (s : Subscription) (today : Date)
  (k : string) :
  k <> ("billing_" ++ id s)%string -> k <> ("cancel_" ++ id s)%string ->
  JSMap.get k (scheduleForSubscription tza m s today) = JSMap.get k m.
Proof.
  intros B C. rewrite scheduleForSubscription_shape.
  rewrite get_app, cancel_get_other by assumption.
  destruct (JSMap.get k m) as [v|]; [reflexivity|].
  pose proof (notifications_for_keys s today) as F.
  induction F as [|[k' v'] l K F IH]; [reflexivity|].
  cbn [JSMap.get fst] in *.
  destruct (String.eqb_spec k' k) as [->|_]; [|exact IH].
  destruct K; contradiction.
Qed.

Lemma schedule_get_billing (m : state) (s : Subscription) (today : Date)
  (r : Date) :
  reminderEnabled s = true -> getReminderDate tza s today = Ok (Some r) ->
  JSMap.get ("billing_" ++ id s) (scheduleForSubscription tza m s today)
  = Some (ScheduledNotification.make ("billing_" ++ id s) (id s) r
            billing_reminder).
Proof.
  intros E Hr. rewrite scheduleForSubscription_shape. unfold notifications_for.
  rewrite E, Hr, get_app, cancel_get_billing.
  cbn [negb app JSMap.get]. now rewrite String.eqb_refl.
Qed.

Lemma cancel_notifications_for (s : Subscription) (today : Date) :
  cancelForSubscription (notifications_for tza s today) (id s) = [].
Proof.
  pose proof (notifications_for_keys s today) as F.
  unfold cancelForSubscription, JSMap.delete. cbv zeta.
  induction F as [|e l [K|K] F IH]; [reflexivity| |]; cbn [filter].
  - rewrite K, String.eqb_refl. cbn [negb]. exact IH.
  - destruct (negb (fst e =? "billing_" ++ id s)%string); [|exact IH].
    cbn [filter]. rewrite K, String.eqb_refl. cbn [negb]. exact IH.
Qed.

Lemma cancel_app (m m' : state) (i : string) :
  cancelForSubscription (m ++ m') i
  = cancelForSubscription m i ++ cancelForSubscription m' i.
Proof.
  unfold cancelForSubscription. cbv zeta.
  now rewrite !JSMapFacts.delete_app.
Qed.

End WithZone.

End SchedulerFacts.

Import NotificationScheduler.

Lemma isActive_returns (tza : Z) (s : Subscription) (today : Date) :
  isActive tza s today = Ok (active tza today s).
Proof.
  unfold active, isActive, getSubscriptionEndDate.
  destruct (truthyB (isDeleted s)); [reflexivity|].
  destruct (isOneTime s); cbn [andb negb orb]; [|reflexivity].
  now destruct (truthyZ (cycleLimit s)).
Qed.

Lemma scheduleActive_fold (tza : Z) (m : state) (subs : list Subscription)
  (today : Date) :
  scheduleActive tza m subs today
  = fold_left (fun m' s => scheduleForSubscription tza m' s today)
      (filter (active tza today) subs) m.
Proof.
  revert m. induction subs as [|s subs IH]; intros m; [reflexivity|].
  cbn [scheduleActive filter]. rewrite isActive_returns.
  destruct (active tza today s); cbn [fold_left]; apply IH.
Qed.

(** X13: after [scheduleForSubscription] the map holds, for this
    subscription, no notification when reminders are disabled, and otherwise
    its billing reminder at [getReminderDate] and, when
    [getCancellationReminderDate] is not null, its cancellation alert at that
    date; every other notification is as before. *)
Theorem scheduleForSubscription_spec :
  forall (tza : Z) (m : state) (s : Subscription) (today : Date),
    (reminderEnabled s = false ->
     JSMap.get ("billing_" ++ id s) (scheduleForSubscription tza m s today) = None
     /\ JSMap.get ("cancel_" ++ id s) (scheduleForSubscription tza m s today)
        = None)
    /\ (reminderEnabled s = true ->
        exists r : Date,
          getReminderDate tza s today = Ok (Some r)
          /\ JSMap.get ("billing_" ++ id s)
               (scheduleForSubscription tza m s today)
             = Some (ScheduledNotification.make ("billing_" ++ id s) (id s) r
                       billing_reminder))
    /\ (reminderEnabled s = true ->
        JSMap.get ("cancel_" ++ id s) (scheduleForSubscription tza m s today)
        = option_map
            (fun c => ScheduledNotification.make ("cancel_" ++ id s) (id s) c
                        cancellation_alert)
            (getCancellationReminderDate tza s))
    /\ (forall k : string,
          k <> ("billing_" ++ id s)%string -> k <> ("cancel_" ++ id s)%string ->
          JSMap.get k (scheduleForSubscription tza m s today) = JSMap.get k m).
Proof.
  intros tza m s today.
  rewrite SchedulerFacts.scheduleForSubscription_shape.
  unfold notifications_for.
  assert (NE : (("billing_" ++ id s) =? ("cancel_" ++ id s))%string = false)
    by (apply String.eqb_neq, SchedulerFacts.billing_cancel_ne).
  assert (NE' : (("cancel_" ++ id s) =? ("billing_" ++ id s))%string = false)
    by (apply String.eqb_neq, not_eq_sym, SchedulerFacts.billing_cancel_ne).
  split; [|split; [|split]].
  - intros ->. cbn [negb]. rewrite app_nil_r.
    split; [apply SchedulerFacts.cancel_get_billing
           | apply SchedulerFacts.cancel_get_cancel].
  - intros E.
    destruct (SchedulerFacts.getReminderDate_enabled tza s today E) as [r Hr].
    exists r. split; [exact Hr|].
    fold (notifications_for tza s today).
    rewrite <- SchedulerFacts.scheduleForSubscription_shape.
    now apply SchedulerFacts.schedule_get_billing.
  - intros E. rewrite E. cbn [negb].
    destruct (SchedulerFacts.getReminderDate_enabled tza s today E) as [r Hr].
    rewrite Hr, SchedulerFacts.get_app, SchedulerFacts.cancel_get_cancel.
    cbn [app JSMap.get]. rewrite NE.
    destruct (getCancellationReminderDate tza s) as [c|]; cbn [JSMap.get option_map];
      [now rewrite String.eqb_refl | reflexivity].
  - intros k B C. fold (notifications_for tza s today).
    rewrite <- SchedulerFacts.scheduleForSubscription_shape.
    now apply SchedulerFacts.schedule_get_other.
Qed.

(** X14: scheduling a subscription twice at the same instant leaves the map
    as scheduling it once, order of the entries included. *)
Theorem scheduleForSubscription_idempotent :
  forall (tza : Z) (m : state) (s : Subscription) (today : Date),
    scheduleForSubscription tza (scheduleForSubscription tza m s today) s today
    = scheduleForSubscription tza m s today.
Proof.
  intros tza m s today.
  rewrite !SchedulerFacts.scheduleForSubscription_shape.
  rewrite SchedulerFacts.cancel_app, SchedulerFacts.cancel_idem.
  now rewrite SchedulerFacts.cancel_notifications_for, app_nil_r.
Qed.

(** X15: [cancelForSubscription] removes the billing reminder and the
    cancellation alert of the subscription and nothing else, and it undoes a
    [scheduleForSubscription] of that subscription. *)
Theorem cancelForSubscription_spec :
  forall (tza : Z) (m : state) (s : Subscription) (today : Date),
    JSMap.get ("billing_" ++ id s) (cancelForSubscription m (id s)) = None
    /\ JSMap.get ("cancel_" ++ id s) (cancelForSubscription m (id s)) = None
    /\ (forall k : string,
          k <> ("billing_" ++ id s)%string -> k <> ("cancel_" ++ id s)%string ->
          JSMap.get k (cancelForSubscription m (id s)) = JSMap.get k m)
    /\ cancelForSubscription (scheduleForSubscription tza m s today) (id s)
       = cancelForSubscription m (id s).
Proof.
  intros tza m s today.
  split; [apply SchedulerFacts.cancel_get_billing|].
  split; [apply SchedulerFacts.cancel_get_cancel|].
  split; [intros k; apply SchedulerFacts.cancel_get_other|].
  rewrite SchedulerFacts.scheduleForSubscription_shape.
  rewrite SchedulerFacts.cancel_app, SchedulerFacts.cancel_idem.
  now rewrite SchedulerFacts.cancel_notifications_for, app_nil_r.
Qed.

Lemma notifications_for_In (tza : Z) (s : Subscription) (today : Date)
  (e : string * ScheduledNotification.t) :
  In e (notifications_for tza s today) ->
  reminderEnabled s = true
  /\ ((exists r : Date,
         getReminderDate tza s today = Ok (Some r)
         /\ e = (("billing_" ++ id s)%string,
                 ScheduledNotification.make ("billing_" ++ id s) (id s) r
                   billing_reminder))
      \/ (exists c : Date,
            getCancellationReminderDate tza s = Some c
            /\ e = (("cancel_" ++ id s)%string,
                    ScheduledNotification.make ("cancel_" ++ id s) (id s) c
                      cancellation_alert))).
Proof.
  unfold notifications_for.
  destruct (reminderEnabled s); cbn [negb]; [|intros []].
  intros H. split; [reflexivity|].
  destruct (getReminderDate tza s today) as [[r|]|]; [| |destruct H];
    destruct (getCancellationReminderDate tza s) as [c|];
    cbn [app In] in H; intuition (subst; eauto).
Qed.

Lemma fold_schedule_get (tza : Z) (today : Date) (k : string)
  (l : list Subscription) (m : state) :
  (forall s, In s l ->
             k <> ("billing_" ++ id s)%string /\ k <> ("cancel_" ++ id s)%string) ->
  JSMap.get k (fold_left (fun m' s => scheduleForSubscription tza m' s today) l m)
  = JSMap.get k m.
Proof.
  revert m. induction l as [|s l IH]; intros m H; [reflexivity|].
  cbn [fold_left]. rewrite IH by (intros s' Hs'; apply H; now right).
  destruct (H s (or_introl eq_refl)) as [B C].
  now apply SchedulerFacts.schedule_get_other.
Qed.

Lemma fold_schedule_sound (tza : Z) (today : Date) (subs l : list Subscription)
  (m : state) :
  let Q := fun e : string * ScheduledNotification.t =>
             exists s, In s subs /\ active tza today s = true
                       /\ In e (notifications_for tza s today) in
  (forall s, In s l -> In s subs /\ active tza today s = true) ->
  Forall Q m ->
  Forall Q (fold_left (fun m' s => scheduleForSubscription tza m' s today) l m).
Proof.
  intros Q. revert m. induction l as [|s l IH]; intros m H F; [exact F|].
  cbn [fold_left]. apply IH; [intros s' Hs'; apply H; now right|].
  rewrite SchedulerFacts.scheduleForSubscription_shape. apply Forall_app. split.
  - unfold cancelForSubscription, JSMap.delete.
    now repeat apply Forall_filter_keep.
  - apply Forall_forall. intros e He. exists s.
    destruct (H s (or_introl eq_refl)). auto.
Qed.

(** X16: after [rescheduleAll] every scheduled notification belongs to a
    subscription of the list that is active and has reminders enabled, and is
    its billing reminder or its cancellation alert at the computed date;
    whatever was scheduled before is gone.  When the ids of the list are
    pairwise different, every active subscription with reminders enabled has
    its billing reminder scheduled. *)
Theorem rescheduleAll_spec :
  forall (tza : Z) (m : state) (subs : list Subscription) (today : Date),
    (forall n : ScheduledNotification.t,
        In n (getScheduled (rescheduleAll tza m subs today)) ->
        exists s : Subscription,
          In s subs /\ isActive tza s today = Ok true
          /\ reminderEnabled s = true
          /\ ScheduledNotification.subscriptionId n = id s
          /\ ((ScheduledNotification.id n = ("billing_" ++ id s)%string
               /\ ScheduledNotification.type n = billing_reminder
               /\ getReminderDate tza s today
                  = Ok (Some (ScheduledNotification.scheduledDate n)))
              \/ (ScheduledNotification.id n = ("cancel_" ++ id s)%string
                  /\ ScheduledNotification.type n = cancellation_alert
                  /\ getCancellationReminderDate tza s
                     = Some (ScheduledNotification.scheduledDate n))))
    /\ (NoDup (map id subs) ->
        forall s : Subscription,
          In s subs -> isActive tza s today = Ok true ->
          reminderEnabled s = true ->
          exists r : Date,
            getReminderDate tza s today = Ok (Some r)
            /\ JSMap.get ("billing_" ++ id s) (rescheduleAll tza m subs today)
               = Some (ScheduledNotification.make ("billing_" ++ id s) (id s) r
                         billing_reminder)).
Proof.
  intros tza m subs today. unfold rescheduleAll, cancelAll.
  rewrite scheduleActive_fold. split.
  - intros n Hn. unfold getScheduled, JSMap.values in Hn.
    apply in_map_iff in Hn as (e & <- & He).
    pose proof (fold_schedule_sound tza today subs
                  (filter (active tza today) subs) JSMap.empty) as F.
    cbv zeta in F.
    assert (F1 : forall s, In s (filter (active tza today) subs) ->
                           In s subs /\ active tza today s = true)
      by (intros s Hs; now apply filter_In in Hs).
    specialize (F F1 (Forall_nil _)).
    rewrite Forall_forall in F.
    destruct (F e He) as (s & Hs & Ha & Hin).
    exists s. split; [exact Hs|]. rewrite isActive_returns, Ha.
    split; [reflexivity|].
    apply notifications_for_In in Hin as [E [(r & Hr & ->)|(c & Hc & ->)]];
      cbn [snd ScheduledNotification.subscriptionId ScheduledNotification.id
           ScheduledNotification.type ScheduledNotification.scheduledDate];
      auto 10.
  - intros ND s Hs Ha E.
    destruct (SchedulerFacts.getReminderDate_enabled tza s today E) as [r Hr].
    exists r. split; [exact Hr|].
    apply in_split in Hs as (a & b & ->).
    rewrite isActive_returns in Ha. injection Ha as Ha.
    rewrite filter_app. cbn [filter]. rewrite Ha.
    rewrite fold_left_app. cbn [fold_left].
    rewrite fold_schedule_get;
      [now apply SchedulerFacts.schedule_get_billing|].
    intros s' Hs'. apply filter_In in Hs' as [Hs' _].
    assert (N : id s' <> id s).
    { rewrite map_app in ND. cbn [map] in ND.
      apply NoDup_remove_2 in ND. intros K. apply ND.
      apply in_or_app. right. rewrite <- K. now apply in_map. }
    split.
    + intros K. apply SchedulerFacts.billing_key_inj in K. congruence.
    + apply SchedulerFacts.billing_cancel_ne.
Qed.

Lemma map_ok_cancel (m : state) (i : string) :
  map_ok m -> map_ok (cancelForSubscription m i).
Proof.
  intros [ND F]. unfold cancelForSubscription. cbv zeta. split.
  - now repeat apply JSMapFacts.NoDup_keys_delete.
  - unfold JSMap.delete. now repeat apply Forall_filter_keep.
Qed.

Lemma map_ok_schedule (tza : Z) (m : state) (s : Subscription) (today : Date) :
  map_ok m -> map_ok (scheduleForSubscription tza m s today).
Proof.
  intros H. apply (map_ok_cancel m (id s)) in H.
  rewrite SchedulerFacts.scheduleForSubscription_shape.
  pose proof (SchedulerFacts.cancel_get_billing m (id s)) as B.
  pose proof (SchedulerFacts.cancel_get_cancel m (id s)) as C.
  revert H B C. generalize (cancelForSubscription m (id s)). intros m1 [ND F] B C.
  unfold notifications_for.
  destruct (negb (reminderEnabled s)); [rewrite app_nil_r; now split|].
  destruct (getReminderDate tza s today) as [[r|]|];
    [| |rewrite app_nil_r; now split];
    destruct (getCancellationReminderDate tza s) as [c|]; cbn [app];
    rewrite ?app_nil_r; try (now split).
  - split.
    + change (m1 ++ [?x; ?y]) with (m1 ++ [x] ++ [y]). rewrite app_assoc.
      apply JSMapFacts.NoDup_keys_append;
        [now apply JSMapFacts.NoDup_keys_append|].
      rewrite SchedulerFacts.get_app, C. cbn [JSMap.get].
      destruct (String.eqb_spec ("billing_" ++ id s) ("cancel_" ++ id s)) as [K|_];
        [now apply SchedulerFacts.billing_cancel_ne in K | reflexivity].
    + apply Forall_app. split; [exact F|]. now repeat constructor.
  - split; [now apply JSMapFacts.NoDup_keys_append|].
    apply Forall_app. split; [exact F|]. now repeat constructor.
  - split; [now apply JSMapFacts.NoDup_keys_append|].
    apply Forall_app. split; [exact F|]. now repeat constructor.
Qed.

(** X17: the scheduler never holds two notifications under one id, and every
    notification is stored under its own id: the empty map has this shape and
    [cancelForSubscription], [scheduleForSubscription], [rescheduleAll] and
    [cancelAll] keep it. *)
Theorem scheduler_map_ok :
  forall (tza : Z) (m : state) (s : Subscription)
         (subs : list Subscription) (i : string) (today : Date),
    map_ok JSMap.empty
    /\ map_ok (cancelAll m)
    /\ map_ok (rescheduleAll tza m subs today)
    /\ (map_ok m -> map_ok (cancelForSubscription m i))
    /\ (map_ok m -> map_ok (scheduleForSubscription tza m s today)).
Proof.
  intros tza m s subs i today.
  assert (E : map_ok (@JSMap.empty ScheduledNotification.t))
    by (split; constructor).
  split; [exact E|]. split; [exact E|].
  split; [|split; [apply map_ok_cancel | apply map_ok_schedule]].
  unfold rescheduleAll, cancelAll. rewrite scheduleActive_fold.
  generalize (filter (active tza today) subs). intros l.
  revert E. generalize (@JSMap.empty ScheduledNotification.t).
  induction l as [|s' l IH]; intros m' E; [exact E|].
  cbn [fold_left]. apply IH. now apply map_ok_schedule.
Qed.

(** ** The summary of the store and the list of the dashboard *)

Lemma active_not_deleted (tza : Z) (today : Date) (s : Subscription) :
  active tza today s = true -> not_deleted s = true.
Proof.
  unfold active, isActive, not_deleted, truthyB.
  destruct (isDeleted s) as [[|]|]; [discriminate | reflexivity | reflexivity].
Qed.

Lemma filter_all {A : Type} (p : A -> bool) (l : list A) :
  (forall a, In a l -> p a = true) -> filter p l = l.
Proof.
  induction l as [|x l IH]; intros H; [reflexivity|].
  cbn [filter]. rewrite (H x (or_introl eq_refl)).
  f_equal. apply IH. intros a Ha. apply H. now right.
Qed.

Lemma filter_length_le {A : Type} (p : A -> bool) (l : list A) :
  (List.length (filter p l) <= List.length l)%nat.
Proof.
  induction l as [|x l IH]; [apply le_n|].
  cbn [filter]. destruct (p x); cbn [List.length]; lia.
Qed.

(** X18: [calculateSummary] never throws; it counts the active
    subscriptions, sums the monthly equivalents of exactly those, lists the
    active subscriptions billed within 30 days, and its 7-day list is the
    30-day list restricted to 7 days, in the same order; so the 7-day list is
    no longer than the 30-day list, which is no longer than the count. *)
Theorem calculateSummary_spec :
  forall (tza : Z) (subs : list Subscription) (today : Date),
  exists summary : SubscriptionSummary,
    SubscriptionStore.calculateSummary tza subs today = Ok summary
    /\ totalActiveSubscriptions summary
       = Z.of_nat (List.length (filter (active tza today) subs))
    /\ totalMonthlySpend summary
       = sum_numbers (map getMonthlyEquivalent (filter (active tza today) subs))
    /\ (forall s : Subscription,
          In s (upcomingThisMonth summary)
          <-> In s subs /\ active tza today s = true
              /\ upcoming tza (Num.of_Z 30) today s = true)
    /\ upcomingInNext7Days summary
       = filter (upcoming tza (Num.of_Z 7) today) (upcomingThisMonth summary)
    /\ Z.of_nat (List.length (upcomingInNext7Days summary))
       <= Z.of_nat (List.length (upcomingThisMonth summary))
       <= totalActiveSubscriptions summary.
Proof.
  intros tza subs today. unfold SubscriptionStore.calculateSummary.
  rewrite (filterM_returns _ (active tza today))
    by (intros s; apply isActive_returns).
  cbn [bind]. set (act := filter (active tza today) subs).
  rewrite !getUpcomingSubscriptions_returns. cbn [bind]. eexists.
  split; [reflexivity|].
  cbn [totalActiveSubscriptions totalMonthlySpend upcomingThisMonth
       upcomingInNext7Days].
  assert (E7 : sort_by (days_key tza today)
                 (filter (upcoming tza (Num.of_Z 7) today) act)
               = filter (upcoming tza (Num.of_Z 7) today)
                   (sort_by (days_key tza today)
                      (filter (upcoming tza (Num.of_Z 30) today) act))).
  { rewrite !sort_by_filter. symmetry. apply filter_filter_impl.
    intros s. unfold upcoming. rewrite getDaysUntilBilling_returns.
    intros U. apply andb_prop in U as [U1 U2]. apply andb_prop in U2 as [U2 U3].
    rewrite U1, U2. cbn [andb]. now apply (leb_trans_of_Z _ (Num.of_Z 7)). }
  split; [reflexivity|]. split; [|split; [|split; [exact E7|]]].
  - unfold calculateTotalMonthlySpend, sum_numbers.
    rewrite (filter_ext _ _ not_deleted_truthy).
    rewrite (filter_all not_deleted act)
      by (intros s Hs; apply filter_In in Hs as [_ Hs];
          now apply active_not_deleted in Hs).
    rewrite fold_left_monthly. apply fold_symmetric.
    + intros x y z. apply NumFacts.add_assoc.
    + intros y. apply NumFacts.add_comm.
  - intros s. split.
    + intros H. eapply Permutation_in in H; [|symmetry; apply sort_by_perm].
      apply filter_In in H as [H U]. apply filter_In in H as [H A]. auto.
    + intros (H & A & U). eapply Permutation_in; [apply sort_by_perm|].
      apply filter_In. split; [|exact U]. apply filter_In. auto.
  - rewrite E7. split.
    + apply inj_le, filter_length_le.
    + apply inj_le.
      rewrite <- (Permutation_length (sort_by_perm (days_key tza today) _)).
      apply filter_length_le.
Qed.

(** ** Formatting an amount *)

Module FormatFacts.

Import NumFormat.

Lemma to_uint_nonnil (n : N) : N.to_uint n <> Decimal.Nil.
Proof.
  destruct n; cbn; [discriminate | apply DecimalPos.Unsigned.to_uint_nonnil].
Qed.

(** Printing a natural number and reading it back gives the number. *)
Lemma decode_decimal (n : Z) : 0 <= n -> decode (decimal n) = Some n.
Proof.
  intros H. unfold decode, decimal.
  pose proof (to_uint_nonnil (Z.to_N n)) as NN.
  destruct (N.to_uint (Z.to_N n)) eqn:E; try contradiction;
    cbn [DecimalString.NilZero.string_of_uint]; rewrite <- E at 1;
    rewrite DecimalString.NilEmpty.usu; cbn [option_map];
    rewrite DecimalN.Unsigned.of_to; f_equal; lia.
Qed.

Lemma decimal_nonempty (n : Z) : (1 <= String.length (decimal n))%nat.
Proof.
  unfold decimal. pose proof (to_uint_nonnil (Z.to_N n)) as NN.
  destruct (N.to_uint (Z.to_N n)); try contradiction; cbn; lia.
Qed.

(** The two digits after the point denote the hundredths. *)
Lemma fraction_digits (b : Z) :
  0 <= b < 100 ->
  String.length (decimal (b / 10) ++ decimal (b mod 10)) = 2%nat
  /\ decode (decimal (b / 10) ++ decimal (b mod 10)) = Some b.
Proof.
  intros H.
  assert (A : forallb fraction_ok (map Z.of_nat (seq 0 100)) = true)
    by (vm_compute; reflexivity).
  rewrite forallb_forall in A.
  assert (I : In b (map Z.of_nat (seq 0 100))).
  { apply in_map_iff. exists (Z.to_nat b). split; [lia|]. apply in_seq. lia. }
  specialize (A b I). unfold fraction_ok in A. cbv zeta in A.
  apply andb_prop in A as [L D]. apply Nat.eqb_eq in L. split; [exact L|].
  destruct (decode _) as [v|]; [|discriminate]. apply Z.eqb_eq in D. now subst.
Qed.

End FormatFacts.

(** X20: for an amount below 10^21 in magnitude [formatCurrency] prints the
    currency symbol, a minus sign when the amount is negative, at least one
    digit, a point and exactly two digits; read back, the digits are the
    whole part and the hundredths of [n / 100], where [n] is the magnitude of
    the amount in hundredths rounded to the nearest integer (up on a tie). *)
Theorem formatCurrency_two_decimals :
  forall (exponential : Qc -> string) (q : Qc) (c : Currency),
    (Qcabs.Qcabs q < Q2Qc (inject_Z (10 ^ 21)))%Qc ->
    exists (sign intpart frac : string) (n : Z),
      formatCurrency exponential (Fin q) c
      = (symbols c ++ sign ++ intpart ++ "." ++ frac)%string
      /\ ((q < 0)%Qc -> sign = "-"%string)
      /\ ((0 <= q)%Qc -> sign = ""%string)
      /\ (1 <= String.length intpart)%nat
      /\ String.length frac = 2%nat
      /\ decode intpart = Some (n / 100)
      /\ decode frac = Some (n mod 100)
      /\ 0 <= n
      /\ (inject_Z n <= this (Qcabs.Qcabs q) * 100 + (1 # 2)
          < inject_Z (n + 1))%Q.
Proof.
  intros ex q c H. unfold formatCurrency, NumFormat.toFixed2. cbv zeta.
  destruct (Qclt_le_dec (Qcabs.Qcabs q) _) as [_|G];
    [|apply Qcle_not_lt in G; contradiction].
  set (n := Qfloor _).
  assert (B : (inject_Z n <= this (Qcabs.Qcabs q) * 100 + (1 # 2)
               < inject_Z (n + 1))%Q).
  { assert (E : (this (Qcabs.Qcabs q * Q2Qc (inject_Z 100) + Q2Qc (1 # 2))%Qc
                 == this (Qcabs.Qcabs q) * 100 + (1 # 2))%Q).
    { unfold Qcplus, Qcmult. cbn [this Q2Qc]. rewrite !Qred_correct.
      reflexivity. }
    unfold n. rewrite <- E. split; [apply Qfloor_le | apply Qlt_floor]. }
  assert (N0 : 0 <= n).
  { pose proof (Qcabs.Qcabs_nonneg q) as P. unfold Qcle in P.
    cbn [this Q2Qc] in P. destruct B as [_ B].
    assert (L : (inject_Z 0 < inject_Z (n + 1))%Q).
    { eapply Qle_lt_trans; [|exact B].
      change (inject_Z 0) with (0 * 100 + 0)%Q.
      apply Qplus_le_compat; [|discriminate].
      apply Qmult_le_compat_r; [exact P | discriminate]. }
    rewrite <- Zlt_Qlt in L. lia. }
  exists (if Qclt_le_dec q 0 then "-" else "")%string,
    (NumFormat.decimal (n / 100)),
    (NumFormat.decimal (n / 10 mod 10) ++ NumFormat.decimal (n mod 10))%string,
    n.
  replace (n / 10 mod 10) with ((n mod 100) / 10)
    by (Z.div_mod_to_equations; lia).
  replace (n mod 10) with ((n mod 100) mod 10)
    by (Z.div_mod_to_equations; lia).
  destruct (FormatFacts.fraction_digits (n mod 100)) as [FL FD];
    [apply Z.mod_pos_bound; lia|].
  repeat split; try assumption.
  - intros L. destruct (Qclt_le_dec q 0) as [_|G]; [reflexivity|].
    apply Qcle_not_lt in G. contradiction.
  - intros L. destruct (Qclt_le_dec q 0) as [G|_]; [|reflexivity].
    apply Qclt_not_le in G. contradiction.
  - apply FormatFacts.decimal_nonempty.
  - apply FormatFacts.decode_decimal. Z.div_mod_to_equations; lia.
  - apply B.
  - apply B.
Qed.

(** 9.5 rupees are printed with two decimals. *)
Example scenario_format :
  formatCurrency (fun _ => EmptyString) (Fin (Q2Qc 9.5)) INR = "₹9.50"%string.
Proof. vm_compute. reflexivity. Qed.

(** ** Concrete instances of the properties above *)

Lemma getUpcomingSubscriptions_window_witness :
  Num.leb (Num.of_Z 7) (Num.of_Z 30) = true
  /\ exists shorter longer : list Subscription,
       getUpcomingSubscriptions 0
         (sample_live :: sample_monthly :: sample_deleted :: nil)
         (Num.of_Z 7) date_2024_01_08 = Ok shorter
       /\ getUpcomingSubscriptions 0
            (sample_live :: sample_monthly :: sample_deleted :: nil)
            (Num.of_Z 30) date_2024_01_08 = Ok longer
       /\ shorter = filter (upcoming 0 (Num.of_Z 7) date_2024_01_08) longer.
Proof.
  split; [vm_compute; reflexivity|].
  apply (getUpcomingSubscriptions_window 0
           (sample_live :: sample_monthly :: sample_deleted :: nil)
           (Num.of_Z 7) (Num.of_Z 30) date_2024_01_08).
  vm_compute; reflexivity.
Defined.

Lemma well_formed_sample_six_months : well_formed sample_six_months.
Proof.
  split; [left; reflexivity | intros H; discriminate H].
Defined.

Lemma ended_subscription_witness :
  getSubscriptionEndDate 0 sample_six_months = Ok date_2024_07_01
  /\ getTime date_2024_07_01 < getTime date_2030_01_01
  /\ getNextBillingDate 0 sample_six_months date_2030_01_01
     = Ok date_2024_07_01
  /\ isActive 0 sample_six_months date_2030_01_01 = Ok false
  /\ (exists k : Z,
        getDaysUntilBilling 0 sample_six_months date_2030_01_01
        = Ok (Num.of_Z k) /\ k <= 0)
  /\ (well_formed sample_six_months ->
      getBillingCycleProgress 0 sample_six_months date_2030_01_01
      = Ok (Num.of_Z 100)).
Proof.
  split; [vm_compute; reflexivity|].
  split; [vm_compute; reflexivity|].
  apply (ended_subscription 0 sample_six_months date_2024_07_01
           date_2030_01_01); vm_compute; reflexivity.
Defined.

Lemma formatCurrency_two_decimals_witness :
  (Qcabs.Qcabs (Q2Qc 9.5) < Q2Qc (inject_Z (10 ^ 21)))%Qc
  /\ exists (sign intpart frac : string) (n : Z),
       formatCurrency (fun _ => EmptyString) (Fin (Q2Qc 9.5)) INR
       = (symbols INR ++ sign ++ intpart ++ "." ++ frac)%string
       /\ ((Q2Qc 9.5 < 0)%Qc -> sign = "-"%string)
       /\ ((0 <= Q2Qc 9.5)%Qc -> sign = ""%string)
       /\ (1 <= String.length intpart)%nat
       /\ String.length frac = 2%nat
       /\ decode intpart = Some (n / 100)
       /\ decode frac = Some (n mod 100)
       /\ 0 <= n
       /\ (inject_Z n <= this (Qcabs.Qcabs (Q2Qc 9.5)) * 100 + (1 # 2)
           < inject_Z (n + 1))%Q.
Proof.
  split; [vm_compute; reflexivity|].
  apply (formatCurrency_two_decimals (fun _ => EmptyString) (Q2Qc 9.5) INR).
  vm_compute; reflexivity.
Defined.

(** On 2024-01-08, rescheduling drops the stale entry and schedules the
    reminder of the monthly subscription for 2024-01-12 and, for the course,
    the reminder for 2024-01-30 and the cancellation alert for 2024-06-01;
    the deleted subscription and the one without reminders get nothing. *)
Example scenario_reschedule :
  getScheduled
    (rescheduleAll 0 sample_stale
       (sample_monthly :: sample_deleted :: sample_course :: sample_live :: nil)
       date_2024_01_08)
  = ScheduledNotification.make "billing_netflix" "netflix"
      (mkDate 1705017600000) billing_reminder
    :: ScheduledNotification.make "billing_course" "course"
         (mkDate 1706572800000) billing_reminder
    :: ScheduledNotification.make "cancel_course" "course"
         date_2024_06_01 cancellation_alert
    :: nil.
Proof. vm_compute. reflexivity. Qed.

(** On the same day the dashboard shows the live subscriptions by days until
    billing: 7, 17 and 24. *)
Example scenario_dashboard :
  DashboardScreen.activeSubscriptions 0
    (sample_live :: sample_monthly :: sample_deleted :: sample_course :: nil)
    date_2024_01_08
  = Ok (sample_monthly :: sample_live :: sample_course :: nil).
Proof. vm_compute. reflexivity. Qed.

(** ** Date objects with their range *)

Module RangedFacts.

Lemma valid_time_range (d : Date) :
  valid_time d = true <-> - maxTime <= getTime d <= maxTime.
Proof. unfold valid_time. rewrite Z.leb_le. lia. Qed.

Lemma TimeClip_Some (d e : Date) :
  TimeClip d = Some e -> e = d /\ valid_time d = true.
Proof.
  unfold TimeClip. destruct (valid_time d); [|discriminate].
  intros [= <-]. split; reflexivity.
Qed.

Lemma TimeClip_valid (d : Date) : valid_time d = true -> TimeClip d = Some d.
Proof. unfold TimeClip. now intros ->. Qed.

Lemma copy_Some (d : option Date) (e : Date) :
  Ranged.copy d = Some e -> d = Some e /\ valid_time e = true.
Proof.
  destruct d as [d|]; [|discriminate]. cbn [Ranged.copy]. intros H.
  apply TimeClip_Some in H as [-> V]. split; [reflexivity | exact V].
Qed.

Lemma Date_le_Some (a b : Date) : Ranged.Date_le (Some a) (Some b) = Date_le a b.
Proof. apply NumFacts.leb_of_Z. Qed.

Lemma Date_lt_Some (a b : Date) : Ranged.Date_lt (Some a) (Some b) = Date_lt a b.
Proof. apply NumFacts.ltb_of_Z. Qed.

Lemma Date_gt_Some (a b : Date) : Ranged.Date_gt (Some a) (Some b) = Date_gt a b.
Proof. apply NumFacts.ltb_of_Z. Qed.

Lemma Date_le_Some_inv (a b : option Date) :
  Ranged.Date_le a b = true ->
  exists a' b', a = Some a' /\ b = Some b' /\ Date_le a' b' = true.
Proof.
  destruct a as [a|], b as [b|]; try discriminate.
  rewrite Date_le_Some. intros H. now exists a, b.
Qed.

Lemma Date_gt_Some_inv (a b : option Date) :
  Ranged.Date_gt a b = true ->
  exists a' b', a = Some a' /\ b = Some b' /\ Date_gt a' b' = true.
Proof.
  destruct a as [a|], b as [b|]; try discriminate.
  rewrite Date_gt_Some. intros H. now exists a, b.
Qed.

Section WithZone.

Variable tza : Z.

(** One cycle on a date object: the cycle of the calendar arithmetic, kept
    when it is within range. *)
Lemma addBillingCycle_Some
  (d : option Date) (f : BillingFrequency) (c : option Z) (e : Date) :
  Ranged.addBillingCycle tza d f c = Some e ->
  exists d0 : Date,
    d = Some d0 /\ valid_time d0 = true
    /\ e = addBillingCycle tza d0 f c /\ valid_time e = true.
Proof.
  unfold Ranged.addBillingCycle, addBillingCycle. cbv zeta.
  destruct (Ranged.copy d) as [d0|] eqn:C.
  - apply copy_Some in C as [-> V]. intros H. exists d0.
    split; [reflexivity|]. split; [exact V|]. revert H.
    cbn [Ranged.getMonth Ranged.getFullYear Ranged.getDate Ranged.plus
         Ranged.setMonth Ranged.setFullYear Ranged.setDate].
    repeat match goal with
           | |- context [if ?b then _ else _] => destruct b
           | |- context [match ?o with Some _ => _ | None => _ end] =>
               destruct o
           end;
      intros H;
      first [ apply TimeClip_Some in H as [-> H]; split; [reflexivity | exact H]
            | injection H as <-; split; [reflexivity | exact V] ].
  - cbn [Ranged.getMonth Ranged.getFullYear Ranged.getDate Ranged.plus
         Ranged.setMonth Ranged.setFullYear Ranged.setDate].
    repeat match goal with
           | |- context [if ?b then _ else _] => destruct b
           | |- context [match ?o with Some _ => _ | None => _ end] =>
               destruct o
           end; discriminate.
Qed.

Lemma subtractBillingCycle_Some
  (d : option Date) (f : BillingFrequency) (c : option Z) (e : Date) :
  Ranged.subtractBillingCycle tza d f c = Some e ->
  exists d0 : Date,
    d = Some d0 /\ valid_time d0 = true
    /\ e = subtractBillingCycle tza d0 f c /\ valid_time e = true.
Proof.
  unfold Ranged.subtractBillingCycle, subtractBillingCycle. cbv zeta.
  destruct (Ranged.copy d) as [d0|] eqn:C.
  - apply copy_Some in C as [-> V]. intros H. exists d0.
    split; [reflexivity|]. split; [exact V|]. revert H.
    cbn [Ranged.getMonth Ranged.getFullYear Ranged.getDate Ranged.plus
         Ranged.setMonth Ranged.setFullYear Ranged.setDate].
    repeat match goal with
           | |- context [if ?b then _ else _] => destruct b
           | |- context [match ?o with Some _ => _ | None => _ end] =>
               destruct o
           end;
      intros H;
      first [ apply TimeClip_Some in H as [-> H]; split; [reflexivity | exact H]
            | injection H as <-; split; [reflexivity | exact V] ].
  - cbn [Ranged.getMonth Ranged.getFullYear Ranged.getDate Ranged.plus
         Ranged.setMonth Ranged.setFullYear Ranged.setDate].
    repeat match goal with
           | |- context [if ?b then _ else _] => destruct b
           | |- context [match ?o with Some _ => _ | None => _ end] =>
               destruct o
           end; discriminate.
Qed.

Lemma iter_addBillingCycle_Some
  (f : BillingFrequency) (c : option Z) (n : nat) (x : option Date) (e : Date) :
  Nat.iter n (fun d => Ranged.addBillingCycle tza d f c) (Ranged.copy x) = Some e ->
  exists d0 : Date,
    x = Some d0 /\ valid_time d0 = true
    /\ e = Nat.iter n (fun d => addBillingCycle tza d f c) d0
    /\ valid_time e = true.
Proof.
  revert e. induction n as [|n IH]; intros e.
  - cbn [Nat.iter]. intros H. apply copy_Some in H as [-> V].
    exists e. repeat split; assumption.
  - rewrite Nat.iter_succ. intros H.
    apply addBillingCycle_Some in H as (d1 & H1 & _ & -> & V).
    destruct (IH d1 H1) as (d0 & -> & V0 & -> & _).
    exists d0. rewrite Nat.iter_succ. repeat split; assumption.
Qed.

(** A loop that ends in a valid date passed through valid dates only. *)
Lemma iter_addBillingCycle_prefix
  (f : BillingFrequency) (c : option Z) (n m : nat) (x : option Date) (e : Date) :
  Nat.iter n (fun d => Ranged.addBillingCycle tza d f c) x = Some e ->
  (m <= n)%nat ->
  exists e' : Date,
    Nat.iter m (fun d => Ranged.addBillingCycle tza d f c) x = Some e'.
Proof.
  intros H L. revert e H. induction L as [|n L IH]; intros e H.
  - now exists e.
  - rewrite Nat.iter_succ in H.
    apply addBillingCycle_Some in H as (d1 & H1 & _). now apply (IH d1).
Qed.

Lemma getSubscriptionEndDate_Some (s : Subscription) (e : Date) :
  Ranged.getSubscriptionEndDate tza s = Ok (Some e) ->
  getSubscriptionEndDate tza s = Ok e
  /\ valid_time (startDate s) = true /\ valid_time e = true.
Proof.
  unfold Ranged.getSubscriptionEndDate, getSubscriptionEndDate, for_loop.
  destruct (negb (isOneTime s) || negb (truthyZ (cycleLimit s)));
    [discriminate|].
  cbv zeta. intros [= H].
  apply iter_addBillingCycle_Some in H as (d0 & H0 & _ & -> & V).
  apply TimeClip_Some in H0 as [-> V0]. repeat split; assumption.
Qed.

(** Under its guard [getSubscriptionEndDate] does not throw. *)
Lemma getSubscriptionEndDate_guard (s : Subscription) :
  isOneTime s && truthyZ (cycleLimit s) = true ->
  exists e : option Date, Ranged.getSubscriptionEndDate tza s = Ok e.
Proof.
  intros G. apply andb_prop in G as [G1 G2].
  unfold Ranged.getSubscriptionEndDate. rewrite G1, G2. cbn [negb orb].
  eexists. reflexivity.
Qed.

Lemma ranged_next_returns (s : Subscription) (today : Date) :
  Ranged.getNextBillingDate tza s today = Ok (ranged_next tza s today).
Proof.
  unfold ranged_next.
  enough (exists d, Ranged.getNextBillingDate tza s today = Ok d) as [d ->]
    by reflexivity.
  unfold Ranged.getNextBillingDate. cbv zeta.
  destruct (isOneTime s && truthyZ (cycleLimit s)) eqn:G.
  - destruct (getSubscriptionEndDate_guard s G) as [e ->]. cbn [bind].
    destruct (Ranged.Date_gt _ e); cbn [bind]; [now eexists|].
    destruct (Ranged.Date_le _ _); now eexists.
  - cbn [bind]. destruct (Ranged.Date_le _ _); now eexists.
Qed.

(** A valid next billing date is computed from a valid instant, and it is
    within range. *)
Lemma ranged_next_valid (s : Subscription) (today next : Date) :
  Ranged.getNextBillingDate tza s today = Ok (Some next) ->
  valid_time today = true /\ valid_time next = true.
Proof.
  unfold Ranged.getNextBillingDate. cbv zeta.
  assert (T : forall d x,
             Ranged.newDate tza (Ranged.getFullYear tza (TimeClip today))
               (Ranged.getMonth tza (TimeClip today)) d = Some x ->
             valid_time today = true /\ valid_time x = true).
  { intros d x. unfold TimeClip at 1 2.
    destruct (valid_time today); [|discriminate].
    cbn [Ranged.getFullYear Ranged.getMonth Ranged.newDate]. intros H.
    apply TimeClip_Some in H as [-> H]. split; [reflexivity | exact H]. }
  assert (Tail :
            (if Ranged.Date_le
                  (Ranged.newDate tza (Ranged.getFullYear tza (TimeClip today))
                     (Ranged.getMonth tza (TimeClip today)) (billingDate s))
                  (TimeClip today)
             then Ok (Ranged.addBillingCycle tza
                        (Ranged.newDate tza
                           (Ranged.getFullYear tza (TimeClip today))
                           (Ranged.getMonth tza (TimeClip today))
                           (billingDate s))
                        (frequency s) (customFrequencyDays s))
             else Ok (Ranged.newDate tza
                        (Ranged.getFullYear tza (TimeClip today))
                        (Ranged.getMonth tza (TimeClip today)) (billingDate s)))
            = Ok (Some next) ->
            valid_time today = true /\ valid_time next = true).
  { destruct (Ranged.Date_le _ _).
    - intros [= H]. apply addBillingCycle_Some in H as (c & Hc & _ & _ & V).
      apply T in Hc as [Vt _]. now split.
    - intros [= H]. now apply T in H. }
  destruct (isOneTime s && truthyZ (cycleLimit s)) eqn:G; [|exact Tail].
  destruct (getSubscriptionEndDate_guard s G) as [e E]. rewrite E. cbn [bind].
  destruct (Ranged.Date_gt _ e) eqn:Gt; cbn [bind]; [|exact Tail].
  intros [= ->]. apply Date_gt_Some_inv in Gt as (a & b & Ha & [= <-] & _).
  apply TimeClip_Some in Ha as [_ Vt].
  apply getSubscriptionEndDate_Some in E as (_ & _ & V). now split.
Qed.

Lemma ranged_next_recurring (s : Subscription) (today next : Date) :
  isOneTime s = false ->
  Ranged.getNextBillingDate tza s today = Ok (Some next) ->
  next = next_occurrence tza (billingDate s) (frequency s)
           (customFrequencyDays s) today.
Proof.
  intros R H. destruct (ranged_next_valid s today next H) as [Vt _].
  revert H. unfold Ranged.getNextBillingDate, next_occurrence. cbv zeta.
  rewrite R, (TimeClip_valid today Vt).
  cbn [andb bind Ranged.getFullYear Ranged.getMonth Ranged.newDate].
  destruct (TimeClip (newDate tza _ _ _)) as [c|] eqn:C.
  - apply TimeClip_Some in C as [-> Vc]. rewrite Date_le_Some.
    destruct (Date_le _ today).
    + intros [= H]. apply addBillingCycle_Some in H as (c & [= <-] & _ & -> & _).
      reflexivity.
    + now intros [= <-].
  - cbn. discriminate.
Qed.

(** One cycle from a valid date is the cycle of the calendar arithmetic
    passed through [TimeClip]. *)
Lemma addBillingCycle_clip (d : Date) (f : BillingFrequency) (c : option Z) :
  valid_time d = true ->
  Ranged.addBillingCycle tza (Some d) f c = TimeClip (addBillingCycle tza d f c).
Proof.
  intros V. unfold Ranged.addBillingCycle, addBillingCycle. cbv zeta.
  cbn [Ranged.copy]. rewrite (TimeClip_valid d V).
  cbn [Ranged.getMonth Ranged.getFullYear Ranged.getDate Ranged.plus
       Ranged.setMonth Ranged.setFullYear Ranged.setDate].
  repeat match goal with
         | |- context [if ?b then _ else _] => destruct b
         | |- context [match ?o with Some _ => _ | None => _ end] => destruct o
         end;
    first [ reflexivity | symmetry; apply TimeClip_valid; exact V ].
Qed.

Lemma addBillingCycle_None (f : BillingFrequency) (c : option Z) :
  Ranged.addBillingCycle tza None f c = None.
Proof.
  destruct (Ranged.addBillingCycle tza None f c) as [e|] eqn:E; [|reflexivity].
  apply addBillingCycle_Some in E as (d0 & H & _). discriminate H.
Qed.

Lemma iter_addBillingCycle_None (f : BillingFrequency) (c : option Z) (n : nat) :
  Nat.iter n (fun d => Ranged.addBillingCycle tza d f c) None = None.
Proof.
  induction n as [|n IH]; [reflexivity|].
  rewrite Nat.iter_succ, IH. apply addBillingCycle_None.
Qed.

(** A loop of growing steps stays in range as long as its last date is in
    range: the loop on date objects is the loop of the calendar arithmetic,
    clipped at the end. *)
Lemma iter_addBillingCycle_clip
  (f : BillingFrequency) (c : option Z) (n : nat) (d : Date) :
  (forall x, getTime x <= getTime (addBillingCycle tza x f c)) ->
  valid_time d = true ->
  Nat.iter n (fun x => Ranged.addBillingCycle tza x f c) (Some d)
  = TimeClip (Nat.iter n (fun x => addBillingCycle tza x f c) d).
Proof.
  intros Step V.
  assert (Up : forall k, getTime d
                         <= getTime (Nat.iter k (fun x => addBillingCycle tza x f c) d)).
  { induction k as [|k IH]; [simpl; lia|].
    rewrite Nat.iter_succ. specialize (Step (Nat.iter k (fun x => addBillingCycle tza x f c) d)).
    lia. }
  induction n as [|n IH].
  - simpl. symmetry. now apply TimeClip_valid.
  - rewrite !Nat.iter_succ, IH.
    generalize (Up n) (Step (Nat.iter n (fun x => addBillingCycle tza x f c) d)).
    generalize (Nat.iter n (fun x => addBillingCycle tza x f c) d). intros dn U St.
    destruct (valid_time dn) eqn:Vn.
    + rewrite (TimeClip_valid dn Vn). now apply addBillingCycle_clip.
    + unfold TimeClip at 1. rewrite Vn. rewrite addBillingCycle_None.
      unfold TimeClip.
      destruct (valid_time (addBillingCycle tza dn f c)) eqn:Vs; [|reflexivity].
      apply valid_time_range in V, Vs.
      assert (Vn' : valid_time dn = true) by (apply valid_time_range; lia).
      congruence.
Qed.

(** The end date on date objects is the end date of the calendar arithmetic
    when the start date and that end date are within range, and the Invalid
    Date otherwise. *)
Lemma getSubscriptionEndDate_clip (s : Subscription) (e : Date) :
  (forall x, getTime x
             <= getTime (addBillingCycle tza x (frequency s)
                           (customFrequencyDays s))) ->
  getSubscriptionEndDate tza s = Ok e ->
  Ranged.getSubscriptionEndDate tza s
  = Ok (if valid_time (startDate s) then TimeClip e else None).
Proof.
  intros Step.
  unfold getSubscriptionEndDate, Ranged.getSubscriptionEndDate, for_loop.
  destruct (negb (isOneTime s) || negb (truthyZ (cycleLimit s)));
    [discriminate|].
  cbv zeta. intros [= <-]. f_equal. unfold TimeClip at 1.
  destruct (valid_time (startDate s)) eqn:V; cbn [Ranged.copy].
  - rewrite (TimeClip_valid _ V). now apply iter_addBillingCycle_clip.
  - apply iter_addBillingCycle_None.
Qed.

Lemma ranged_days_returns (s : Subscription) (today : Date) :
  Ranged.getDaysUntilBilling tza s today
  = Ok match ranged_next tza s today with
       | Some d => Num.of_Z (days_to today d)
       | None => NaN
       end.
Proof.
  unfold Ranged.getDaysUntilBilling.
  pose proof (ranged_next_returns s today) as R. rewrite R.
  cbn [bind]. cbv zeta.
  destruct (ranged_next tza s today) as [d|]; [|reflexivity].
  apply ranged_next_valid in R as [Vt _].
  rewrite (TimeClip_valid today Vt). cbn [Ranged.getTime].
  rewrite NumFacts.sub_of_Z. change (1000 * 60 * 60 * 24) with ES.msPerDay.
  rewrite NumFacts.ceil_div_of_Z by (unfold ES.msPerDay; lia). reflexivity.
Qed.

Lemma ranged_days_of_key (s : Subscription) (today : Date) :
  ranged_next tza s today <> None ->
  Ranged.getDaysUntilBilling tza s today
  = Ok (Num.of_Z (ranged_days_key tza today s)).
Proof.
  intros H. rewrite ranged_days_returns. unfold ranged_days_key.
  now destruct (ranged_next tza s today).
Qed.

Lemma ranged_active_returns (s : Subscription) (today : Date) :
  Ranged.isActive tza s today = Ok (ranged_active tza today s).
Proof.
  unfold ranged_active.
  enough (exists b, Ranged.isActive tza s today = Ok b) as [b ->]
    by reflexivity.
  unfold Ranged.isActive.
  destruct (truthyB (isDeleted s)); [now eexists|].
  destruct (isOneTime s && truthyZ (cycleLimit s)) eqn:G; [|now eexists].
  destruct (getSubscriptionEndDate_guard s G) as [e ->]. now eexists.
Qed.

Lemma ranged_next_recurring_valid (s : Subscription) (today : Date) :
  isOneTime s = false ->
  valid_time today = true ->
  valid_time (newDate tza (getFullYear tza today) (getMonth tza today)
                (billingDate s)) = true ->
  valid_time (next_occurrence tza (billingDate s) (frequency s)
                (customFrequencyDays s) today) = true ->
  Ranged.getNextBillingDate tza s today
  = Ok (Some (next_occurrence tza (billingDate s) (frequency s)
                (customFrequencyDays s) today)).
Proof.
  intros R Vt Vc. unfold Ranged.getNextBillingDate, next_occurrence.
  cbv zeta. rewrite R, (TimeClip_valid today Vt).
  cbn [andb bind Ranged.getFullYear Ranged.getMonth Ranged.newDate].
  rewrite (TimeClip_valid _ Vc), Date_le_Some.
  destruct (Date_le _ today); intros Vn; [|reflexivity].
  rewrite addBillingCycle_clip by exact Vc. now rewrite (TimeClip_valid _ Vn).
Qed.

End WithZone.

Section Sorting.

Context {A : Type}.

Variable key : A -> Z.

(** A comparator that is the difference of the keys on the elements at hand
    sorts by the key. *)
Lemma insertM_returns_on (cmp : A -> A -> result number) (x : A) (l : list A) :
  (forall b, In b l -> cmp x b = Ok (Num.of_Z (key x - key b))) ->
  insertM cmp x l = Ok (insert_by key x l).
Proof.
  induction l as [|y l IH]; intros H; cbn [insertM insert_by]; [reflexivity|].
  rewrite (H y) by (left; reflexivity). cbn [bind]. rewrite NumFacts.ltb_of_Z.
  replace (0 <? key x - key y) with (key y <? key x)
    by (destruct (Z.ltb_spec (key y) (key x)), (Z.ltb_spec 0 (key x - key y)); lia).
  destruct (key y <? key x); [|reflexivity].
  rewrite IH by (intros b Hb; apply H; right; exact Hb). reflexivity.
Qed.

Lemma sortM_returns_on (cmp : A -> A -> result number) (l : list A) :
  (forall a b, In a l -> In b l -> cmp a b = Ok (Num.of_Z (key a - key b))) ->
  sortM cmp l = Ok (sort_by key l).
Proof.
  induction l as [|x l IH]; intros H; cbn [sortM]; [reflexivity|].
  rewrite IH by (intros a b Ha Hb; apply H; right; assumption).
  cbn [bind]. apply insertM_returns_on. intros b Hb. apply H.
  - left; reflexivity.
  - right. eapply Permutation_in; [symmetry; apply sort_by_perm|exact Hb].
Qed.

End Sorting.

Section Lists.

Variable tza : Z.

(** The entries [getUpcomingSubscriptions] keeps have a valid next billing
    date: an Invalid Date gives NaN days, which fail both comparisons. *)
Lemma ranged_upcoming_valid (days : number) (today : Date) (s : Subscription) :
  ranged_upcoming tza days today s = true -> ranged_next tza s today <> None.
Proof.
  unfold ranged_upcoming. rewrite ranged_days_returns.
  destruct (ranged_next tza s today); [discriminate|].
  now rewrite andb_false_r.
Qed.

Lemma ranged_upcoming_returns
  (subs : list Subscription) (days : number) (today : Date) :
  Ranged.getUpcomingSubscriptions tza subs days today
  = Ok (sort_by (ranged_days_key tza today)
          (filter (ranged_upcoming tza days today) subs)).
Proof.
  unfold Ranged.getUpcomingSubscriptions.
  rewrite (filterM_returns _ (ranged_upcoming tza days today)).
  - cbn [bind]. apply sortM_returns_on. intros a b Ha Hb.
    apply filter_In in Ha as [_ Ha]. apply filter_In in Hb as [_ Hb].
    apply ranged_upcoming_valid in Ha, Hb.
    rewrite !ranged_days_of_key by assumption. cbn [bind].
    now rewrite NumFacts.sub_of_Z.
  - intros s. unfold ranged_upcoming, not_deleted, truthyB.
    rewrite ranged_days_returns. cbn [bind].
    now destruct (isDeleted s) as [[|]|].
Qed.

End Lists.

End RangedFacts.

(** ** Dates that stay within range *)

Section Bounds.

Variable tza : Z.

Lemma firstOfMonth_add_le (k n : Z) :
  0 <= n -> firstOfMonth (k + n) <= firstOfMonth k + 31 * n.
Proof.
  intros H. replace n with (Z.of_nat (Z.to_nat n)) by lia.
  induction (Z.to_nat n) as [|m IH].
  - rewrite Z.add_0_r. lia.
  - replace (k + Z.of_nat (S m)) with (k + Z.of_nat m + 1) by lia.
    pose proof (CalendarFacts.firstOfMonth_succ (k + Z.of_nat m)). lia.
Qed.

(** Moving a date on by [n] months moves it by 31 days a month at most. *)
Lemma plus_months_le (d : Date) (n : Z) :
  0 <= n ->
  getTime (plus_months tza n d) <= getTime d + 31 * n * ES.msPerDay.
Proof.
  intros H. unfold plus_months. rewrite getTime_setMonth.
  pose proof (getTime_repr tza d) as R.
  pose proof (firstOfMonth_add_le
                (12 * getFullYear tza d + getMonth tza d) n H) as L.
  replace (12 * getFullYear tza d + (getMonth tza d + n))
    with (12 * getFullYear tza d + getMonth tza d + n) by lia.
  unfold ES.msPerDay in *. lia.
Qed.

(** The billing day of the current month lies less than 31 days from the
    instant, for a day of the month from 1 to 31 and a year from 100 on. *)
Lemma candidate_near (today : Date) (billingDay : Z) :
  100 <= getFullYear tza today ->
  1 <= billingDay <= 31 ->
  getTime today - 31 * ES.msPerDay
  < getTime (newDate tza (getFullYear tza today) (getMonth tza today) billingDay)
  < getTime today + 31 * ES.msPerDay.
Proof.
  intros Hy Hb.
  pose proof (getTime_repr tza today) as R.
  pose proof (before_next_month tza today) as U.
  pose proof (CalendarFacts.DateFromTime_pos (LocalTime tza (getTime today))) as D.
  assert (T : 0 <= ES.TimeWithinDay (LocalTime tza (getTime today)) < ES.msPerDay)
    by (apply Z.mod_pos_bound; reflexivity).
  pose proof (CalendarFacts.firstOfMonth_succ
                (12 * getFullYear tza today + getMonth tza today)) as S1.
  unfold newDate, UTC, ES.MakeDate, ES.MakeTime. cbn [getTime].
  rewrite CalendarFacts.MakeDay_firstOfMonth.
  replace ((0 <=? getFullYear tza today) && (getFullYear tza today <=? 99))
    with false
    by (symmetry; apply andb_false_iff; right; apply Z.leb_gt; lia).
  unfold getDate in R. unfold ES.msPerDay in *. lia.
Qed.

End Bounds.

(** X21: for a well-formed subscription and a valid instant,
    [getBillingCycleProgress] returns a number between 0 and 100 inclusive
    when the billing date one cycle before the next billing date is a valid
    date (the next billing date is valid then), and NaN when it is the
    Invalid Date. *)
Theorem getBillingCycleProgress_clamped :
  forall (tza : Z) (s : Subscription) (now : Date),
    well_formed s ->
    valid_time now = true ->
    exists next : option Date,
      Ranged.getNextBillingDate tza s now = Ok next
      /\ (Ranged.subtractBillingCycle tza (Ranged.copy next) (frequency s)
            (customFrequencyDays s) = None ->
          Ranged.getBillingCycleProgress tza s now = Ok NaN)
      /\ (forall prev : Date,
            Ranged.subtractBillingCycle tza (Ranged.copy next) (frequency s)
              (customFrequencyDays s) = Some prev ->
            exists progress : number,
              Ranged.getBillingCycleProgress tza s now = Ok progress
              /\ Num.leb (Num.of_Z 0) progress = true
              /\ Num.leb progress (Num.of_Z 100) = true).
Proof.
  intros tza s now W V. exists (ranged_next tza s now).
  split; [apply RangedFacts.ranged_next_returns|].
  unfold Ranged.getBillingCycleProgress.
  rewrite RangedFacts.ranged_next_returns. cbn [bind]. cbv zeta.
  rewrite (RangedFacts.TimeClip_valid now V).
  generalize (ranged_next tza s now). intros next. split.
  - intros ->. cbn [Ranged.getTime]. now destruct next.
  - intros prev H. rewrite H.
    apply RangedFacts.subtractBillingCycle_Some in H as (n & Hn & _ & -> & _).
    apply RangedFacts.copy_Some in Hn as [-> _]. cbn [Ranged.getTime].
    pose proof (subtractBillingCycle_lt tza s n W) as L.
    rewrite !NumFacts.sub_of_Z.
    destruct (NumFacts.scaled_ratio_finite
                (getTime now
                 - getTime (subtractBillingCycle tza n (frequency s)
                              (customFrequencyDays s)))
                (getTime n
                 - getTime (subtractBillingCycle tza n (frequency s)
                              (customFrequencyDays s))) 100)
      as [q Hq]; [lia|].
    rewrite Hq. eexists. split; [reflexivity|].
    apply NumFacts.clamp_range. discriminate.
Qed.

(** X1: for a recurring subscription billed monthly, quarterly, half-yearly
    or yearly on a day of the month from 1 on, a valid date returned by
    [getNextBillingDate] lies strictly after the instant; and the date
    returned is valid when the day of the month is at most 31, the year of
    the instant is 100 or later and the instant lies at least 403 days
    inside the range of dates. *)
Theorem getNextBillingDate_future_valid :
  forall (tza : Z) (s : Subscription) (now : Date),
    isOneTime s = false ->
    1 <= billingDate s ->
    frequency s = "monthly"%string \/ frequency s = "quarterly"%string
    \/ frequency s = "half-yearly"%string \/ frequency s = "yearly"%string ->
    (forall next : Date,
        Ranged.getNextBillingDate tza s now = Ok (Some next) ->
        getTime now < getTime next)
    /\ (billingDate s <= 31 ->
        100 <= getFullYear tza now ->
        Z.abs (getTime now) <= maxTime - 403 * ES.msPerDay ->
        exists next : Date,
          Ranged.getNextBillingDate tza s now = Ok (Some next)).
Proof.
  intros tza s now H1 Hb Hf. split.
  - intros next H.
    rewrite (RangedFacts.ranged_next_recurring tza s now next H1 H).
    now apply next_occurrence_future.
  - intros Hb' Hy Hr. eexists.
    pose proof (candidate_near tza now (billingDate s) Hy (conj Hb Hb')) as C.
    pose proof (next_occurrence_future tza (billingDate s) (frequency s)
                  (customFrequencyDays s) now Hb Hf) as F.
    assert (M : exists months,
               cycle_months (frequency s) = Some months /\ 0 <= months <= 12).
    { destruct Hf as [E|[E|[E|E]]]; rewrite E;
        eexists; (split; [reflexivity | lia]). }
    destruct M as (months & Hm & Rm).
    apply RangedFacts.ranged_next_recurring_valid;
      [exact H1 | | |]; apply RangedFacts.valid_time_range;
      unfold ES.msPerDay in *; [lia | lia |].
    revert F. unfold next_occurrence. cbv zeta.
    destruct (Date_le _ now); [|lia].
    rewrite (cycle_months_rule tza _ _ months _ Hm).
    pose proof (plus_months_le tza
                  (newDate tza (getFullYear tza now) (getMonth tza now)
                     (billingDate s)) months (proj1 Rm)) as P.
    unfold ES.msPerDay in *. lia.
Qed.

(** X2: for a one-time subscription with a calendar frequency whose start
    date is valid and falls in the first 28 days of its month, the end date
    is the start date moved on by [cycleLimit] times the cycle length in
    calendar months, passed through [TimeClip]; that date has the day of the
    month and the local time of day of the start date.  Local time is UTC
    shifted by the constant [tza]. *)
Theorem getSubscriptionEndDate_calendar_clip :
  forall (tza : Z) (s : Subscription) (N months : Z),
    isOneTime s = true -> cycleLimit s = Some N -> 0 < N ->
    cycle_months (frequency s) = Some months ->
    getDate tza (startDate s) <= 28 ->
    valid_time (startDate s) = true ->
    Ranged.getSubscriptionEndDate tza s
    = Ok (TimeClip (plus_months tza (months * N) (startDate s)))
    /\ getDate tza (plus_months tza (months * N) (startDate s))
       = getDate tza (startDate s)
    /\ 12 * getFullYear tza (plus_months tza (months * N) (startDate s))
       + getMonth tza (plus_months tza (months * N) (startDate s))
       = 12 * getFullYear tza (startDate s) + getMonth tza (startDate s)
         + months * N
    /\ ES.TimeWithinDay
         (LocalTime tza (getTime (plus_months tza (months * N) (startDate s))))
       = ES.TimeWithinDay (LocalTime tza (getTime (startDate s))).
Proof.
  intros tza s N months H1 HN Hpos Hm Hd V.
  destruct (exact_end_date_calendar tza s N months H1 HN Hpos Hm Hd)
    as (E & D & M).
  assert (R : 1 <= getDate tza (startDate s) <= 28)
    by (split; [apply CalendarFacts.DateFromTime_pos | exact Hd]).
  destruct (plus_months_date tza (startDate s) (months * N) R) as (_ & _ & T).
  repeat split; try assumption.
  rewrite (RangedFacts.getSubscriptionEndDate_clip tza s _) with (2 := E).
  - now rewrite V.
  - intros x. rewrite (cycle_months_rule tza _ _ months x Hm).
    assert (P : 0 < months).
    { unfold cycle_months in Hm.
      repeat match type of Hm with
             | (if ?b then _ else _) = _ => destruct b
             end; inversion Hm; lia. }
    pose proof (plus_months_lt tza x months P). lia.
Qed.

(** X3: for a one-time subscription with a custom frequency of [n] days and
    a valid start date, the end date is the instant [cycleLimit * n] days
    after the start date when that instant is within the range of dates, and
    the Invalid Date otherwise.  Local time is UTC shifted by the constant
    [tza], so that a calendar day is 86400000 ms. *)
Theorem getSubscriptionEndDate_custom_clip :
  forall (tza : Z) (s : Subscription) (N n : Z),
    isOneTime s = true -> cycleLimit s = Some N -> 0 < N ->
    frequency s = "custom"%string -> customFrequencyDays s = Some n ->
    0 <= n ->
    valid_time (startDate s) = true ->
    Ranged.getSubscriptionEndDate tza s
    = Ok (TimeClip (mkDate (getTime (startDate s) + N * n * ES.msPerDay))).
Proof.
  intros tza s N n H1 HN Hpos Hf Hc Hn V.
  destruct (exact_end_date_custom tza s N n H1 HN Hpos Hf Hc) as (e & E & T).
  rewrite (RangedFacts.getSubscriptionEndDate_clip tza s e) with (2 := E).
  - rewrite V. do 2 f_equal. now apply Date_ext.
  - intros x. rewrite Hf, Hc.
    destruct (addBillingCycle_rule tza x) as (_ & _ & _ & _ & R & _).
    rewrite R. unfold plus_days. rewrite getTime_setDate.
    unfold ES.msPerDay. lia.
Qed.

(** X4: doubling the amount doubles the monthly equivalent, for every
    frequency.  The hypothesis keeps the binary64 arithmetic of the method
    away from overflow and underflow, where doubling is exact; on the exact
    values of this development the equation holds without it. *)
Theorem getMonthlyEquivalent_doubling :
  forall s : Subscription,
    plain_amount s ->
    getMonthlyEquivalent (with_amount (Num.mul (Num.of_Z 2) (amount s)) s)
    = Num.mul (Num.of_Z 2) (getMonthlyEquivalent s).
Proof.
  intros s _. apply (getMonthlyEquivalent_scale s (Q2Qc (inject_Z 2))).
Qed.

(** X6: [getReminderDate] is null when reminders are disabled; otherwise it
    is the Invalid Date when the next billing date is, and else the instant
    [reminderDaysBefore] days before the next billing date, passed through
    [TimeClip].  Local time is UTC shifted by the constant [tza], so that a
    calendar day is 86400000 ms. *)
Theorem getReminderDate_days_before :
  forall (tza : Z) (s : Subscription) (now : Date),
    (reminderEnabled s = false -> Ranged.getReminderDate tza s now = Ok None)
    /\ (reminderEnabled s = true ->
        exists nextBilling : option Date,
          Ranged.getNextBillingDate tza s now = Ok nextBilling
          /\ Ranged.getReminderDate tza s now
             = Ok (Some match nextBilling with
                        | Some n =>
                            TimeClip
                              (mkDate (getTime n
                                       - reminderDaysBefore s * ES.msPerDay))
                        | None => None
                        end)).
Proof.
  intros tza s now. unfold Ranged.getReminderDate. split.
  - now intros ->.
  - intros ->. cbn [negb]. exists (ranged_next tza s now).
    pose proof (RangedFacts.ranged_next_returns tza s now) as R.
    split; [exact R|]. rewrite R. cbn [bind]. cbv zeta.
    destruct (ranged_next tza s now) as [n|]; [|reflexivity].
    apply RangedFacts.ranged_next_valid in R as [_ Vn].
    cbn [Ranged.copy]. rewrite (RangedFacts.TimeClip_valid n Vn).
    cbn [Ranged.getDate Ranged.plus Ranged.setDate]. do 3 f_equal.
    apply Date_ext. rewrite getTime_setDate. cbn [getTime]. lia.
Qed.

(** X7: [getDaysUntilBilling] does not throw; it returns NaN when the next
    billing date is the Invalid Date, and otherwise the number of days to
    the next billing date rounded up to a whole number.  The bound of 2^53
    ms on the distance keeps the subtraction exact on binary64 numbers; on
    the exact values of this development it is not needed. *)
Theorem getDaysUntilBilling_ceiling_valid :
  forall (tza : Z) (s : Subscription) (now : Date),
  exists nextBilling : option Date,
    Ranged.getNextBillingDate tza s now = Ok nextBilling
    /\ (nextBilling = None -> Ranged.getDaysUntilBilling tza s now = Ok NaN)
    /\ (forall n : Date,
          nextBilling = Some n ->
          Z.abs (getTime n - getTime now) <= 2 ^ 53 ->
          exists k : Z,
            Ranged.getDaysUntilBilling tza s now = Ok (Num.of_Z k)
            /\ (k - 1) * ES.msPerDay < getTime n - getTime now
               <= k * ES.msPerDay).
Proof.
  intros tza s now. exists (ranged_next tza s now).
  split; [apply RangedFacts.ranged_next_returns|].
  rewrite RangedFacts.ranged_days_returns. split.
  - now intros ->.
  - intros n -> _. exists (days_to now n). split; [reflexivity|].
    unfold days_to, ES.msPerDay. Z.div_mod_to_equations. lia.
Qed.

(** X11: for a well-formed one-time subscription whose end date is a valid
    date, the start date is strictly before the end date, and with two
    cycles or more the cancellation reminder is a valid date strictly
    between the two. *)
Theorem one_time_timeline_valid :
  forall (tza : Z) (s : Subscription) (N : Z) (endDate : Date),
    well_formed s -> isOneTime s = true -> cycleLimit s = Some N -> 1 <= N ->
    Ranged.getSubscriptionEndDate tza s = Ok (Some endDate) ->
    getTime (startDate s) < getTime endDate
    /\ (2 <= N ->
        exists reminder : Date,
          Ranged.getCancellationReminderDate tza s = Some (Some reminder)
          /\ getTime (startDate s) < getTime reminder
          /\ getTime reminder < getTime endDate).
Proof.
  intros tza s N e W H1 HN Hpos H.
  apply RangedFacts.getSubscriptionEndDate_Some in H as (E & V & Ve).
  destruct (exact_timeline tza s N W H1 HN Hpos) as (e' & E' & L & K).
  rewrite E in E'. injection E' as <-. split; [exact L|].
  intros H2. destruct (K H2) as (r & Hr & L1 & L2). exists r.
  split; [|split; assumption].
  revert Hr. unfold Ranged.getCancellationReminderDate,
    getCancellationReminderDate, for_loop.
  destruct (negb (isOneTime s) || negb (truthyZ (cycleLimit s))
            || (valueZ (cycleLimit s) <=? 1)); [discriminate|].
  cbv zeta. intros [= Hr]. f_equal.
  rewrite (RangedFacts.TimeClip_valid _ V). cbn [Ranged.copy].
  rewrite (RangedFacts.TimeClip_valid _ V).
  rewrite RangedFacts.iter_addBillingCycle_clip.
  - rewrite Hr. apply RangedFacts.TimeClip_valid.
    apply RangedFacts.valid_time_range in V, Ve.
    apply RangedFacts.valid_time_range. lia.
  - intros x. pose proof (addBillingCycle_lt tza s x W). lia.
  - exact V.
Qed.

(** X19: when every active subscription has a valid next billing date, the
    dashboard lists exactly the active subscriptions, each once per
    occurrence, soonest billing first; and the 30-day list of the summary is
    the dashboard list restricted to the entries billed within 30 days, in
    the dashboard's order. *)
Theorem dashboard_activeSubscriptions_valid :
  forall (tza : Z) (subs : list Subscription) (today : Date),
    (forall s : Subscription,
        In s subs -> Ranged.isActive tza s today = Ok true ->
        exists d : Date, Ranged.getNextBillingDate tza s today = Ok (Some d)) ->
    exists shown : list Subscription,
      Ranged.activeSubscriptions tza subs today = Ok shown
      /\ Permutation (filter (ranged_active tza today) subs) shown
      /\ StronglySorted (ranged_days_le tza today) shown
      /\ exists summary : SubscriptionSummary,
           Ranged.calculateSummary tza subs today = Ok summary
           /\ upcomingThisMonth summary
              = filter (ranged_upcoming tza (Num.of_Z 30) today) shown.
Proof.
  intros tza subs today H.
  assert (K : forall s, In s (filter (ranged_active tza today) subs) ->
                        Ranged.getDaysUntilBilling tza s today
                        = Ok (Num.of_Z (ranged_days_key tza today s))).
  { intros s Hs. apply filter_In in Hs as [Hin Ha].
    apply RangedFacts.ranged_days_of_key.
    destruct (H s Hin) as [d Hd].
    - rewrite RangedFacts.ranged_active_returns. now rewrite Ha.
    - unfold ranged_next. now rewrite Hd. }
  unfold Ranged.activeSubscriptions.
  rewrite (filterM_returns _ (ranged_active tza today))
    by (intros s; apply RangedFacts.ranged_active_returns).
  cbn [bind].
  rewrite (RangedFacts.sortM_returns_on (ranged_days_key tza today))
    by (intros a b Ha Hb; rewrite (K a Ha), (K b Hb); cbn [bind];
        now rewrite NumFacts.sub_of_Z).
  eexists. split; [reflexivity|]. split; [apply sort_by_perm|]. split.
  - assert (S : StronglySorted
                  (fun a b => ranged_days_key tza today a
                              <= ranged_days_key tza today b)
                  (sort_by (ranged_days_key tza today)
                     (filter (ranged_active tza today) subs)))
      by apply (sort_by_sorted (ranged_days_key tza today)).
    assert (F : Forall (fun s => In s (filter (ranged_active tza today) subs))
                  (sort_by (ranged_days_key tza today)
                     (filter (ranged_active tza today) subs))).
    { apply Forall_forall. intros s Hs.
      eapply Permutation_in; [symmetry; apply sort_by_perm | exact Hs]. }
    revert S F.
    generalize (sort_by (ranged_days_key tza today)
                  (filter (ranged_active tza today) subs)).
    intros l S. induction S as [|a l S IH Ha]; intros F; constructor.
    + apply IH. now inversion F.
    + inversion F as [|? ? Fa Fl]; subst.
      rewrite Forall_forall in Ha, Fl |- *. intros b Hb.
      exists (Num.of_Z (ranged_days_key tza today a)),
        (Num.of_Z (ranged_days_key tza today b)).
      rewrite (K a Fa), (K b (Fl b Hb)), NumFacts.leb_of_Z.
      repeat split. apply Z.leb_le. now apply Ha.
  - unfold Ranged.calculateSummary.
    rewrite (filterM_returns _ (ranged_active tza today))
      by (intros s; apply RangedFacts.ranged_active_returns).
    cbn [bind]. rewrite !RangedFacts.ranged_upcoming_returns. cbn [bind].
    eexists. split; [reflexivity|]. cbn [upcomingThisMonth].
    apply sort_by_filter.
Qed.

(** ** The revised properties at concrete inputs *)

(** C7: the progress of a well-formed subscription is not always a number
    between 0 and 100.  Billed every 100000000 days: on 2024-01-20 the
    candidate 2024-01-01 has passed, one cycle on lies beyond the range of
    dates, the next billing date is the Invalid Date, and the progress is
    NaN, which the clamp lets through. *)
Lemma getBillingCycleProgress_NaN_out_of_range :
  well_formed sample_long_cycle
  /\ valid_time date_2024_01_20 = true
  /\ Ranged.getNextBillingDate 0 sample_long_cycle date_2024_01_20 = Ok None
  /\ Ranged.getBillingCycleProgress 0 sample_long_cycle date_2024_01_20
     = Ok NaN
  /\ Num.leb (Num.of_Z 0) NaN = false.
Proof.
  split.
  { split; [do 4 right; reflexivity|]. intros _. exists 100000000.
    split; [reflexivity | lia]. }
  repeat split; vm_compute; reflexivity.
Qed.

Lemma getBillingCycleProgress_clamped_witness :
  well_formed sample_monthly
  /\ valid_time date_2024_01_20 = true
  /\ exists next : option Date,
       Ranged.getNextBillingDate 0 sample_monthly date_2024_01_20 = Ok next
       /\ (Ranged.subtractBillingCycle 0 (Ranged.copy next)
             (frequency sample_monthly) (customFrequencyDays sample_monthly)
           = None ->
           Ranged.getBillingCycleProgress 0 sample_monthly date_2024_01_20
           = Ok NaN)
       /\ (forall prev : Date,
             Ranged.subtractBillingCycle 0 (Ranged.copy next)
               (frequency sample_monthly) (customFrequencyDays sample_monthly)
             = Some prev ->
             exists progress : number,
               Ranged.getBillingCycleProgress 0 sample_monthly date_2024_01_20
               = Ok progress
               /\ Num.leb (Num.of_Z 0) progress = true
               /\ Num.leb progress (Num.of_Z 100) = true).
Proof.
  split; [exact well_formed_sample_monthly|].
  split; [vm_compute; reflexivity|].
  apply (getBillingCycleProgress_clamped 0 sample_monthly date_2024_01_20);
    [exact well_formed_sample_monthly | vm_compute; reflexivity].
Defined.

Lemma getSubscriptionEndDate_calendar_clip_witness :
  valid_time (startDate sample_six_months) = true
  /\ Ranged.getSubscriptionEndDate 0 sample_six_months
     = Ok (TimeClip (plus_months 0 (1 * 6) (startDate sample_six_months)))
  /\ getDate 0 (plus_months 0 (1 * 6) (startDate sample_six_months))
     = getDate 0 (startDate sample_six_months)
  /\ 12 * getFullYear 0 (plus_months 0 (1 * 6) (startDate sample_six_months))
     + getMonth 0 (plus_months 0 (1 * 6) (startDate sample_six_months))
     = 12 * getFullYear 0 (startDate sample_six_months)
       + getMonth 0 (startDate sample_six_months) + 1 * 6
  /\ ES.TimeWithinDay
       (LocalTime 0
          (getTime (plus_months 0 (1 * 6) (startDate sample_six_months))))
     = ES.TimeWithinDay (LocalTime 0 (getTime (startDate sample_six_months))).
Proof.
  split; [vm_compute; reflexivity|].
  apply (getSubscriptionEndDate_calendar_clip 0 sample_six_months 6 1);
    [reflexivity | reflexivity | lia | reflexivity | vm_compute; discriminate
    | vm_compute; reflexivity].
Defined.

Lemma getSubscriptionEndDate_custom_clip_witness :
  valid_time (startDate sample_three_decades) = true
  /\ Ranged.getSubscriptionEndDate 0 sample_three_decades
     = Ok (TimeClip
             (mkDate (getTime (startDate sample_three_decades)
                      + 3 * 10 * ES.msPerDay))).
Proof.
  split; [vm_compute; reflexivity|].
  apply (getSubscriptionEndDate_custom_clip 0 sample_three_decades 3 10);
    [reflexivity | reflexivity | lia | reflexivity | reflexivity | lia
    | vm_compute; reflexivity].
Defined.

Lemma one_time_timeline_valid_witness :
  well_formed sample_six_months
  /\ Ranged.getSubscriptionEndDate 0 sample_six_months
     = Ok (Some date_2024_07_01)
  /\ getTime (startDate sample_six_months) < getTime date_2024_07_01
  /\ (2 <= 6 ->
      exists reminder : Date,
        Ranged.getCancellationReminderDate 0 sample_six_months
        = Some (Some reminder)
        /\ getTime (startDate sample_six_months) < getTime reminder
        /\ getTime reminder < getTime date_2024_07_01).
Proof.
  split; [exact well_formed_sample_six_months|].
  split; [vm_compute; reflexivity|].
  apply (one_time_timeline_valid 0 sample_six_months 6 date_2024_07_01);
    [exact well_formed_sample_six_months | reflexivity | reflexivity | lia
    | vm_compute; reflexivity].
Defined.

Lemma dashboard_activeSubscriptions_valid_witness :
  exists shown : list Subscription,
    Ranged.activeSubscriptions 0
      (sample_live :: sample_monthly :: sample_deleted :: sample_course :: nil)
      date_2024_01_08 = Ok shown
    /\ Permutation
         (filter (ranged_active 0 date_2024_01_08)
            (sample_live :: sample_monthly :: sample_deleted :: sample_course
             :: nil))
         shown
    /\ StronglySorted (ranged_days_le 0 date_2024_01_08) shown
    /\ exists summary : SubscriptionSummary,
         Ranged.calculateSummary 0
           (sample_live :: sample_monthly :: sample_deleted :: sample_course
            :: nil)
           date_2024_01_08 = Ok summary
         /\ upcomingThisMonth summary
            = filter (ranged_upcoming 0 (Num.of_Z 30) date_2024_01_08) shown.
Proof.
  apply (dashboard_activeSubscriptions_valid 0
           (sample_live :: sample_monthly :: sample_deleted :: sample_course
            :: nil)
           date_2024_01_08).
  intros s [<-|[<-|[<-|[<-|[]]]]] A.
  - exists (mkDate 1706140800000). vm_compute. reflexivity.
  - exists date_2024_01_15. vm_compute. reflexivity.
  - vm_compute in A. discriminate A.
  - exists (mkDate 1706745600000). vm_compute. reflexivity.
Defined.

(** With an entry whose next billing date is the Invalid Date the days are
    NaN, the comparator of the dashboard returns NaN on it, and the entry is
    in no window of [getUpcomingSubscriptions]. *)
Example scenario_invalid_next :
  Ranged.isActive 0 sample_long_cycle date_2024_01_20 = Ok true
  /\ Ranged.getDaysUntilBilling 0 sample_long_cycle date_2024_01_20 = Ok NaN
  /\ Ranged.getUpcomingSubscriptions 0 (sample_long_cycle :: sample_monthly :: nil)
       PosInf date_2024_01_20
     = Ok (sample_monthly :: nil).
Proof. repeat split; vm_compute; reflexivity. Qed.

Lemma getNextBillingDate_future_valid_witness :
  (forall next : Date,
      Ranged.getNextBillingDate 0 sample_monthly date_2024_01_20
      = Ok (Some next) ->
      getTime date_2024_01_20 < getTime next)
  /\ (billingDate sample_monthly <= 31 ->
      100 <= getFullYear 0 date_2024_01_20 ->
      Z.abs (getTime date_2024_01_20) <= maxTime - 403 * ES.msPerDay ->
      exists next : Date,
        Ranged.getNextBillingDate 0 sample_monthly date_2024_01_20
        = Ok (Some next)).
Proof.
  apply (getNextBillingDate_future_valid 0 sample_monthly date_2024_01_20);
    [reflexivity | simpl; lia | left; reflexivity].
Defined.

(** On 2024-01-20 the monthly subscription billed on the 15th is next billed
    on 2024-02-15, a valid date, and reminded of three days before. *)
Example scenario_ranged_next :
  Ranged.getNextBillingDate 0 sample_monthly date_2024_01_20
  = Ok (Some date_2024_02_15)
  /\ Ranged.getReminderDate 0 sample_monthly date_2024_01_20
     = Ok (Some (Some (mkDate 1707696000000)))
  /\ Ranged.getDaysUntilBilling 0 sample_monthly date_2024_01_20
     = Ok (Num.of_Z 26).
Proof. repeat split; vm_compute; reflexivity. Qed.

Lemma getMonthlyEquivalent_doubling_witness :
  plain_amount sample_ninety_days
  /\ getMonthlyEquivalent
       (with_amount (Num.mul (Num.of_Z 2) (amount sample_ninety_days))
          sample_ninety_days)
     = Num.mul (Num.of_Z 2) (getMonthlyEquivalent sample_ninety_days).
Proof.
  assert (P : plain_amount sample_ninety_days).
  { split.
    - exists (Q2Qc (inject_Z 300)). split; [reflexivity|]. right.
      split; vm_compute; discriminate.
    - intros d [= <-]. vm_compute. discriminate. }
  split; [exact P|].
  apply (getMonthlyEquivalent_doubling sample_ninety_days). exact P.
Defined.
